(** * datafun-03-analytics: the four ETVL pipelines

    A shallow embedding of the Extract / Transform / Verify / Load steps of
    [case_csv_pipeline.py], [case_json_pipeline.py], [case_xlsx_pipeline.py]
    and [case_text_pipeline.py] and of [main] of [app_case.py], together
    with the parts of the Python runtime the steps rely on (exceptions,
    [str] methods, [float], [min]/[max], the [statistics] module, text
    files).

    Layout: the Python runtime model, then the four pipelines, then the
    properties. *)

From Stdlib Require Import ZArith QArith Qround Qpower Qabs Lqa Lia Ascii String.
From stdpp Require Import gmap strings list sorting pretty.

Local Open Scope Z_scope.

(** ** Exceptions and the error monad *)

(** The exception classes the pipelines can raise.  Messages are not
    modelled.  [StatisticsError] and [UnicodeDecodeError] are subclasses
    of [ValueError] in Python; [CsvError] is [csv.Error]. *)
Inductive exn :=
  | FileNotFoundError
  | IsADirectoryError
  | KeyError
  | TypeError
  | ValueError
  | StatisticsError
  | OverflowError
  | AttributeError
  | ZeroDivisionError
  | CsvError
  | UnicodeDecodeError.

#[global] Instance exn_eq_dec : EqDecision exn.
Proof. solve_decision. Defined.

(** A Python computation either returns a value or raises. *)
Inductive result (A : Type) :=
  | Ok (a : A)
  | Raise (e : exn).
Arguments Ok {A} a.
Arguments Raise {A} e.

Definition bind {A B} (r : result A) (k : A -> result B) : result B :=
  match r with
  | Ok a => k a
  | Raise e => Raise e
  end.

Notation "x <- r ;; k" := (bind r (fun x => k))
  (at level 100, r at next level, right associativity).

Definition returns {A} (r : result A) : bool :=
  match r with Ok _ => true | Raise _ => false end.

(** ** Python floats (IEEE 754 binary64)

    A finite float is represented by its exact value, a rational; the sign
    of a zero is not tracked ([-0.0 == 0.0] in Python, they only print
    differently). *)
Inductive float :=
  | Fnan
  | Finf (neg : bool)
  | Ffin (q : Q).

Definition Qltb (a b : Q) : bool := negb (Qle_bool b a).

(** [x < y], [x <= y], [x > y] on floats: every comparison with a NaN is
    false. *)
Definition float_lt (x y : float) : bool :=
  match x, y with
  | Fnan, _ | _, Fnan => false
  | Ffin a, Ffin b => Qltb a b
  | Finf true, Finf true => false
  | Finf true, _ => true
  | _, Finf true => false
  | Finf false, _ => false
  | Ffin _, Finf false => true
  end.

Definition float_le (x y : float) : bool :=
  match x, y with
  | Fnan, _ | _, Fnan => false
  | Ffin a, Ffin b => Qle_bool a b
  | Finf true, _ => true
  | _, Finf true => false
  | _, Finf false => true
  | Finf false, Ffin _ => false
  end.

Definition float_gt (x y : float) : bool := float_lt y x.

Definition is_finite (x : float) : bool :=
  match x with Ffin _ => true | _ => false end.

Definition is_nan (x : float) : bool :=
  match x with Fnan => true | _ => false end.

(** *** Rounding to nearest, ties to even *)

(** [floor (log2 q)] for [q > 0]. *)
Definition Qilog2 (q : Q) : Z :=
  let l := Z.log2 (Qnum q) - Z.log2 (Zpos (Qden q)) in
  if Qle_bool (2 ^ l) q then l else l - 1.

(** The nearest integer, the even one at a tie. *)
Definition Qround_half_even (x : Q) : Z :=
  let f := Qfloor x in
  match (x - inject_Z f ?= 1 # 2)%Q with
  | Lt => f
  | Gt => f + 1
  | Eq => if Z.even f then f else f + 1
  end.

(** The exponent of the last place of a binary64 number of the magnitude of
    [q > 0]: 53 significant bits, and no exponent below that of the
    subnormals, [2^-1074]. *)
Definition ulp_exponent (q : Q) : Z := Z.max (Qilog2 q - 52) (-1074).

Definition round_pos (q : Q) : Q :=
  let e := ulp_exponent q in
  (inject_Z (Qround_half_even (q / 2 ^ e)) * 2 ^ e)%Q.

(** The binary64 number nearest to [q], with an unbounded exponent range
    upwards; [float_overflow] tells whether it is out of range. *)
Definition round_b64 (q : Q) : Q :=
  match (q ?= 0)%Q with
  | Eq => 0%Q
  | Gt => Qred (round_pos q)
  | Lt => Qred (- round_pos (- q))
  end.

Definition float_overflow (r : Q) : bool := Qle_bool (2 ^ 1024) (Qabs r).

(** The rationals that are binary64 numbers. *)
Definition is_binary64 (q : Q) : bool :=
  Qeq_bool (round_b64 q) q && negb (float_overflow q).

(** A float of the model is a Python float when its finite value is one. *)
Definition float_ok (x : float) : bool :=
  match x with
  | Ffin q => is_binary64 q
  | _ => true
  end.

(** Conversion of an exact value where Python saturates ([float(str)],
    float arithmetic). *)
Definition float_of_Q_inf (q : Q) : float :=
  let r := round_b64 q in
  if float_overflow r then Finf (Qltb q 0) else Ffin r.

(** Conversion of an exact value where Python raises: [int / int],
    [float(int)], [float(Fraction)]. *)
Definition float_of_Q_exn (q : Q) : result float :=
  let r := round_b64 q in
  if float_overflow r then Raise OverflowError else Ok (Ffin r).

(** [a / b] on ints: correctly rounded true division. *)
Definition int_true_divide (a b : Z) : result float :=
  if b =? 0 then Raise ZeroDivisionError
  else float_of_Q_exn (inject_Z a / inject_Z b).

(** [float(n)] for an int. *)
Definition float_of_int (n : Z) : result float := float_of_Q_exn (inject_Z n).

(** [float(frac)] for a [Fraction]: [numerator / denominator]. *)
Definition float_of_Fraction (q : Q) : result float :=
  let q' := Qred q in int_true_divide (Qnum q') (Zpos (Qden q')).

(** [x + y] on floats. *)
Definition float_add (x y : float) : float :=
  match x, y with
  | Fnan, _ | _, Fnan => Fnan
  | Finf a, Finf b => if Bool.eqb a b then Finf a else Fnan
  | Finf a, Ffin _ | Ffin _, Finf a => Finf a
  | Ffin a, Ffin b => float_of_Q_inf (a + b)
  end.

(** [x / n] for a float and an int [n > 0]. *)
Definition float_div_pos_int (x : float) (n : Z) : float :=
  match x with
  | Ffin a => float_of_Q_inf (a / inject_Z n)
  | _ => x
  end.

(** [int(x)]: truncation towards zero. *)
Definition int_of_float (x : float) : result Z :=
  match x with
  | Fnan => Raise ValueError
  | Finf _ => Raise OverflowError
  | Ffin q => Ok (if Qle_bool 0 q then Qfloor q else Qceiling q)
  end.

(** ** Python strings

    A [str] is modelled by a Rocq [string] read as a sequence of code
    points below 256 (Latin-1); the [str] methods below are the Python ones
    restricted to that range. *)

Local Open Scope string_scope.
Local Open Scope Z_scope.

Definition code (c : ascii) : Z := Z.of_nat (nat_of_ascii c).

(** [c.isspace()]: TAB, LF, VT, FF, CR, the separators FS, GS, RS, US,
    SPACE, NEL and NBSP. *)
Definition is_space (c : ascii) : bool :=
  let n := code c in
  ((9 <=? n) && (n <=? 13)) || ((28 <=? n) && (n <=? 32))
  || (n =? 133) || (n =? 160).

Fixpoint lstrip (s : string) : string :=
  match s with
  | String c s' => if is_space c then lstrip s' else s
  | "" => ""
  end.

Fixpoint rstrip (s : string) : string :=
  match s with
  | String c s' =>
      match rstrip s' with
      | "" => if is_space c then "" else String c ""
      | t => String c t
      end
  | "" => ""
  end.

(** [s.strip()] *)
Definition strip (s : string) : string := rstrip (lstrip s).

(** A string is falsy exactly when it is empty. *)
Definition str_truthy (s : string) : bool :=
  match s with "" => false | _ => true end.

(** [c.lower()]: A-Z, and the upper-case letters of the Latin-1 supplement
    (U+00C0..U+00DE without the multiplication sign U+00D7). *)
Definition lower_char (c : ascii) : ascii :=
  let n := code c in
  if ((65 <=? n) && (n <=? 90))
     || ((192 <=? n) && (n <=? 222) && negb (n =? 215))
  then ascii_of_nat (nat_of_ascii c + 32) else c.

(** [s.lower()] *)
Fixpoint lower (s : string) : string :=
  match s with
  | String c s' => String (lower_char c) (lower s')
  | "" => ""
  end.

(** The left-to-right scan of [s.count(sub)] for a non-empty [sub]:
    [skip] characters are still covered by the occurrence found last. *)
Fixpoint count_scan (sub : string) (skip : nat) (s : string) : nat :=
  match s with
  | "" => O
  | String _ s' =>
      match skip with
      | S k => count_scan sub k s'
      | O =>
          if String.prefix sub s
          then S (count_scan sub (String.length sub - 1) s')
          else count_scan sub O s'
      end
  end.

(** [s.count(sub)]: the number of non-overlapping occurrences of [sub]; an
    empty [sub] is found between all characters. *)
Definition str_count (s sub : string) : Z :=
  match sub with
  | "" => Z.of_nat (String.length s) + 1
  | _ => Z.of_nat (count_scan sub O s)
  end.

(** The left-to-right scan of [s.split()]: [word] holds the characters of
    the word that is being read; a white-space character ends it, and
    white space before a word is skipped. *)
Fixpoint split_scan (word : string) (s : string) : list string :=
  match s with
  | "" => if str_truthy word then [word] else []
  | String c s' =>
      if is_space c
      then (if str_truthy word then word :: split_scan "" s'
            else split_scan "" s')
      else split_scan (word +:+ String c "") s'
  end.

(** [s.split()]: the words of [s], the maximal runs of characters that are
    not white space. *)
Definition str_split (s : string) : list string := split_scan "" s.

(** The decimal digits of an int, with its sign. *)
Definition str_of_int (n : Z) : string := pretty n.

(** [str(n)] and [f"{n}"] for an int.  CPython 3.11 and later refuse to
    convert an int of more than [sys.int_max_str_digits] digits, 4300
    unless the limit is changed, which the program does not do. *)
Definition max_str_digits : Z := 4300.

Definition format_int (n : Z) : result string :=
  if 10 ^ max_str_digits <=? Z.abs n then Raise ValueError
  else Ok (str_of_int n).

(** [sorted(keys)] on strings: ascending in the lexicographic order of the
    code points, [String.le].  Python's sort is a stable merge sort; on a
    total order every sort returns the same list. *)
Definition sorted (l : list string) : list string := merge_sort String.le l.

(** *** [float(s)] *)

Definition is_digit (c : ascii) : bool := (48 <=? code c) && (code c <=? 57).
Definition digit_val (c : ascii) : Z := code c - 48.

(** The rest of a digit part: digits, each possibly preceded by one
    underscore.  Returns the value, the number of digits read and the
    unread rest. *)
Fixpoint digits_rest (acc : Z) (cnt : Z) (s : string) : Z * Z * string :=
  match s with
  | String c s' =>
      if is_digit c then digits_rest (10 * acc + digit_val c) (cnt + 1) s'
      else if Ascii.eqb c "_" then
        match s' with
        | String d s'' =>
            if is_digit d
            then digits_rest (10 * acc + digit_val d) (cnt + 1) s''
            else (acc, cnt, s)
        | "" => (acc, cnt, s)
        end
      else (acc, cnt, s)
  | "" => (acc, cnt, s)
  end.

(** A digit part starts with a digit; [None] when there is none. *)
Definition digitpart (acc : Z) (s : string) : option (Z * Z * string) :=
  match s with
  | String c s' =>
      if is_digit c then Some (digits_rest (10 * acc + digit_val c) 1 s')
      else None
  | "" => None
  end.

Definition sign_prefix (s : string) : bool * string :=
  match s with
  | String "-" s' => (true, s')
  | String "+" s' => (false, s')
  | _ => (false, s)
  end.

(** The exponent part, [e] or [E], an optional sign and a digit part;
    nothing at all stands for exponent zero. *)
Definition exponent_part (s : string) : option Z :=
  match s with
  | "" => Some 0
  | String c s' =>
      if Ascii.eqb c "e" || Ascii.eqb c "E" then
        let '(neg, s'') := sign_prefix s' in
        match digitpart 0 s'' with
        | Some (e, _, "") => Some (if neg : bool then - e else e)
        | _ => None
        end
      else None
  end.

(** The exact value of a decimal literal
    [digits [. [digits]] [exponent]] or [. digits [exponent]]. *)
Definition decimal_literal (s : string) : option Q :=
  let '(m, n_int, s1) :=
    match digitpart 0 s with Some r => r | None => (0, 0, s) end in
  let '(m, n_frac, s2) :=
    match s1 with
    | String "." s1' =>
        match digitpart m s1' with
        | Some (m', k, r) => (m', k, r)
        | None => (m, 0, s1')
        end
    | _ => (m, 0, s1)
    end in
  if (n_int + n_frac =? 0) then None
  else match exponent_part s2 with
       | Some e => Some (inject_Z m * 10 ^ (e - n_frac))%Q
       | None => None
       end.

(** [float(s)]: surrounding white space is ignored; a sign, then [inf],
    [infinity] or [nan] in any case, or a decimal literal, which is rounded
    correctly and overflows to an infinity.  Anything else is a
    [ValueError]. *)
Definition float_of_str (s : string) : result float :=
  let '(neg, body) := sign_prefix (strip s) in
  let low := lower body in
  if String.eqb low "inf" || String.eqb low "infinity" then Ok (Finf neg)
  else if String.eqb low "nan" then Ok Fnan
  else match decimal_literal body with
       | Some q => Ok (float_of_Q_inf (if neg then - q else q))
       | None => Raise ValueError
       end.

(** *** [f"{x:.2f}"] *)

Definition two_digits (n : Z) : string :=
  (if n <? 10 then "0" else "") +:+ str_of_int n.

(** The exact value rounded to two decimals, ties to even, which is what
    the correctly rounded formatting of CPython gives. *)
Definition format_2f (x : float) : string :=
  match x with
  | Fnan => "nan"
  | Finf false => "inf"
  | Finf true => "-inf"
  | Ffin q =>
      let k := Qround_half_even (Qabs q * 100) in
      (if Qltb q 0 then "-" else "")
      +:+ str_of_int (k / 100) +:+ "." +:+ two_digits (k mod 100)
  end.

(** ** Built-in [min] and [max]

    Both scan from the left and keep the first extreme element: [min]
    replaces the current one by an item that is [<] it, [max] by one that
    is [>] it.  An empty argument is a [ValueError]. *)

Definition min_step (cur item : float) : float :=
  if float_lt item cur then item else cur.

Definition max_step (cur item : float) : float :=
  if float_gt item cur then item else cur.

Definition builtin_min (l : list float) : result float :=
  match l with
  | [] => Raise ValueError
  | x :: l' => Ok (fold_left min_step l' x)
  end.

Definition builtin_max (l : list float) : result float :=
  match l with
  | [] => Raise ValueError
  | x :: l' => Ok (fold_left max_step l' x)
  end.

(** ** The [statistics] module (CPython 3.11 and later)

    Sums are exact: every finite float is turned into its exact ratio and
    added as a [Fraction]; only the final result is rounded. *)
Module statistics.

(** The entry [partials[None]] of [_sum] and [_ss]: the float sum of the
    values that are not finite, [None] when there are none. *)
Definition nonfinite_total (data : list float) : option float :=
  fold_left
    (fun acc x =>
       if is_finite x then acc
       else Some (match acc with None => x | Some t => float_add t x end))
    data None.

(** The exact sum of [f x] over the finite values. *)
Definition exact_sum (f : Q -> Q) (data : list float) : Q :=
  fold_left
    (fun acc x => match x with Ffin q => (acc + f q)%Q | _ => acc end)
    data 0%Q.

(** [_sum(data)]: the total and the count.  The total is a [Fraction]
    ([inl]) unless some value is not finite ([inr]). *)
Definition _sum (data : list float) : (Q + float) * Z :=
  (match nonfinite_total data with
   | Some t => inr t
   | None => inl (exact_sum (fun q => q) data)
   end, Z.of_nat (length data)).

(** [mean(data)] *)
Definition mean (data : list float) : result float :=
  let '(total, n) := _sum data in
  if n <? 1 then Raise StatisticsError
  else match total with
       | inl t => float_of_Fraction (t / inject_Z n)
       | inr t => Ok (float_div_pos_int t n)
       end.

(** [_ss(data)]: the sum of the squared deviations from the mean and the
    count (the mean it also returns is not used by [stdev]). *)
Definition _ss (data : list float) : (Q + float) * Z :=
  let count := Z.of_nat (length data) in
  (if count =? 0 then inl 0%Q
   else match nonfinite_total data with
        | Some t => inr t
        | None =>
            let sx := exact_sum (fun q => q) data in
            let sxx := exact_sum (fun q => q * q)%Q data in
            inl ((inject_Z count * sxx - sx * sx) / inject_Z count)%Q
        end, count).

(** [n.bit_length()] *)
Definition bit_length (n : Z) : Z :=
  if n =? 0 then 0 else Z.log2 (Z.abs n) + 1.

(** The square root of [n/m] rounded to an integer, to odd. *)
Definition _integer_sqrt_of_frac_rto (n m : Z) : Z :=
  let a := Z.sqrt (n / m) in
  Z.lor a (if a * a * m =? n then 0 else 1).

Definition _sqrt_bit_width : Z := 2 * 53 + 3.

(** The square root of [n/m] as a float; the final [int / int] raises
    [OverflowError] when the root is out of the float range. *)
Definition _float_sqrt_of_frac (n m : Z) : result float :=
  let q := (bit_length n - bit_length m - _sqrt_bit_width) / 2 in
  if 0 <=? q then
    int_true_divide
      (Z.shiftl (_integer_sqrt_of_frac_rto n (Z.shiftl m (2 * q))) q) 1
  else
    int_true_divide
      (_integer_sqrt_of_frac_rto (Z.shiftl n (- 2 * q)) m)
      (Z.shiftl 1 (- q)).

(** [stdev(data)]: the square root of the sample variance.  With a value
    that is not finite, [mss] is a float, which has no [numerator]. *)
Definition stdev (data : list float) : result float :=
  let '(ss, n) := _ss data in
  if n <? 2 then Raise StatisticsError
  else match ss with
       | inr _ => Raise AttributeError
       | inl ssd =>
           let mss := Qred (ssd / inject_Z (n - 1)) in
           _float_sqrt_of_frac (Qnum mss) (Zpos (Qden mss))
       end.

End statistics.

(** ** Dictionaries

    A [dict] with [str] keys is a finite map; the insertion order, which no
    step of the pipelines depends on, is not kept. *)

(** [d[k]] *)
Definition getitem {V} (d : gmap string V) (k : string) : result V :=
  match d !! k with
  | Some v => Ok v
  | None => Raise KeyError
  end.

(** ** Files

    A [Path] is the list of its parts.  The world holds the regular files
    with their text, the directories, and the log of the operations done on
    it.  Failures of the operating system other than a missing file are
    outside the model. *)

Definition Path := list string.

(** [p / name] *)
Definition path_div (p : Path) (name : string) : Path := (p ++ [name])%list.

(** [p.parent] *)
Definition parent (p : Path) : Path := removelast p.

Inductive io_event :=
  | EvExists (p : Path)
  | EvOpenRead (p : Path)
  | EvParse (p : Path)
  | EvMkdir (p : Path)
  | EvOpenWrite (p : Path)
  | EvWrite (p : Path) (text : string).

Record world := World {
  files : gmap Path string;
  dirs : gset Path;
  trace : list io_event
}.

Definition log (ev : io_event) (w : world) : world :=
  World (files w) (dirs w) (trace w ++ [ev])%list.

(** A step of a pipeline acts on the world and returns or raises. *)
Definition io (A : Type) : Type := world -> result A * world.

Definition io_ret {A} (a : A) : io A := fun w => (Ok a, w).
Definition io_raise {A} (e : exn) : io A := fun w => (Raise e, w).
Definition io_lift {A} (r : result A) : io A := fun w => (r, w).

Definition io_bind {A B} (m : io A) (k : A -> io B) : io B :=
  fun w =>
    match m w with
    | (Ok a, w') => k a w'
    | (Raise e, w') => (Raise e, w')
    end.

Notation "x <~ m ;; k" := (io_bind m (fun x => k))
  (at level 100, m at next level, right associativity).
Notation "m ;;; k" := (io_bind m (fun _ => k))
  (at level 100, right associativity).

(** [p.exists()] *)
Definition path_exists (p : Path) : io bool :=
  fun w =>
    (Ok (bool_decide (is_Some (files w !! p)) || bool_decide (p ∈ dirs w)),
     log (EvExists p) w).

(** [p.open("r")] followed by reading the text. *)
Definition open_read (p : Path) : io string :=
  fun w =>
    (match files w !! p with
     | Some text => Ok text
     | None =>
         Raise (if bool_decide (p ∈ dirs w) then IsADirectoryError
                else FileNotFoundError)
     end, log (EvOpenRead p) w).

(** Handing the text of [p] to a parser. *)
Definition parse {A} (p : Path) (parser : string -> A) (text : string) : io A :=
  fun w => (Ok (parser text), log (EvParse p) w).

(** All the paths from the first part down to [p]. *)
Definition with_parents (p : Path) : list Path :=
  map (fun n => take n p) (seq 1 (length p)).

(** [p.mkdir(parents=True, exist_ok=True)] *)
Definition mkdir_parents (p : Path) : io unit :=
  fun w =>
    (Ok tt,
     log (EvMkdir p)
       (World (files w) (dirs w ∪ list_to_set (with_parents p)) (trace w))).

(** [p.open("w")]: the file is created or emptied. *)
Definition open_write (p : Path) : io unit :=
  fun w =>
    (Ok tt, log (EvOpenWrite p) (World (<[p := ""]> (files w)) (dirs w) (trace w))).

(** [f.write(text)] on the file opened at [p]. *)
Definition write (p : Path) (text : string) : io unit :=
  fun w =>
    (Ok tt,
     log (EvWrite p text)
       (World (<[p := default "" (files w !! p) +:+ text]> (files w))
          (dirs w) (trace w))).

Definition nl : string := String "010" "".

(** ** Parsed inputs *)

(** A row of [csv.DictReader]: a field maps to its cell, or to [None] when
    the row is too short. *)
Definition csv_row := gmap string (option string).

(** What a [csv.DictReader] gives on the text of a file: the field names
    when the header line is read ([None] for an empty file), and the rows
    when the lines after it are read.  Either reading can raise: the reader
    refuses a field of more than 131072 characters with [csv.Error], and
    the file, which is opened as UTF-8, bytes that are not UTF-8 with
    [UnicodeDecodeError]. *)
Record csv_table := CsvReading {
  fieldnames : result (option (list string));
  rows : result (list csv_row)
}.

(** The reading of a file that the reader accepts to its end. *)
Definition CsvTable (names : option (list string)) (rs : list csv_row)
  : csv_table :=
  CsvReading (Ok names) (Ok rs).

(** A value of [json.load]. *)
#[warning="-register-all"]
Inductive json :=
  | JNull
  | JBool (b : bool)
  | JInt (n : Z)
  | JFloat (x : float)
  | JStr (s : string)
  | JList (l : list json)
  | JDict (d : gmap string json).

(** The value of a spreadsheet cell. *)
Inductive cell_value :=
  | CellNone
  | CellStr (s : string)
  | CellNumber (x : float)
  | CellBool (b : bool).

(** A workbook of [openpyxl]: its active sheet, if any, gives the cells of
    a column by its letter, or raises. *)
Record workbook := Workbook {
  active : option (string -> result (list cell_value))
}.

(** * The pipelines *)

Section pipelines.

(** The parsers of the input formats are collaborators of the pipelines:
    [csv.DictReader], [json.load], [openpyxl.load_workbook] and
    [readlines] of a text file. *)
Variable csv_DictReader : string -> csv_table.
Variable json_load : string -> result json.
Variable openpyxl_load_workbook : string -> result workbook.
Variable readlines : string -> list string.

(** ** case_csv_pipeline.py *)

(** [(row.get(column_name) or "").strip()] *)
Definition raw_value_of (row : csv_row) (column_name : string) : string :=
  strip (match row !! column_name with
         | Some (Some s) => s
         | _ => ""
         end).

(** One turn of the loop over the rows: blank cells and cells that
    [float] rejects with a [ValueError] are skipped.  The reader hands
    over the rows one at a time while the loop runs; as a turn has no
    effect but on [scores], an error of the reader at any row makes the
    extractor raise it, whatever the rows before held. *)
Definition scores_step (column_name : string)
    (acc : result (list float)) (row : csv_row) : result (list float) :=
  scores <- acc;;
  let raw_value := raw_value_of row column_name in
  if negb (str_truthy raw_value) then Ok scores
  else match float_of_str raw_value with
       | Ok x => Ok (scores ++ [x])%list
       | Raise ValueError => Ok scores
       | Raise e => Raise e
       end.

Definition scores_of_rows (column_name : string) (rs : list csv_row)
  : result (list float) :=
  fold_left (scores_step column_name) rs (Ok []).

Definition extract_csv_scores (file_path : Path) (column_name : string)
  : io (list float) :=
  found <~ path_exists file_path;;
  if negb found then io_raise FileNotFoundError
  else
    text <~ open_read file_path;;
    reader <~ parse file_path csv_DictReader text;;
    names <~ io_lift (fieldnames reader);;
    match names with
    | None => io_raise KeyError
    | Some names =>
        if negb (bool_decide (column_name ∈ names)) then io_raise KeyError
        else
          rs <~ io_lift (rows reader);;
          io_lift (scores_of_rows column_name rs)
    end.

Definition transform_scores_to_stats (scores : list float)
  : result (gmap string float) :=
  match scores with
  | [] => Raise ValueError
  | _ =>
      count <- float_of_int (Z.of_nat (length scores));;
      lo <- builtin_min scores;;
      hi <- builtin_max scores;;
      avg <- statistics.mean scores;;
      sd <- (if 1 <? Z.of_nat (length scores)
             then statistics.stdev scores else Ok (Ffin 0));;
      Ok (list_to_map
            [("count", count); ("min", lo); ("max", hi);
             ("mean", avg); ("stdev", sd)])
  end.

Definition stats_required : gset string :=
  list_to_set ["count"; "min"; "max"; "mean"; "stdev"].

Definition verify_stats (stats : gmap string float) : result unit :=
  let missing := stats_required ∖ dom stats in
  if bool_decide (missing ≠ ∅) then Raise KeyError
  else
    count <- getitem stats "count";;
    if float_le count (Ffin 0) then Raise ValueError
    else
      lo <- getitem stats "min";;
      hi <- getitem stats "max";;
      if float_gt lo hi then Raise ValueError else Ok tt.

(** The count is written with [str_of_int]: [int(x)] of a float has at
    most 309 digits, which [format_int] converts. *)
Definition load_stats_report (stats : gmap string float) (out_path : Path)
  : io unit :=
  mkdir_parents (parent out_path);;;
  open_write out_path;;;
  write out_path ("CSV Ladder Score Statistics" +:+ nl);;;
  count <~ io_lift (getitem stats "count");;
  n <~ io_lift (int_of_float count);;
  write out_path ("Count: " +:+ str_of_int n +:+ nl);;;
  lo <~ io_lift (getitem stats "min");;
  write out_path ("Minimum: " +:+ format_2f lo +:+ nl);;;
  hi <~ io_lift (getitem stats "max");;
  write out_path ("Maximum: " +:+ format_2f hi +:+ nl);;;
  avg <~ io_lift (getitem stats "mean");;
  write out_path ("Mean: " +:+ format_2f avg +:+ nl);;;
  sd <~ io_lift (getitem stats "stdev");;
  write out_path ("Standard Deviation: " +:+ format_2f sd +:+ nl).

(** The calls of the logger, which is an argument of the pipeline, are
    left out here and in the other pipelines; [main], which gives them its
    logger, makes them. *)
Definition run_csv_pipeline (raw_dir processed_dir : Path) : io unit :=
  let input_file := path_div raw_dir "2020_happiness.csv" in
  let output_file := path_div processed_dir "csv_ladder_score_stats.txt" in
  scores <~ extract_csv_scores input_file "Ladder score";;
  stats <~ io_lift (transform_scores_to_stats scores);;
  io_lift (verify_stats stats);;;
  load_stats_report stats output_file.

(** ** case_json_pipeline.py *)

Definition extract_people_list (file_path : Path) (list_key : string)
  : io (list (gmap string json)) :=
  found <~ path_exists file_path;;
  if negb found then io_raise FileNotFoundError
  else
    text <~ open_read file_path;;
    loaded <~ parse file_path json_load text;;
    data <~ io_lift loaded;;
    match data with
    | JDict d =>
        match default (JList []) (d !! list_key) with
        | JList value =>
            io_ret
              (fold_left
                 (fun people_list item =>
                    match item with
                    | JDict person => (people_list ++ [person])%list
                    | _ => people_list
                    end)
                 value [])
        | _ => io_raise TypeError
        end
    | _ => io_raise TypeError
    end.

(** The group of a person: the value under [craft_key] when it is a
    string that is not blank, and ["Unknown"] otherwise. *)
Definition craft_of (craft_key : string) (person : gmap string json)
  : string :=
  match default (JStr "Unknown") (person !! craft_key) with
  | JStr craft => if negb (str_truthy (strip craft)) then "Unknown" else craft
  | _ => "Unknown"
  end.

(** One turn of the loop: [counts[craft] = counts.get(craft, 0) + 1]. *)
Definition count_person (craft_key : string) (counts : gmap string Z)
    (person : gmap string json) : gmap string Z :=
  let craft := craft_of craft_key person in
  <[craft := default 0 (counts !! craft) + 1]> counts.

Definition transform_count_by_craft
    (people_list : list (gmap string json)) (craft_key : string)
  : gmap string Z :=
  fold_left (count_person craft_key) people_list ∅.

(** The two checks on one item of [counts]. *)
Definition verify_counts_item (item : string * Z) : result unit :=
  let '(craft, count) := item in
  if negb (str_truthy (strip craft)) then Raise ValueError
  else if count <? 0 then Raise ValueError
  else Ok tt.

Definition verify_counts (counts : gmap string Z) : result unit :=
  fold_left (fun acc item => _ <- acc;; verify_counts_item item)
    (map_to_list counts) (Ok tt).

(** One turn of the loop of the report: the line of [craft] is written
    after what has been done so far. *)
Definition write_count (counts : gmap string Z) (out_path : Path)
    (done : io unit) (craft : string) : io unit :=
  done;;;
  count <~ io_lift (getitem counts craft);;
  text <~ io_lift (format_int count);;
  write out_path (craft +:+ ": " +:+ text +:+ nl).

Definition load_counts_report (counts : gmap string Z) (out_path : Path)
  : io unit :=
  mkdir_parents (parent out_path);;;
  open_write out_path;;;
  write out_path ("Astronauts by spacecraft:" +:+ nl);;;
  fold_left (write_count counts out_path)
    (sorted (map fst (map_to_list counts))) (io_ret tt).

(** The calls of the logger are left out. *)
Definition run_json_pipeline (raw_dir processed_dir : Path) : io unit :=
  let input_file := path_div raw_dir "astros.json" in
  let output_file := path_div processed_dir "json_astronauts_by_craft.txt" in
  people_list <~ extract_people_list input_file "people";;
  let craft_counts := transform_count_by_craft people_list "craft" in
  io_lift (verify_counts craft_counts);;;
  load_counts_report craft_counts output_file.

(** ** case_xlsx_pipeline.py *)

Definition extract_xlsx_column_strings (file_path : Path)
    (column_letter : string) : io (list string) :=
  found <~ path_exists file_path;;
  if negb found then io_raise FileNotFoundError
  else
    text <~ open_read file_path;;
    loaded <~ parse file_path openpyxl_load_workbook text;;
    wb <~ io_lift loaded;;
    match active wb with
    | None => io_raise TypeError
    | Some sheet =>
        cells <~ io_lift (sheet column_letter);;
        io_ret
          (fold_left
             (fun values cell =>
                match cell with
                | CellStr value =>
                    if str_truthy (strip value)
                    then (values ++ [value])%list else values
                | _ => values
                end)
             cells [])
    end.

Definition transform_count_word (values : list string) (word : string)
  : result Z :=
  if negb (str_truthy word) then Raise ValueError
  else
    let target := lower word in
    Ok (fold_left (fun count text => count + str_count (lower text) target)
          values 0).

Definition verify_count (count : Z) : result unit :=
  if count <? 0 then Raise ValueError else Ok tt.

(** The count is written with [str_of_int]: the pipeline gives the number
    of occurrences in strings held in memory, which is far from the digit
    limit of [format_int]. *)
Definition load_count_report (count : Z) (out_path : Path)
    (word column_letter : string) : io unit :=
  mkdir_parents (parent out_path);;;
  open_write out_path;;;
  write out_path ("XLSX Word Count Result" +:+ nl);;;
  write out_path ("Word: " +:+ word +:+ nl);;;
  write out_path ("Column: " +:+ column_letter +:+ nl);;;
  write out_path ("Count: " +:+ str_of_int count +:+ nl).

(** The calls of the logger are left out. *)
Definition run_xlsx_pipeline (raw_dir processed_dir : Path) : io unit :=
  let input_file := path_div raw_dir "Feedback.xlsx" in
  let output_file := path_div processed_dir "xlsx_feedback_github_count.txt" in
  let column_letter := "A" in
  let word := "GitHub" in
  values <~ extract_xlsx_column_strings input_file column_letter;;
  count <~ io_lift (transform_count_word values word);;
  io_lift (verify_count count);;;
  load_count_report count output_file word column_letter.

(** ** case_text_pipeline.py *)

Definition extract_lines (file_path : Path) : io (list string) :=
  found <~ path_exists file_path;;
  if negb found then io_raise FileNotFoundError
  else
    text <~ open_read file_path;;
    parse file_path readlines text.

(** One turn of the loop over the lines: the state is
    [(word_count, char_count)]. *)
Definition count_line (totals : Z * Z) (line : string) : Z * Z :=
  let '(word_count, char_count) := totals in
  let char_count := char_count + Z.of_nat (String.length line) in
  let word_count := word_count + Z.of_nat (length (str_split line)) in
  (word_count, char_count).

Definition transform_line_word_char_counts (lines : list string)
  : gmap string Z :=
  let line_count := Z.of_nat (length lines) in
  let '(word_count, char_count) := fold_left count_line lines (0, 0) in
  list_to_map
    [("lines", line_count); ("words", word_count); ("chars", char_count)].

Definition verify_summary (summary : gmap string Z) : result unit :=
  fold_left
    (fun acc key =>
       _ <- acc;;
       match summary !! key with
       | None => Raise KeyError
       | Some n => if n <? 0 then Raise ValueError else Ok tt
       end)
    ["lines"; "words"; "chars"] (Ok tt).

(** The counts are written with [str_of_int]: the pipeline gives the
    numbers of the lines, words and characters held in memory, which are
    far from the digit limit of [format_int].  The properties of the
    loader alone are stated for counts within the limit. *)
Definition load_summary_report (summary : gmap string Z) (out_path : Path)
  : io unit :=
  mkdir_parents (parent out_path);;;
  open_write out_path;;;
  write out_path ("Text File Summary" +:+ nl);;;
  line_count <~ io_lift (getitem summary "lines");;
  write out_path ("Lines: " +:+ str_of_int line_count +:+ nl);;;
  word_count <~ io_lift (getitem summary "words");;
  write out_path ("Words: " +:+ str_of_int word_count +:+ nl);;;
  char_count <~ io_lift (getitem summary "chars");;
  write out_path ("Characters: " +:+ str_of_int char_count +:+ nl).

(** The calls of the logger are left out. *)
Definition run_text_pipeline (raw_dir processed_dir : Path) : io unit :=
  let input_file := path_div raw_dir "romeo_and_juliet.txt" in
  let output_file := path_div processed_dir "txt_summary.txt" in
  lines <~ extract_lines input_file;;
  let summary := transform_line_word_char_counts lines in
  io_lift (verify_summary summary);;;
  load_summary_report summary output_file.

(** ** app_case.py *)

(** The logger [LOG] of the program is made by [get_logger] of the package
    [datafun_toolkit], which is not part of the repository.  Its two uses,
    [log_header(LOG, title)] and [LOG.info(msg, *args)], are collaborators
    of [main]; what they do to the files is not known here. *)
Variable log_header : string -> io unit.
Variable logger_info : string -> list Path -> io unit.

(** A pipeline as [main] calls it, with [LOG] as its logger.  The pipelines
    above are embedded without their calls of [logger.info]; each makes
    three, one before its steps and two after them, which are made
    here. *)
Definition with_logger (name : string) (output_file : Path)
    (steps : io unit) : io unit :=
  logger_info (name +:+ ": START") [];;;
  steps;;;
  logger_info (name +:+ ": wrote %s") [output_file];;;
  logger_info (name +:+ ": END") [].

(** [main()], with the current directory [Path.cwd()] as [root_dir]. *)
Definition main (root_dir : Path) : io unit :=
  let data_dir := path_div root_dir "data" in
  let raw_dir := path_div data_dir "raw" in
  let processed_dir := path_div data_dir "processed" in
  log_header "Pipelines: Read, Process, Verify, Write (ETVL)";;;
  logger_info "START main()" [];;;
  with_logger "CSV" (path_div processed_dir "csv_ladder_score_stats.txt")
    (run_csv_pipeline raw_dir processed_dir);;;
  with_logger "XLSX" (path_div processed_dir "xlsx_feedback_github_count.txt")
    (run_xlsx_pipeline raw_dir processed_dir);;;
  with_logger "JSON" (path_div processed_dir "json_astronauts_by_craft.txt")
    (run_json_pipeline raw_dir processed_dir);;;
  with_logger "TXT" (path_div processed_dir "txt_summary.txt")
    (run_text_pipeline raw_dir processed_dir);;;
  logger_info "END main()" [].

End pipelines.

(** * Notions used in the statements *)

(** The sum of the values of a dictionary of counts. *)
Definition dict_sum (m : gmap string Z) : Z :=
  map_fold (fun _ v acc => v + acc) 0 m.

(** The number of elements of a list that pass a test. *)
Definition count_if {A} (f : A -> bool) (l : list A) : nat :=
  length (List.filter f l).

(** The number of records whose group is [g]. *)
Definition group_size (key g : string) (people : list (gmap string json))
  : nat :=
  count_if (fun p => String.eqb (craft_of key p) g) people.

(** A blank string has white space only. *)
Definition blank (s : string) : bool :=
  forallb is_space (list_ascii_of_string s).

(** The record has no usable group under [key]: the field is missing, is
    not a string, or is blank. *)
Definition lacks_group (key : string) (person : gmap string json) : bool :=
  match person !! key with
  | None => true
  | Some (JStr s) => blank s
  | Some _ => true
  end.

(** The record names the group [g] under [key]. *)
Definition names_group (key g : string) (person : gmap string json) : bool :=
  match person !! key with
  | Some (JStr s) => negb (blank s) && String.eqb s g
  | _ => false
  end.

(** The ints that [format_int] converts to text: those of at most
    [max_str_digits] digits. *)
Definition printable (n : Z) : Prop := Z.abs n < 10 ^ max_str_digits.

(** A summary with one group, whose count has 4301 digits. *)
Definition huge_counts : gmap string Z := {[ "ISS" := 10 ^ 4300 ]}.

(** The line of the report for the group [g]. *)
Definition counts_line (counts : gmap string Z) (g : string) : string :=
  g +:+ ": " +:+ str_of_int (default 0 (counts !! g)) +:+ nl.

(** [sub] occurs in [s] at the position [i]. *)
Definition occurs_at (sub s : string) (i : nat) : Prop :=
  substring i (String.length sub) s = sub.

(** [ps] lists, in ascending order, positions of occurrences of [sub] in
    [s] no two of which overlap. *)
Definition non_overlapping (sub s : string) (ps : list nat) : Prop :=
  Forall (occurs_at sub s) ps
  /\ StronglySorted (fun p q => p + String.length sub <= q)%nat ps.

(** [n] is the number of non-overlapping occurrences of [sub] in [s]: the
    largest number of occurrences that can be taken without overlap. *)
Definition max_non_overlapping (sub s : string) (n : nat) : Prop :=
  (exists ps, non_overlapping sub s ps /\ length ps = n)
  /\ (forall ps, non_overlapping sub s ps -> (length ps <= n)%nat).







(** The rows, scores and report of the example of the specification. *)
Definition example_rows : list csv_row :=
  map (fun cell => {[ "Ladder score" := Some cell ]})
    ["7.5"; "6.2"; ""; "bad"; "5.0"].

(** 7.5, 6.2 and 5.0 as binary64 numbers. *)
Definition example_scores : list float :=
  [Ffin (15 # 2); Ffin (6980579422424269 # 1125899906842624); Ffin 5].

(** The summary of the example scores. *)
Definition example_summary : gmap string float :=
  list_to_map
    [("count", Ffin 3); ("min", Ffin 5); ("max", Ffin (15 # 2));
     ("mean", Ffin (7018109419319023 # 1125899906842624));
     ("stdev", Ffin (5631000533982285 # 4503599627370496))].

Definition example_report : string :=
  "CSV Ladder Score Statistics" +:+ nl
  +:+ "Count: 3" +:+ nl
  +:+ "Minimum: 5.00" +:+ nl
  +:+ "Maximum: 7.50" +:+ nl
  +:+ "Mean: 6.23" +:+ nl
  +:+ "Standard Deviation: 1.25" +:+ nl.

(** ** Notions of the float proofs *)

(** Rounding to the nearest multiple of [2^e], ties to even. *)
Definition grid_round (e : Z) (x : Q) : Q :=
  (inject_Z (Qround_half_even (x / 2 ^ e)) * 2 ^ e)%Q.

(** The float is finite and at most [M] in magnitude. *)
Definition float_within (M : Q) (x : float) : bool :=
  match x with
  | Ffin q => Qle_bool (- M) q && Qle_bool q M
  | _ => false
  end.

(** The sum of [f q] over a list of rationals. *)
Definition Qsum (f : Q -> Q) (qs : list Q) : Q :=
  fold_right (fun q s => f q + s)%Q 0%Q qs.

(** The length of a list as a rational. *)
Definition Qlen (qs : list Q) : Q := inject_Z (Z.of_nat (length qs)).

(** The sample variance as [_ss] and [stdev] compute it. *)
Definition sample_variance (qs : list Q) : Q :=
  ((Qlen qs * Qsum (fun q => q * q) qs
    - Qsum (fun q => q) qs * Qsum (fun q => q) qs) / Qlen qs
   / (Qlen qs - 1))%Q.

(** The largest binary64 number whose exponent is one below the top. *)
Definition safe_max : Q := (2 ^ 1024 - 2 ^ 971)%Q.

(** The summary of the list that holds one NaN. *)
Definition nan_summary : gmap string float :=
  list_to_map
    [("count", Ffin 1); ("min", Fnan); ("max", Fnan); ("mean", Fnan);
     ("stdev", Ffin 0)].

(** Two finite floats, about 1.35e308 and its opposite, whose standard
    deviation is beyond the largest float. *)
Definition huge_scores : list float :=
  [Ffin (3 * 2 ^ 1022); Ffin (- (3 * 2 ^ 1022))].

(** ** Notions of the properties of the files *)

(** The world [w'] has the files and the directories of [w]: nothing has
    been created, written or removed. *)
Definition same_store (w w' : world) : Prop :=
  files w' = files w /\ dirs w' = dirs w.

(** The world [w'] is [w] after a loader has written [text] to
    [out_path]: the file holds [text] whatever it held before, the
    directories above it exist, and every other file is as it was. *)
Definition written (w : world) (out_path : Path) (text : string)
    (w' : world) : Prop :=
  files w' = <[out_path := text]> (files w)
  /\ dirs w' = dirs w ∪ list_to_set (with_parents (parent out_path)).

(** A loader can write to [out_path]: the path is not a directory, and no
    path above it is a regular file.  [mkdir] and [open] of the model do
    not fail; the properties of the loaders are stated for the paths on
    which those of Python do not fail either. *)
Definition writable (w : world) (out_path : Path) : Prop :=
  (out_path ∉ dirs w)
  /\ Forall (fun p => files w !! p = None) (with_parents (parent out_path)).

(** ** Notions of the properties of the text pipeline *)

(** The character at the position [i] of [s] is the first of a word: it is
    not white space, and it is the first character of [s] or comes after
    white space. *)
Definition is_word_start (s : string) (i : nat) : bool :=
  match String.get i s with
  | Some c =>
      negb (is_space c)
      && match i with
         | O => true
         | S j =>
             match String.get j s with
             | Some d => is_space d
             | None => false
             end
         end
  | None => false
  end.

(** The number of words of [s]. *)
Definition word_starts (s : string) : nat :=
  count_if (is_word_start s) (seq 0 (String.length s)).

(** The report of the text pipeline. *)
Definition summary_report (line_count word_count char_count : Z) : string :=
  "Text File Summary" +:+ nl
  +:+ "Lines: " +:+ str_of_int line_count +:+ nl
  +:+ "Words: " +:+ str_of_int word_count +:+ nl
  +:+ "Characters: " +:+ str_of_int char_count +:+ nl.

(** The word starts of [s] when the character before [s] is white space
    ([after_space]) or is not. *)
Fixpoint starts_after (after_space : bool) (s : string) : nat :=
  match s with
  | "" => O
  | String c s' =>
      ((if after_space && negb (is_space c) then 1 else 0)
       + starts_after (is_space c) s')%nat
  end.

(** ** Notions of the properties of the extractors *)

(** The error of an extractor on a path that holds no regular file. *)
Definition no_file_error (w : world) (p : Path) : exn :=
  if bool_decide (p ∈ dirs w) then IsADirectoryError else FileNotFoundError.

(** The score of a row of the CSV file: the float of the cell under
    [column_name], if the cell is not blank and [float] reads it. *)
Definition cell_score (column_name : string) (row : csv_row) : option float :=
  let raw_value := raw_value_of row column_name in
  if str_truthy raw_value then
    match float_of_str raw_value with
    | Ok x => Some x
    | Raise _ => None
    end
  else None.

(** What the extractor makes of the reading of a file: an error of the
    reader at the header line comes first, then the test of the column,
    then an error of the reader at a later line, then the scores. *)
Definition reading_scores (column_name : string) (reader : csv_table)
  : result (list float) :=
  names <- fieldnames reader;;
  match names with
  | None => Raise KeyError
  | Some names =>
      if bool_decide (column_name ∈ names)
      then rs <- rows reader;; Ok (omap (cell_score column_name) rs)
      else Raise KeyError
  end.

(** The dictionary of an item of a JSON list, if it is one. *)
Definition json_dict (item : json) : option (gmap string json) :=
  match item with
  | JDict d => Some d
  | _ => None
  end.

(** The string of a spreadsheet cell, if the cell holds one that is not
    blank. *)
Definition cell_string (cell : cell_value) : option string :=
  match cell with
  | CellStr value => if blank value then None else Some value
  | _ => None
  end.

(** ** Notions of the properties of the reports *)

(** The report of the CSV pipeline for a count and four floats, as
    [format_2f] gives their texts. *)
Definition stats_report (n : Z) (lo hi avg sd : float) : string :=
  "CSV Ladder Score Statistics" +:+ nl
  +:+ "Count: " +:+ str_of_int n +:+ nl
  +:+ "Minimum: " +:+ format_2f lo +:+ nl
  +:+ "Maximum: " +:+ format_2f hi +:+ nl
  +:+ "Mean: " +:+ format_2f avg +:+ nl
  +:+ "Standard Deviation: " +:+ format_2f sd +:+ nl.

(** [text] is what Python writes for [f"{x:.2f}"].  A negative zero is
    written [-0.00]; as [float] has no sign of zero, the text of a zero is
    either of [0.00] and [-0.00]. *)
Definition printed_2f (x : float) (text : string) : Prop :=
  text = format_2f x
  \/ (exists q, x = Ffin q /\ (q == 0)%Q /\ text = "-0.00").

(** [text] is a report of the CSV pipeline for a count and four floats. *)
Definition stats_report_of (n : Z) (lo hi avg sd : float) (text : string)
  : Prop :=
  exists lo_text hi_text avg_text sd_text,
    printed_2f lo lo_text /\ printed_2f hi hi_text
    /\ printed_2f avg avg_text /\ printed_2f sd sd_text
    /\ text = "CSV Ladder Score Statistics" +:+ nl
              +:+ "Count: " +:+ str_of_int n +:+ nl
              +:+ "Minimum: " +:+ lo_text +:+ nl
              +:+ "Maximum: " +:+ hi_text +:+ nl
              +:+ "Mean: " +:+ avg_text +:+ nl
              +:+ "Standard Deviation: " +:+ sd_text +:+ nl.

(** The report of the JSON pipeline: the title, then the line of every
    group in ascending order. *)
Definition counts_report (counts : gmap string Z) : string :=
  "Astronauts by spacecraft:" +:+ nl
  +:+ String.concat ""
        (map (counts_line counts) (sorted (map fst (map_to_list counts)))).

(** The report of the XLSX pipeline. *)
Definition count_report (word column_letter : string) (count : Z) : string :=
  "XLSX Word Count Result" +:+ nl
  +:+ "Word: " +:+ word +:+ nl
  +:+ "Column: " +:+ column_letter +:+ nl
  +:+ "Count: " +:+ str_of_int count +:+ nl.

(** The number of characters of a list of strings. *)
Definition total_length (values : list string) : nat :=
  sum_list (map String.length values).

(** ** Notions of the properties of [main] *)

(** The world [w'] has the directories of [w] and the files of [w], but
    possibly for the file [log_file]. *)
Definition same_but (log_file : Path) (w w' : world) : Prop :=
  dirs w' = dirs w
  /\ forall p, p <> log_file -> files w' !! p = files w !! p.

(** A call of the logger returns, and changes at most the file
    [log_file]. *)
Definition logs_to (log_file : Path) (call : io unit) : Prop :=
  forall w, exists w', call w = (Ok tt, w') /\ same_but log_file w w'.

(** The world [w'] is [w] after the reports [reports], paths with their
    texts, have been written, the last one first in the list: the
    directories above them exist, and every other file but [log_file] is
    as it was. *)
Definition reports_written (log_file : Path) (w : world)
    (reports : list (Path * string)) (w' : world) : Prop :=
  dirs w'
  = dirs w ∪ ⋃ (map (fun r => list_to_set (with_parents (parent r.1))) reports)
  /\ forall p, p <> log_file ->
       files w' !! p
       = foldr (fun r fs => <[r.1 := r.2]> fs) (files w) reports !! p.

(** The path [p] holds the same in [w'] as in [w]. *)
Definition same_input (p : Path) (w w' : world) : Prop :=
  files w' !! p = files w !! p /\ (p ∈ dirs w' <-> p ∈ dirs w).

(** The steps [run] are those of a pipeline that reads [input_file] and
    writes [output_file]: in every world that holds at [input_file] what
    [w] holds, they end as they do in [w], with the same report or the
    same error. *)
Definition pipeline_at (input_file output_file : Path) (run : io unit)
    (w : world) : Prop :=
  forall w1, same_input input_file w w1 ->
    match fst (run w) with
    | Ok _ =>
        exists text,
          written w output_file text (snd (run w))
          /\ fst (run w1) = Ok tt
          /\ written w1 output_file text (snd (run w1))
    | Raise e =>
        same_store w (snd (run w))
        /\ fst (run w1) = Raise e
        /\ same_store w1 (snd (run w1))
    end.

(** ** The inputs of an example run *)

(** A CSV reader that finds the rows of the example of the specification
    under the header [Ladder score]. *)
Definition example_reader : string -> csv_table :=
  fun _ => CsvTable (Some ["Ladder score"]) example_rows.

(** A JSON document with two records and an item that is not one. *)
Definition example_people : list json :=
  [JDict {[ "craft" := JStr "ISS" ]}; JStr "none"; JDict ∅].

Definition example_json_load : string -> result json :=
  fun _ => Ok (JDict {[ "people" := JList example_people ]}).

(** A workbook whose column holds two strings, a number and a blank. *)
Definition example_cells : list cell_value :=
  [CellStr "GitHub and github"; CellNumber (Ffin 1); CellStr " ";
   CellStr "Git"].

Definition example_load_workbook : string -> result workbook :=
  fun _ => Ok (Workbook (Some (fun _ => Ok example_cells))).

(** A text file read as one line. *)
Definition example_readlines : string -> list string := fun text => [text].

Definition example_root : Path := ["project"].

(** A world with the four input files and nothing else. *)
Definition example_world : world :=
  World
    (list_to_map
       [(["project"; "data"; "raw"; "2020_happiness.csv"], "csv");
        (["project"; "data"; "raw"; "Feedback.xlsx"], "xlsx");
        (["project"; "data"; "raw"; "astros.json"], "json");
        (["project"; "data"; "raw"; "romeo_and_juliet.txt"],
         "Two households, both alike")])
    ∅ [].

(** A world without any file. *)
Definition empty_world : world := World ∅ ∅ [].

(** A logger that appends its messages to the file [log_file]. *)
Definition file_logger (log_file : Path) (msg : string) : io unit :=
  fun w =>
    (Ok tt,
     World (<[log_file := default "" (files w !! log_file) +:+ msg +:+ nl]>
              (files w)) (dirs w) (trace w)).

(** A world with the input of the CSV pipeline only. *)
Definition csv_only_world : world :=
  World {[ ["project"; "data"; "raw"; "2020_happiness.csv"] := "csv" ]} ∅ [].

(** A CSV reader that finds a number and an infinity. *)
Definition infinite_reader : string -> csv_table :=
  fun _ =>
    CsvTable (Some ["Ladder score"])
      (map (fun cell => {[ "Ladder score" := Some cell ]}) ["1.5"; "inf"]).

(** * Properties *)

(** ** Sanity checks of the float model *)

Example round_b64_tenth :
  round_b64 (1 # 10) = (3602879701896397 # 36028797018963968)%Q.
Proof. vm_compute. reflexivity. Qed.

Example round_b64_6_2 :
  round_b64 (62 # 10) = (6980579422424269 # 1125899906842624)%Q.
Proof. vm_compute. reflexivity. Qed.

Example round_b64_subnormal :
  round_b64 ((3 # 4) * 2 ^ (-1074)) == 2 ^ (-1074).
Proof. vm_compute. reflexivity. Qed.

Example round_b64_tie_even :
  round_b64 (inject_Z (2 ^ 53 + 1)) == inject_Z (2 ^ 53) /\
  round_b64 (inject_Z (2 ^ 53 + 3)) == inject_Z (2 ^ 53 + 4).
Proof. split; vm_compute; reflexivity. Qed.


(** ** Extraction from a missing file *)

Section missing_file.

Context (csv_DictReader : string -> csv_table)
        (json_load : string -> result json)
        (openpyxl_load_workbook : string -> result workbook)
        (readlines : string -> list string).

Lemma path_exists_missing (p : Path) (w : world) :
  files w !! p = None -> p ∉ dirs w ->
  path_exists p w = (Ok false, log (EvExists p) w).
Proof.
  intros Hf Hd. unfold path_exists. f_equal. f_equal.
  rewrite Hf. rewrite bool_decide_eq_false_2 by (intros [? ?]; discriminate).
  rewrite bool_decide_eq_false_2 by assumption. reflexivity.
Qed.

(** C6: on a path that is neither a file nor a directory every extractor
    raises [FileNotFoundError], and the existence test is the only
    operation it has done on the world: the file is neither opened nor
    parsed. *)
Theorem extract_missing_file (p : Path) (w : world)
    (column_name list_key column_letter : string) :
  files w !! p = None -> p ∉ dirs w ->
  extract_csv_scores csv_DictReader p column_name w
    = (Raise FileNotFoundError, log (EvExists p) w)
  /\ extract_people_list json_load p list_key w
    = (Raise FileNotFoundError, log (EvExists p) w)
  /\ extract_xlsx_column_strings openpyxl_load_workbook p column_letter w
    = (Raise FileNotFoundError, log (EvExists p) w)
  /\ extract_lines readlines p w
    = (Raise FileNotFoundError, log (EvExists p) w).
Proof.
  intros Hf Hd.
  unfold extract_csv_scores, extract_people_list,
    extract_xlsx_column_strings, extract_lines, io_bind.
  rewrite (path_exists_missing p w Hf Hd). simpl. auto.
Qed.

End missing_file.

Lemma extract_missing_file_witness :
  let p := ["data"; "raw"; "astros.json"] in
  let w := World ∅ ∅ [] in
  extract_csv_scores (fun _ => CsvTable None []) p "Ladder score" w
    = (Raise FileNotFoundError, log (EvExists p) w)
  /\ extract_people_list (fun _ => Ok JNull) p "people" w
    = (Raise FileNotFoundError, log (EvExists p) w)
  /\ extract_xlsx_column_strings (fun _ => Ok (Workbook None)) p "A" w
    = (Raise FileNotFoundError, log (EvExists p) w)
  /\ extract_lines (fun _ => []) p w
    = (Raise FileNotFoundError, log (EvExists p) w).
Proof.
  intros p w.
  apply (extract_missing_file (fun _ => CsvTable None []) (fun _ => Ok JNull)
           (fun _ => Ok (Workbook None)) (fun _ => []) p w).
  - reflexivity.
  - simpl. apply not_elem_of_empty.
Defined.

(** ** Verifiers and missing fields *)

Lemma verify_stats_missing (stats : gmap string float) (k : string) :
  k ∈ stats_required -> stats !! k = None -> verify_stats stats = Raise KeyError.
Proof.
  intros Hk Hnone. unfold verify_stats.
  rewrite bool_decide_eq_true_2; [reflexivity|].
  intros Hempty.
  assert (Hin : k ∈ stats_required ∖ dom stats).
  { apply elem_of_difference. split; [exact Hk|].
    rewrite elem_of_dom, Hnone. intros [? ?]; discriminate. }
  rewrite Hempty in Hin. apply elem_of_empty in Hin. exact Hin.
Qed.

(** What [verify_summary] does, by the first of the three keys that is
    missing. *)
Lemma verify_summary_first_missing (summary : gmap string Z) :
  (summary !! "lines" = None -> verify_summary summary = Raise KeyError)
  /\ (forall l, summary !! "lines" = Some l -> summary !! "words" = None ->
      verify_summary summary
        = if l <? 0 then Raise ValueError else Raise KeyError)
  /\ (forall l w, summary !! "lines" = Some l -> summary !! "words" = Some w ->
      summary !! "chars" = None ->
      verify_summary summary
        = if (l <? 0) || (w <? 0) then Raise ValueError else Raise KeyError).
Proof.
  unfold verify_summary. simpl. repeat split.
  - intros ->. reflexivity.
  - intros l -> ->. destruct (l <? 0); reflexivity.
  - intros l w -> -> ->. destruct (l <? 0), (w <? 0); reflexivity.
Qed.

Lemma verify_counts_errors (counts : gmap string Z) :
  verify_counts counts = Ok tt \/ verify_counts counts = Raise ValueError.
Proof.
  unfold verify_counts.
  assert (H : forall l acc,
    acc = Ok tt \/ acc = Raise ValueError ->
    let r := fold_left (fun acc item => _ <- acc;; verify_counts_item item) l acc
    in r = Ok tt \/ r = Raise ValueError).
  { induction l as [|[craft count] l IH]; intros acc Hacc; simpl; [exact Hacc|].
    apply IH. destruct Hacc as [-> | ->]; simpl; [|right; reflexivity].
    destruct (negb _); [right; reflexivity|].
    destruct (count <? 0); [right|left]; reflexivity. }
  apply H. left; reflexivity.
Qed.

(** C2, as the code has it: a summary that lacks a required field is always
    rejected.  [verify_stats] raises [KeyError] whatever the other fields
    hold.  [verify_summary] checks the keys [lines], [words], [chars] one
    after the other, presence and then sign, so it raises [KeyError] unless
    a key before the first missing one holds a negative count, which raises
    [ValueError] first.  The summaries of the JSON and XLSX pipelines have
    no required field, and their verifiers never raise [KeyError]. *)
Theorem verifiers_missing_field :
  (forall (stats : gmap string float) k,
     k ∈ stats_required -> stats !! k = None ->
     verify_stats stats = Raise KeyError)
  /\ (forall (summary : gmap string Z) k,
     k ∈ ["lines"; "words"; "chars"] -> summary !! k = None ->
     (verify_summary summary = Raise KeyError
      \/ verify_summary summary = Raise ValueError)
     /\ (verify_summary summary = Raise ValueError <->
         (exists l, summary !! "lines" = Some l /\ l < 0)
         \/ (exists l w, summary !! "lines" = Some l
               /\ summary !! "words" = Some w /\ w < 0)))
  /\ (forall counts : gmap string Z, verify_counts counts <> Raise KeyError)
  /\ (forall count : Z, verify_count count <> Raise KeyError).
Proof.
  split; [exact verify_stats_missing|].
  split; [|split].
  - intros summary k Hk Hnone.
    destruct (verify_summary_first_missing summary) as (H1 & H2 & H3).
    destruct (summary !! "lines") as [l|] eqn:El.
    + specialize (H2 l eq_refl).
      destruct (summary !! "words") as [w|] eqn:Ew.
      * specialize (H3 l w eq_refl eq_refl).
        assert (Ec : summary !! "chars" = None).
        { repeat (apply elem_of_cons in Hk as [-> | Hk]); try congruence.
          apply elem_of_nil in Hk. destruct Hk. }
        rewrite (H3 Ec).
        destruct (Z.ltb_spec l 0), (Z.ltb_spec w 0); simpl;
          (split; [auto|]); split; try discriminate; eauto 6;
          intros [(? & [= <-] & ?) | (? & ? & [= <-] & [= <-] & ?)]; lia.
      * rewrite (H2 eq_refl).
        destruct (Z.ltb_spec l 0);
          (split; [auto|]); split; try discriminate; eauto;
          intros [(? & [= <-] & ?) | (? & ? & _ & [=] & _)]; lia.
    + rewrite (H1 eq_refl). split; [auto|]. split; [discriminate|].
      intros [(? & [=] & _) | (? & ? & [=] & _)].
  - intros counts H. destruct (verify_counts_errors counts); congruence.
  - intros count. unfold verify_count. destruct (count <? 0); discriminate.
Qed.

Lemma verifiers_missing_field_witness :
  verify_stats {[ "count" := Ffin 1 ]} = Raise KeyError
  /\ verify_summary {[ "lines" := 4; "chars" := 20 ]} = Raise KeyError.
Proof.
  destruct verifiers_missing_field as (Hstats & Hsummary & _).
  split.
  - apply (Hstats {[ "count" := Ffin 1 ]} "min");
      [unfold stats_required; set_solver | reflexivity].
  - pose proof (Hsummary {[ "lines" := 4; "chars" := 20 ]} "words") as H.
    destruct H as [[H|H] _];
      [repeat constructor | reflexivity | exact H | discriminate H].
Defined.

(** C2 as stated fails for the text pipeline: this summary lacks [words]
    and [chars], and [verify_summary] raises [ValueError], not
    [KeyError]. *)
Lemma verify_summary_negative_before_missing :
  let summary : gmap string Z := {[ "lines" := -1 ]} in
  summary !! "words" = None
  /\ verify_summary summary = Raise ValueError
  /\ verify_summary summary <> Raise KeyError.
Proof. repeat split. discriminate. Qed.

(** ** Grouped counts *)

Lemma lstrip_empty (s : string) : lstrip s = "" <-> blank s = true.
Proof.
  unfold blank. induction s as [|c s IH]; simpl; [tauto|].
  destruct (is_space c); simpl; [exact IH|]. split; discriminate.
Qed.

Lemma rstrip_empty (s : string) : rstrip s = "" <-> blank s = true.
Proof.
  unfold blank. induction s as [|c s IH]; simpl; [tauto|].
  destruct (rstrip s) eqn:E.
  - destruct (is_space c); simpl.
    + split; [intros _; apply IH; reflexivity | reflexivity].
    + split; discriminate.
  - split; [discriminate|]. intros H. apply andb_true_iff in H as [_ H].
    apply IH in H. discriminate.
Qed.

Lemma lstrip_blank_or_head (s : string) :
  lstrip s = "" \/ exists c t, lstrip s = String c t /\ is_space c = false.
Proof.
  induction s as [|c s IH]; simpl; [left; reflexivity|].
  destruct (is_space c) eqn:E; [exact IH|]. right. eauto.
Qed.

(** [s.strip()] is empty exactly for the blank strings. *)
Lemma strip_empty (s : string) : strip s = "" <-> blank s = true.
Proof.
  unfold strip. split.
  - intros H. apply rstrip_empty in H.
    destruct (lstrip_blank_or_head s) as [E | (c & t & E & Hc)].
    + apply lstrip_empty. exact E.
    + rewrite E in H. unfold blank in H. simpl in H. rewrite Hc in H.
      discriminate.
  - intros H. apply lstrip_empty in H. rewrite H. reflexivity.
Qed.

Lemma str_truthy_strip (s : string) : str_truthy (strip s) = negb (blank s).
Proof.
  destruct (blank s) eqn:E.
  - apply strip_empty in E. rewrite E. reflexivity.
  - destruct (strip s) eqn:Es; [|reflexivity].
    apply strip_empty in Es. congruence.
Qed.

(** The group of a record, in the words of the specification. *)
Lemma craft_of_cases (key : string) (person : gmap string json) :
  (lacks_group key person = true /\ craft_of key person = "Unknown")
  \/ (exists s, person !! key = Some (JStr s) /\ blank s = false
        /\ craft_of key person = s).
Proof.
  unfold lacks_group, craft_of.
  destruct (person !! key) as [[| | | |s| |]|]; simpl; auto.
  rewrite str_truthy_strip, Bool.negb_involutive.
  destruct (blank s) eqn:E; [left; auto|right; eauto].
Qed.

Lemma craft_of_not_blank (key : string) (person : gmap string json) :
  blank (craft_of key person) = false.
Proof.
  destruct (craft_of_cases key person) as [[_ ->] | (s & _ & Hb & ->)];
    [reflexivity | exact Hb].
Qed.

Lemma tally_lookup (craft_key : string) (people : list (gmap string json))
    (init : gmap string Z) (g : string) :
  fold_left (count_person craft_key) people init !! g =
    match group_size craft_key g people with
    | O => init !! g
    | S _ =>
        Some (default 0 (init !! g) + Z.of_nat (group_size craft_key g people))
    end.
Proof.
  revert init. induction people as [|p people IH]; intros init; [reflexivity|].
  simpl fold_left. rewrite IH. unfold group_size, count_if. simpl List.filter.
  unfold count_person.
  destruct (String.eqb_spec (craft_of craft_key p) g) as [-> | Hne].
  - rewrite lookup_insert_eq. simpl length.
    set (n := length _). destruct n; simpl default; f_equal; lia.
  - rewrite lookup_insert_ne by exact Hne. reflexivity.
Qed.

Lemma dict_sum_insert (m : gmap string Z) (k : string) (v : Z) :
  dict_sum (<[k := v]> m) = dict_sum m - default 0 (m !! k) + v.
Proof.
  unfold dict_sum.
  destruct (m !! k) as [x|] eqn:E.
  - replace (<[k := v]> m) with (<[k := v]> (delete k m))
      by apply insert_delete_eq.
    rewrite map_fold_insert_L; [|intros; lia|apply lookup_delete_eq].
    rewrite (map_fold_delete_L _ _ k x m); [|intros; lia|exact E].
    simpl. lia.
  - rewrite map_fold_insert_L; [|intros; lia|exact E]. simpl. lia.
Qed.

Lemma tally_sum (craft_key : string) (people : list (gmap string json))
    (init : gmap string Z) :
  dict_sum (fold_left (count_person craft_key) people init)
    = dict_sum init + Z.of_nat (length people).
Proof.
  revert init. induction people as [|p people IH]; intros init; simpl.
  - lia.
  - rewrite IH. unfold count_person. rewrite dict_sum_insert. lia.
Qed.

Lemma transform_lookup (people : list (gmap string json)) (key g : string) :
  transform_count_by_craft people key !! g =
    match group_size key g people with
    | O => None
    | S n => Some (Z.of_nat (S n))
    end.
Proof.
  unfold transform_count_by_craft. rewrite tally_lookup.
  rewrite lookup_empty. destruct (group_size key g people); [reflexivity|].
  simpl default. f_equal.
Qed.

Lemma group_test (key g : string) (person : gmap string json) :
  String.eqb (craft_of key person) g
    = (lacks_group key person && String.eqb "Unknown" g)
      || names_group key g person.
Proof.
  destruct (craft_of_cases key person) as [[Hl ->] | (s & Hs & Hb & ->)].
  - rewrite Hl. unfold names_group, lacks_group in *.
    destruct (person !! key) as [[| | | |s| |]|]; simpl;
      try (rewrite Bool.orb_false_r; reflexivity).
    rewrite Hl. simpl. rewrite Bool.orb_false_r. reflexivity.
  - unfold lacks_group, names_group. rewrite Hs, Hb. reflexivity.
Qed.

Lemma lacks_not_names (key g : string) (person : gmap string json) :
  lacks_group key person = true -> names_group key g person = false.
Proof.
  unfold lacks_group, names_group.
  destruct (person !! key) as [[| | | |s| |]|]; try reflexivity.
  intros ->. reflexivity.
Qed.

Lemma group_size_unknown (key : string) (people : list (gmap string json)) :
  group_size key "Unknown" people
    = (count_if (lacks_group key) people
       + count_if (names_group key "Unknown") people)%nat.
Proof.
  unfold group_size, count_if. induction people as [|p people IH]; [reflexivity|].
  simpl. rewrite group_test. simpl String.eqb. rewrite Bool.andb_true_r.
  destruct (lacks_group key p) eqn:El.
  - rewrite (lacks_not_names key "Unknown" p El). simpl. rewrite IH. lia.
  - simpl. destruct (names_group key "Unknown" p); simpl; rewrite IH; lia.
Qed.

Lemma group_size_named (key g : string) (people : list (gmap string json)) :
  g <> "Unknown" ->
  group_size key g people = count_if (names_group key g) people.
Proof.
  intros Hg. unfold group_size, count_if. induction people as [|p people IH]; [reflexivity|].
  simpl. rewrite group_test.
  replace (String.eqb "Unknown" g) with false
    by (symmetry; apply String.eqb_neq; congruence).
  rewrite Bool.andb_false_r. simpl.
  destruct (names_group key g p); simpl; rewrite IH; reflexivity.
Qed.

Lemma default_transform_lookup (people : list (gmap string json))
    (key g : string) :
  default 0 (transform_count_by_craft people key !! g)
    = Z.of_nat (group_size key g people).
Proof.
  rewrite transform_lookup. destruct (group_size key g people); reflexivity.
Qed.

(** C4: the counts add up to the number of records; a record whose field
    is missing, blank or not a string belongs to the group ["Unknown"], and
    the count of every group is the number of its records: ["Unknown"]
    holds the records without a usable field and those that name it, any
    other group the records that name it. *)
Theorem transform_count_by_craft_counts
    (people : list (gmap string json)) (craft_key : string) :
  let counts := transform_count_by_craft people craft_key in
  dict_sum counts = Z.of_nat (length people)
  /\ (forall person, lacks_group craft_key person = true ->
        craft_of craft_key person = "Unknown")
  /\ default 0 (counts !! "Unknown")
       = Z.of_nat (count_if (lacks_group craft_key) people
                   + count_if (names_group craft_key "Unknown") people)
  /\ (forall g, g <> "Unknown" ->
        default 0 (counts !! g)
          = Z.of_nat (count_if (names_group craft_key g) people)).
Proof.
  intros counts. subst counts. repeat split.
  - unfold transform_count_by_craft. rewrite tally_sum. reflexivity.
  - intros person Hl.
    destruct (craft_of_cases craft_key person) as [[_ E] | (s & Hs & Hb & _)];
      [exact E|].
    unfold lacks_group in Hl. rewrite Hs in Hl. congruence.
  - rewrite default_transform_lookup, group_size_unknown. reflexivity.
  - intros g Hg. rewrite default_transform_lookup, group_size_named by exact Hg.
    reflexivity.
Qed.

Lemma transform_count_by_craft_counts_witness :
  let people : list (gmap string json) :=
    [ {[ "craft" := JStr "ISS" ]}; {[ "craft" := JStr "ISS" ]};
      {[ "craft" := JStr "" ]}; {[ "name" := JStr "A" ]};
      {[ "craft" := JInt 7 ]} ] in
  let counts := transform_count_by_craft people "craft" in
  dict_sum counts = 5
  /\ craft_of "craft" {[ "craft" := JInt 7 ]} = "Unknown"
  /\ default 0 (counts !! "Unknown") = 3
  /\ default 0 (counts !! "ISS") = 2.
Proof.
  intros people counts.
  destruct (transform_count_by_craft_counts people "craft")
    as (Hsum & Hlack & Hunknown & Hnamed).
  split; [exact Hsum|]. split; [apply Hlack; reflexivity|].
  split; [exact Hunknown|]. apply (Hnamed "ISS"). discriminate.
Defined.

Lemma verify_counts_all (l : list (string * Z)) :
  Forall (fun item => verify_counts_item item = Ok tt) l ->
  fold_left (fun acc item => _ <- acc;; verify_counts_item item) l (Ok tt)
    = Ok tt.
Proof.
  induction 1 as [|item l Hitem _ IH]; simpl; [reflexivity|].
  rewrite Hitem. exact IH.
Qed.

(** C10: every group of the transformer's mapping is a string that is not
    blank, every count is at least 1, and [verify_counts] accepts the
    mapping. *)
Theorem transform_counts_verified
    (people : list (gmap string json)) (craft_key : string) :
  let counts := transform_count_by_craft people craft_key in
  (forall g n, counts !! g = Some n -> blank g = false /\ 1 <= n)
  /\ verify_counts counts = Ok tt.
Proof.
  intros counts.
  assert (Hitems : forall g n, counts !! g = Some n -> blank g = false /\ 1 <= n).
  { intros g n. subst counts. rewrite transform_lookup.
    destruct (group_size craft_key g people) as [|k] eqn:E; [discriminate|].
    intros [= <-]. split; [|lia].
    unfold group_size, count_if in E.
    assert (Hin : exists p, In p (List.filter
              (fun p => String.eqb (craft_of craft_key p) g) people)).
    { destruct (List.filter _ people) as [|p ?]; [discriminate|].
      exists p. left. reflexivity. }
    destruct Hin as (p & Hp). apply filter_In in Hp as [_ Hp].
    apply String.eqb_eq in Hp. subst g. apply craft_of_not_blank. }
  split; [exact Hitems|].
  unfold verify_counts. apply verify_counts_all.
  apply Forall_forall. intros [g n] Hin.
  apply elem_of_map_to_list in Hin.
  destruct (Hitems g n Hin) as [Hb Hn].
  unfold verify_counts_item. rewrite str_truthy_strip, Hb. simpl.
  destruct (Z.ltb_spec n 0); [lia|reflexivity].
Qed.

Lemma transform_counts_verified_witness :
  let counts :=
    transform_count_by_craft
      [ {[ "craft" := JStr "ISS" ]}; {[ "craft" := JStr " " ]} ] "craft" in
  (blank "ISS" = false /\ 1 <= 1) /\ verify_counts counts = Ok tt.
Proof.
  intros counts.
  destruct (transform_counts_verified
              [ {[ "craft" := JStr "ISS" ]}; {[ "craft" := JStr " " ]} ] "craft")
    as [Hitems Hverify].
  split; [apply (Hitems "ISS" 1); reflexivity | exact Hverify].
Defined.

(** ** The store of the world *)

(** Running the steps of a loader one at a time. *)
Lemma io_bind_ok {A B} (m : io A) (k : A -> io B) (w w1 : world) (a : A) :
  m w = (Ok a, w1) -> io_bind m k w = k a w1.
Proof. intros H. unfold io_bind. rewrite H. reflexivity. Qed.

Lemma io_bind_lift_ok {A B} (a : A) (k : A -> io B) (w : world) :
  io_bind (io_lift (Ok a)) k w = k a w.
Proof. reflexivity. Qed.

(** What a loader does first: the directories, then the empty file. *)
Lemma open_step {A} (out_path : Path) (k : io A) (w : world) :
  exists w',
    (mkdir_parents (parent out_path);;; open_write out_path;;; k) w = k w'
    /\ written w out_path "" w'.
Proof. eexists. split; [reflexivity|]. split; reflexivity. Qed.

Lemma written_append (w0 : world) (out_path : Path) (old text : string)
    (w : world) :
  written w0 out_path old w ->
  written w0 out_path (old +:+ text)
    (log (EvWrite out_path text)
       (World (<[out_path := default "" (files w !! out_path) +:+ text]>
                 (files w)) (dirs w) (trace w))).
Proof.
  intros [Hf Hd]. split; simpl; [|exact Hd].
  rewrite Hf, lookup_insert_eq, insert_insert_eq. reflexivity.
Qed.

Lemma write_step {A} (w0 : world) (out_path : Path) (old text : string)
    (k : io A) (w : world) :
  written w0 out_path old w ->
  exists w',
    (write out_path text;;; k) w = k w'
    /\ written w0 out_path (old +:+ text) w'.
Proof.
  intros H. eexists. split; [reflexivity|]. apply written_append, H.
Qed.

Lemma write_end (w0 : world) (out_path : Path) (old text : string)
    (w : world) :
  written w0 out_path old w ->
  exists w',
    write out_path text w = (Ok tt, w')
    /\ written w0 out_path (old +:+ text) w'.
Proof.
  intros H. eexists. split; [reflexivity|]. apply written_append, H.
Qed.

Lemma io_bind_raise {A B} (e : exn) (k : A -> io B) (w : world) :
  io_bind (io_lift (Raise e)) k w = (Raise e, w).
Proof. reflexivity. Qed.

(** A step of a loader that writes one line more. *)
Ltac write_line H :=
  let w' := fresh "w" in
  let Hrun := fresh "Hrun" in
  let H' := fresh "H" in
  match goal with
  | |- context [io_bind (write ?p ?text) (fun _ => ?k) ?w] =>
      destruct (write_step _ p _ text k w H) as (w' & Hrun & H');
      rewrite Hrun; clear Hrun H; rename H' into H
  end.

Ltac open_file H :=
  let w' := fresh "w" in
  let Hrun := fresh "Hrun" in
  match goal with
  | |- context [io_bind (mkdir_parents (parent ?p))
                  (fun _ => io_bind (open_write ?p) (fun _ => ?k)) ?w] =>
      destruct (open_step p k w) as (w' & Hrun & H);
      rewrite Hrun; clear Hrun
  end.

Lemma written_from (w0 w : world) (out_path : Path) (text : string)
    (w' : world) :
  same_store w0 w -> written w out_path text w' -> written w0 out_path text w'.
Proof. intros [Hf Hd] [Hf' Hd']. split; congruence. Qed.

(** ** The report of the grouped counts *)

Lemma append_cons (x : ascii) (a b : string) :
  String x a +:+ b = String x (a +:+ b).
Proof. reflexivity. Qed.

Lemma append_assoc (a b c : string) : (a +:+ b) +:+ c = a +:+ (b +:+ c).
Proof.
  induction a as [|x a IH]; [reflexivity|].
  rewrite !append_cons, IH. reflexivity.
Qed.

Lemma append_nil_r (a : string) : a +:+ "" = a.
Proof.
  induction a as [|x a IH]; [reflexivity|]. rewrite append_cons, IH. reflexivity.
Qed.

Lemma concat_cons (x : string) (l : list string) :
  String.concat "" (x :: l) = x +:+ String.concat "" l.
Proof.
  destruct l as [|y l]; simpl; [symmetry; apply append_nil_r | reflexivity].
Qed.

(** [sorted] returns the same elements in ascending order. *)
Lemma sorted_spec (l : list string) :
  sorted l ≡ₚ l /\ StronglySorted String.le (sorted l).
Proof.
  unfold sorted. split.
  - apply merge_sort_Permutation.
  - apply StronglySorted_merge_sort; apply _.
Qed.

Lemma format_int_printable (n : Z) :
  printable n -> format_int n = Ok (str_of_int n).
Proof.
  unfold printable, format_int. generalize (10 ^ max_str_digits).
  intros limit H. destruct (Z.leb_spec limit (Z.abs n)); [lia | reflexivity].
Qed.

Lemma format_int_limit (n : Z) :
  ~ printable n -> format_int n = Raise ValueError.
Proof.
  unfold printable, format_int. generalize (10 ^ max_str_digits).
  intros limit H. destruct (Z.leb_spec limit (Z.abs n)); [reflexivity | lia].
Qed.

(** The loop of the report on groups whose counts can be converted: the
    lines are written one after the other. *)
Lemma report_loop_written (counts : gmap string Z) (out_path : Path)
    (groups : list string) (acc : io unit) (w0 w w1 : world) (text : string) :
  Forall (fun g => exists n, counts !! g = Some n /\ printable n) groups ->
  acc w = (Ok tt, w1) ->
  written w0 out_path text w1 ->
  exists w2,
    fold_left (write_count counts out_path) groups acc w = (Ok tt, w2)
    /\ written w0 out_path
         (text +:+ String.concat "" (map (counts_line counts) groups)) w2.
Proof.
  intros Hall. revert acc w1 text.
  induction Hall as [|g groups (n & Hg & Hn) _ IH];
    intros acc w1 text Hacc Htext.
  - exists w1. simpl. split; [exact Hacc|].
    rewrite append_nil_r. exact Htext.
  - simpl fold_left.
    destruct (write_end w0 out_path text
                (g +:+ ": " +:+ str_of_int n +:+ nl) w1 Htext)
      as (w2 & Hwrite & Hw2).
    destruct (IH (write_count counts out_path acc g) w2
                (text +:+ counts_line counts g)) as (w3 & Hrun & Hw3).
    + unfold write_count. rewrite (io_bind_ok _ _ w w1 tt Hacc).
      unfold getitem. rewrite Hg, io_bind_lift_ok.
      rewrite (format_int_printable n Hn), io_bind_lift_ok. exact Hwrite.
    + unfold counts_line. rewrite Hg. exact Hw2.
    + exists w3. split; [exact Hrun|].
      simpl map. rewrite concat_cons, <- append_assoc. exact Hw3.
Qed.

(** Once a turn has raised, the rest of the loop does nothing. *)
Lemma report_loop_raised (counts : gmap string Z) (out_path : Path)
    (groups : list string) (acc : io unit) (w w1 : world) (e : exn) :
  acc w = (Raise e, w1) ->
  fold_left (write_count counts out_path) groups acc w = (Raise e, w1).
Proof.
  revert acc. induction groups as [|g groups IH]; intros acc Hacc;
    [exact Hacc|].
  simpl fold_left. apply IH. unfold write_count, io_bind. rewrite Hacc.
  reflexivity.
Qed.

(** The loop raises at the first count that cannot be converted. *)
Lemma report_loop_limit (counts : gmap string Z) (out_path : Path)
    (groups : list string) (acc : io unit) (w w1 : world) :
  Forall (fun g => is_Some (counts !! g)) groups ->
  Exists (fun g => exists n, counts !! g = Some n /\ ~ printable n) groups ->
  acc w = (Ok tt, w1) ->
  exists w2,
    fold_left (write_count counts out_path) groups acc w
    = (Raise ValueError, w2).
Proof.
  intros Hall. revert acc w1.
  induction Hall as [|g groups [n Hg] _ IH]; intros acc w1 Hex Hacc.
  - inversion Hex.
  - simpl fold_left.
    destruct (Z_lt_dec (Z.abs n) (10 ^ max_str_digits)) as [Hn|Hn].
    + apply Exists_cons in Hex as [(m & Hm & Hbig) | Hex];
        [rewrite Hg in Hm; injection Hm as <-; destruct (Hbig Hn)|].
      eapply (IH _ _ Hex).
      unfold write_count. rewrite (io_bind_ok _ _ w w1 tt Hacc).
      unfold getitem. rewrite Hg, io_bind_lift_ok.
      rewrite (format_int_printable n Hn), io_bind_lift_ok. reflexivity.
    + exists w1. apply report_loop_raised.
      unfold write_count. rewrite (io_bind_ok _ _ w w1 tt Hacc).
      unfold getitem. rewrite Hg, io_bind_lift_ok.
      rewrite (format_int_limit n Hn). reflexivity.
Qed.

Lemma sorted_groups (counts : gmap string Z) (g : string) :
  g ∈ sorted (map fst (map_to_list counts)) <-> is_Some (counts !! g).
Proof.
  destruct (sorted_spec (map fst (map_to_list counts))) as [Hperm _].
  rewrite Hperm. split.
  - intros Hg. apply list_elem_of_fmap in Hg as ([g' n] & -> & Hin).
    apply elem_of_map_to_list in Hin. exists n. exact Hin.
  - intros [n Hn]. apply list_elem_of_fmap. exists (g, n).
    split; [reflexivity|]. apply elem_of_map_to_list. exact Hn.
Qed.

Lemma load_counts_report_run (counts : gmap string Z) (out_path : Path)
    (w : world) :
  map_Forall (fun _ n => printable n) counts ->
  exists w',
    load_counts_report counts out_path w = (Ok tt, w')
    /\ written w out_path (counts_report counts) w'.
Proof.
  intros Hcounts. unfold load_counts_report.
  assert (Hall : Forall (fun g => exists n, counts !! g = Some n /\ printable n)
                   (sorted (map fst (map_to_list counts)))).
  { apply Forall_forall. intros g Hg. apply sorted_groups in Hg as [n Hn].
    exists n. split; [exact Hn | exact (Hcounts g n Hn)]. }
  open_file H. write_line H.
  destruct (report_loop_written counts out_path _ (io_ret tt) w w1 w1 _
              Hall eq_refl H) as (w2 & Hrun & Hw2).
  exists w2. split; [exact Hrun|].
  unfold counts_report. rewrite append_assoc in Hw2. exact Hw2.
Qed.

Lemma load_counts_report_limit (counts : gmap string Z) (out_path : Path)
    (w : world) (g : string) (n : Z) :
  counts !! g = Some n -> ~ printable n ->
  exists w', load_counts_report counts out_path w = (Raise ValueError, w').
Proof.
  intros Hg Hn. unfold load_counts_report.
  open_file H. write_line H.
  eapply report_loop_limit; [| |reflexivity].
  - apply Forall_forall. intros g' Hg'. apply sorted_groups. exact Hg'.
  - apply Exists_exists. exists g. split; [|eauto].
    apply sorted_groups. eauto.
Qed.

(** C7, for the counts that Python converts to text: on a path that can
    be written and a summary whose counts have at most 4300 digits, the
    loader returns, and the file it leaves holds the title line and then
    one line [<group>: <count>] for each group of the summary, the groups
    in ascending order, every other file being as before; for the counts
    of the example, [ISS: 2] comes before [Unknown: 1].  On a summary with
    a count of more digits the loader raises [ValueError]. *)
Theorem load_counts_report_sorted :
  (forall (counts : gmap string Z) (out_path : Path) (w : world),
     writable w out_path ->
     map_Forall (fun _ count => printable count) counts ->
     let groups := sorted (map fst (map_to_list counts)) in
     groups ≡ₚ map fst (map_to_list counts)
     /\ NoDup groups
     /\ StronglySorted String.le groups
     /\ exists w',
          load_counts_report counts out_path w = (Ok tt, w')
          /\ written w out_path
               ("Astronauts by spacecraft:" +:+ nl
                +:+ String.concat "" (map (counts_line counts) groups)) w')
  /\ (forall (out_path : Path) (w : world),
      writable w out_path ->
      exists w',
        load_counts_report {[ "ISS" := 2; "Unknown" := 1 ]} out_path w
          = (Ok tt, w')
        /\ written w out_path
             ("Astronauts by spacecraft:" +:+ nl
              +:+ "ISS: 2" +:+ nl +:+ "Unknown: 1" +:+ nl) w')
  /\ (forall (counts : gmap string Z) (out_path : Path) (w : world)
        (g : string) (count : Z),
      counts !! g = Some count -> ~ printable count ->
      exists w',
        load_counts_report counts out_path w = (Raise ValueError, w')).
Proof.
  split; [|split].
  - intros counts out_path w _ Hcounts groups.
    destruct (sorted_spec (map fst (map_to_list counts))) as [Hperm Hsorted].
    split; [exact Hperm|]. split; [|split; [exact Hsorted|]].
    + unfold groups. rewrite Hperm. apply NoDup_fst_map_to_list.
    + apply load_counts_report_run, Hcounts.
  - intros out_path w _.
    assert (Etext : counts_report {[ "ISS" := 2; "Unknown" := 1 ]}
                    = "Astronauts by spacecraft:" +:+ nl
                      +:+ "ISS: 2" +:+ nl +:+ "Unknown: 1" +:+ nl)
      by (vm_compute; reflexivity).
    rewrite <- Etext.
    apply (load_counts_report_run {[ "ISS" := 2; "Unknown" := 1 ]}).
    intros g n Hg. unfold printable.
    apply lookup_insert_Some in Hg as [[_ <-] | [_ Hg]];
      [|apply lookup_singleton_Some in Hg as [_ <-]];
      vm_compute; reflexivity.
  - intros counts out_path w g count. apply load_counts_report_limit.
Qed.

Lemma load_counts_report_sorted_witness :
  exists w',
    load_counts_report {[ "Soyuz" := 3; "ISS" := 7 ]} ["out"; "counts.txt"]
      empty_world = (Ok tt, w')
    /\ written empty_world ["out"; "counts.txt"]
         ("Astronauts by spacecraft:" +:+ nl
          +:+ "ISS: 7" +:+ nl +:+ "Soyuz: 3" +:+ nl) w'.
Proof.
  destruct (proj1 load_counts_report_sorted {[ "Soyuz" := 3; "ISS" := 7 ]}
              ["out"; "counts.txt"] empty_world) as (_ & _ & _ & H).
  - split; [apply not_elem_of_empty | repeat constructor].
  - intros g n Hg. unfold printable.
    apply lookup_insert_Some in Hg as [[_ <-] | [_ Hg]];
      [|apply lookup_singleton_Some in Hg as [_ <-]];
      vm_compute; reflexivity.
  - assert (Etext : "Astronauts by spacecraft:" +:+ nl
                    +:+ String.concat ""
                          (map (counts_line {[ "Soyuz" := 3; "ISS" := 7 ]})
                             (sorted
                                (map fst
                                   (map_to_list
                                      ({[ "Soyuz" := 3; "ISS" := 7 ]}
                                         : gmap string Z)))))
                    = "Astronauts by spacecraft:" +:+ nl
                      +:+ "ISS: 7" +:+ nl +:+ "Soyuz: 3" +:+ nl)
      by (vm_compute; reflexivity).
    rewrite <- Etext. exact H.
Defined.

(** C7 as stated holds for every summary; a count of 4301 digits, which
    the verifier accepts, makes the loader raise [ValueError] and leave a
    report with the title line only. *)
Lemma load_counts_report_over_limit :
  verify_counts huge_counts = Ok tt
  /\ exists w',
       load_counts_report huge_counts ["out"; "counts.txt"] empty_world
       = (Raise ValueError, w')
       /\ files w' !! ["out"; "counts.txt"]
          = Some ("Astronauts by spacecraft:" +:+ nl).
Proof.
  split; [vm_compute; reflexivity|].
  eexists. split; vm_compute; reflexivity.
Qed.

(** ** Counting a word *)

Section count_scan.

Variable sub : string.
Hypothesis sub_not_empty : sub <> "".

Lemma len_pos : (1 <= String.length sub)%nat.
Proof using sub_not_empty.
  destruct sub; [congruence | simpl; lia].
Qed.

Lemma occurs_at_nil (i : nat) : ~ occurs_at sub "" i.
Proof using sub_not_empty.
  unfold occurs_at. destruct i, sub; simpl; congruence.
Qed.

Lemma occurs_at_S (c : ascii) (s : string) (i : nat) :
  occurs_at sub (String c s) (S i) <-> occurs_at sub s i.
Proof. unfold occurs_at. simpl. tauto. Qed.

Lemma occurs_at_0 (s : string) :
  occurs_at sub s 0 <-> String.prefix sub s = true.
Proof. unfold occurs_at. symmetry. apply prefix_correct. Qed.

(** Moving a list of positions one character to the right or left. *)
Lemma shift_right (c : ascii) (s : string) (ps : list nat) :
  non_overlapping sub s ps -> non_overlapping sub (String c s) (map S ps).
Proof.
  intros [Hocc Hsorted]. split.
  - apply Forall_fmap. eapply Forall_impl; [exact Hocc|].
    intros i Hi. apply occurs_at_S. exact Hi.
  - clear Hocc. induction Hsorted as [|p ps _ IH Hp]; simpl; constructor.
    + exact IH.
    + apply Forall_fmap. eapply Forall_impl; [exact Hp|].
      simpl. intros q Hq. lia.
Qed.

Lemma shift_left (c : ascii) (s : string) (ps : list nat) :
  non_overlapping sub (String c s) ps -> Forall (fun p => 1 <= p)%nat ps ->
  exists ps', ps = map S ps' /\ non_overlapping sub s ps'.
Proof.
  intros [Hocc Hsorted] Hpos.
  induction ps as [|p ps IH].
  - exists []. repeat split; constructor.
  - apply Forall_cons in Hocc as [Hp Hocc].
    apply Forall_cons in Hpos as [Hp1 Hpos].
    apply StronglySorted_inv in Hsorted as [Hsorted Hlt].
    destruct (IH Hocc Hsorted Hpos) as (ps' & -> & Hocc' & Hsorted').
    destruct p as [|p]; [lia|]. exists (p :: ps'). split; [reflexivity|].
    split.
    + constructor; [apply occurs_at_S in Hp; exact Hp | exact Hocc'].
    + constructor; [exact Hsorted'|].
      rewrite Forall_fmap in Hlt. eapply Forall_impl; [exact Hlt|].
      simpl. intros q Hq. lia.
Qed.

Lemma count_scan_cons_0 (c : ascii) (s : string) :
  count_scan sub 0 (String c s)
  = if String.prefix sub (String c s)
    then S (count_scan sub (String.length sub - 1) s)
    else count_scan sub 0 s.
Proof. reflexivity. Qed.

Lemma count_scan_cons_S (c : ascii) (s : string) (k : nat) :
  count_scan sub (S k) (String c s) = count_scan sub k s.
Proof. reflexivity. Qed.

(** The scan that has [k] characters to skip finds a largest family of
    non-overlapping occurrences among the positions from [k] on. *)
Lemma count_scan_max (s : string) (k : nat) :
  (exists ps, non_overlapping sub s ps /\ Forall (fun p => k <= p)%nat ps
              /\ length ps = count_scan sub k s)
  /\ (forall ps, non_overlapping sub s ps -> Forall (fun p => k <= p)%nat ps ->
                 (length ps <= count_scan sub k s)%nat).
Proof using sub_not_empty.
  revert k. induction s as [|c s IH]; intros k.
  - split.
    + exists []. repeat split; constructor.
    + intros [|p ps] [Hocc _] _; [simpl; lia|].
      apply Forall_cons in Hocc as [Hp _]. destruct (occurs_at_nil p Hp).
  - destruct k as [|k];
      [rewrite count_scan_cons_0 | rewrite count_scan_cons_S].
    + destruct (String.prefix sub (String c s)) eqn:Epre.
      * destruct (IH (String.length sub - 1)%nat)
          as [(ps & Hps & Hge & Hlen) Hmax]. split.
        -- exists (0%nat :: map S ps). split; [|split].
           ++ destruct (shift_right c s ps Hps) as [Hocc Hsorted]. split.
              ** constructor; [apply occurs_at_0; exact Epre | exact Hocc].
              ** constructor; [exact Hsorted|].
                 apply Forall_fmap. eapply Forall_impl; [exact Hge|].
                 simpl. intros q Hq. pose proof len_pos. lia.
           ++ apply Forall_forall. intros; lia.
           ++ simpl. rewrite length_map, Hlen. reflexivity.
        -- intros [|p ps'] Hps' _; [simpl; lia|].
           destruct Hps' as [Hocc Hsorted].
           apply Forall_cons in Hocc as [_ Hocc].
           apply StronglySorted_inv in Hsorted as [Hsorted Hlt].
           destruct (shift_left c s ps') as (qs & -> & Hqs).
           { split; assumption. }
           { eapply Forall_impl; [exact Hlt|]. simpl. intros q Hq.
             pose proof len_pos. lia. }
           simpl. rewrite length_map. apply le_n_S. apply Hmax; [exact Hqs|].
           rewrite Forall_fmap in Hlt. eapply Forall_impl; [exact Hlt|].
           simpl. intros q Hq. lia.
      * destruct (IH 0%nat) as [(ps & Hps & _ & Hlen) Hmax]. split.
        -- exists (map S ps). split; [apply shift_right; exact Hps|].
           split; [apply Forall_forall; intros; lia|].
           rewrite length_map. exact Hlen.
        -- intros ps' Hps' _.
           destruct (shift_left c s ps' Hps') as (qs & -> & Hqs).
           { destruct Hps' as [Hocc _]. eapply Forall_impl; [exact Hocc|].
             simpl. intros [|p] Hp; [|lia].
             apply occurs_at_0 in Hp. congruence. }
           rewrite length_map. apply Hmax; [exact Hqs|].
           apply Forall_forall. intros; lia.
    + destruct (IH k) as [(ps & Hps & Hge & Hlen) Hmax]. split.
      * exists (map S ps). split; [apply shift_right; exact Hps|].
        split; [|rewrite length_map; exact Hlen].
        apply Forall_fmap. eapply Forall_impl; [exact Hge|].
        simpl. intros q Hq. lia.
      * intros ps' Hps' Hge'.
        destruct (shift_left c s ps' Hps') as (qs & -> & Hqs).
        { eapply Forall_impl; [exact Hge'|]. simpl. intros q Hq. lia. }
        rewrite length_map. apply Hmax; [exact Hqs|].
        rewrite Forall_fmap in Hge'. eapply Forall_impl; [exact Hge'|].
        simpl. intros q Hq. lia.
Qed.

(** [s.count(sub)] is the number of non-overlapping occurrences. *)
Lemma str_count_max (s : string) :
  exists n, str_count s sub = Z.of_nat n /\ max_non_overlapping sub s n.
Proof using sub_not_empty.
  exists (count_scan sub 0 s). split.
  - unfold str_count. destruct sub; [congruence | reflexivity].
  - destruct (count_scan_max s 0) as [(ps & Hps & _ & Hlen) Hmax]. split.
    + exists ps. split; assumption.
    + intros ps' Hps'. apply Hmax; [exact Hps'|].
      apply Forall_forall. intros; lia.
Qed.

End count_scan.

Lemma lower_not_empty (word : string) : word <> "" -> lower word <> "".
Proof. destruct word; [congruence | discriminate]. Qed.

Lemma count_word_loop (target : string) (values : list string) (start : Z) :
  fold_left (fun count text => count + str_count (lower text) target)
    values start
  = start
    + foldr Z.add 0 (map (fun text => str_count (lower text) target) values).
Proof.
  revert start. induction values as [|text values IH]; intros start; simpl.
  - lia.
  - rewrite IH. lia.
Qed.


Lemma lower_empty (s : string) : lower s = "" -> s = "".
Proof. destruct s; [reflexivity | discriminate]. Qed.

Lemma lower_char_idem (c : ascii) : lower_char (lower_char c) = lower_char c.
Proof. destruct c as [[] [] [] [] [] [] [] []]; vm_compute; reflexivity. Qed.

Lemma lower_idem (s : string) : lower (lower s) = lower s.
Proof.
  induction s as [|c s IH]; [reflexivity|]. simpl.
  rewrite lower_char_idem, IH. reflexivity.
Qed.

Lemma lower_length (s : string) : String.length (lower s) = String.length s.
Proof. induction s as [|c s IH]; simpl; congruence. Qed.

(** *** Matching in any case

    [lower_char] identifies exactly the characters that are equal or the
    two cases of a letter; the 256 x 256 pairs of characters are checked
    one by one. *)











(** ** The statistics pipeline on the example *)

Lemma extract_csv_scores_found (reader : string -> csv_table)
    (file_path : Path) (column_name text : string) (names : list string)
    (rs : list csv_row) (w : world) :
  files w !! file_path = Some text ->
  reader text = CsvTable (Some names) rs ->
  column_name ∈ names ->
  extract_csv_scores reader file_path column_name w
  = (scores_of_rows column_name rs,
     log (EvParse file_path)
       (log (EvOpenRead file_path) (log (EvExists file_path) w))).
Proof.
  intros Hfile Hreader Hcol.
  unfold extract_csv_scores, io_bind, path_exists, open_read, parse, io_lift.
  rewrite Hfile. rewrite bool_decide_eq_true_2 by eauto. simpl.
  rewrite Hfile, Hreader. simpl.
  rewrite bool_decide_eq_true_2 by exact Hcol. reflexivity.
Qed.

Lemma mkdir_parents_run (p : Path) (w : world) :
  exists w', mkdir_parents p w = (Ok tt, w') /\ files w' = files w.
Proof. eexists. split; reflexivity. Qed.

Lemma open_write_run (p : Path) (w : world) :
  exists w', open_write p w = (Ok tt, w') /\ files w' !! p = Some "".
Proof. eexists. split; [reflexivity|]. simpl. apply lookup_insert_eq. Qed.

Lemma write_run (p : Path) (text old : string) (w : world) :
  files w !! p = Some old ->
  exists w', write p text w = (Ok tt, w')
             /\ files w' !! p = Some (old +:+ text).
Proof.
  intros H. eexists. split; [reflexivity|]. simpl.
  rewrite lookup_insert_eq, H. reflexivity.
Qed.

Ltac run_write H :=
  let w' := fresh "w" in
  let Hrun := fresh "Hrun" in
  match goal with
  | |- context [io_bind (write ?p ?text) _ ?w] =>
      destruct (write_run p text _ w H) as (w' & Hrun & H');
      rewrite (io_bind_ok _ _ w w' tt Hrun); clear Hrun H;
      rename H' into H
  end.

(** The text [load_stats_report] leaves in the file. *)
Lemma load_stats_report_text (stats : gmap string float) (out_path : Path)
    (w : world) (count lo hi avg sd : float) (n : Z) :
  stats !! "count" = Some count -> int_of_float count = Ok n ->
  stats !! "min" = Some lo -> stats !! "max" = Some hi ->
  stats !! "mean" = Some avg -> stats !! "stdev" = Some sd ->
  exists w',
    load_stats_report stats out_path w = (Ok tt, w')
    /\ files w' !! out_path
       = Some ("CSV Ladder Score Statistics" +:+ nl
               +:+ "Count: " +:+ str_of_int n +:+ nl
               +:+ "Minimum: " +:+ format_2f lo +:+ nl
               +:+ "Maximum: " +:+ format_2f hi +:+ nl
               +:+ "Mean: " +:+ format_2f avg +:+ nl
               +:+ "Standard Deviation: " +:+ format_2f sd +:+ nl).
Proof.
  intros Hcount Hn Hlo Hhi Havg Hsd.
  unfold load_stats_report, getitem.
  rewrite Hcount, Hlo, Hhi, Havg, Hsd.
  destruct (mkdir_parents_run (parent out_path) w) as (w1 & Hrun1 & _).
  rewrite (io_bind_ok _ _ w w1 tt Hrun1). clear Hrun1.
  destruct (open_write_run out_path w1) as (w2 & Hrun2 & Hfile).
  rewrite (io_bind_ok _ _ w1 w2 tt Hrun2). clear Hrun2.
  run_write Hfile. rewrite io_bind_lift_ok, Hn, io_bind_lift_ok.
  run_write Hfile. rewrite io_bind_lift_ok.
  run_write Hfile. rewrite io_bind_lift_ok.
  run_write Hfile. rewrite io_bind_lift_ok.
  run_write Hfile. rewrite io_bind_lift_ok.
  match goal with |- context [write _ ?text ?w0] =>
    destruct (write_run out_path text _ w0 Hfile) as (w8 & Hrun & Hfile8)
  end.
  exists w8. split; [exact Hrun|]. rewrite Hfile8. f_equal.
  rewrite !append_assoc. reflexivity.
Qed.

Lemma example_scores_extracted :
  scores_of_rows "Ladder score" example_rows = Ok example_scores.
Proof. vm_compute. reflexivity. Qed.

Lemma example_transformed :
  transform_scores_to_stats example_scores = Ok example_summary.
Proof.
  assert (Hcount : float_of_int (Z.of_nat (length example_scores))
                   = Ok (Ffin 3)) by (vm_compute; reflexivity).
  assert (Hlo : builtin_min example_scores = Ok (Ffin 5))
    by (vm_compute; reflexivity).
  assert (Hhi : builtin_max example_scores = Ok (Ffin (15 # 2)))
    by (vm_compute; reflexivity).
  assert (Havg : statistics.mean example_scores
                 = Ok (Ffin (7018109419319023 # 1125899906842624)))
    by (vm_compute; reflexivity).
  assert (Hsd : statistics.stdev example_scores
                = Ok (Ffin (5631000533982285 # 4503599627370496)))
    by (vm_compute; reflexivity).
  unfold transform_scores_to_stats. unfold example_scores at 1.
  cbv beta iota. rewrite Hcount, Hlo, Hhi, Havg, Hsd. reflexivity.
Qed.

(** C1, with the standard deviation the code computes: the cells of the
    example give the scores 7.5, 6.2 and 5.0; the summary has count 3,
    minimum 5.0, maximum 7.5, a mean that prints as 6.23 and a standard
    deviation that prints as 1.25; the verifier accepts it, and the whole
    pipeline writes the report of the example, with the line [Count: 3]. *)
Theorem csv_pipeline_example :
  scores_of_rows "Ladder score" example_rows = Ok example_scores
  /\ transform_scores_to_stats example_scores = Ok example_summary
  /\ example_summary !! "count" = Some (Ffin 3)
  /\ example_summary !! "min" = Some (Ffin 5)
  /\ example_summary !! "max" = Some (Ffin (15 # 2))
  /\ format_2f <$> example_summary !! "mean" = Some "6.23"
  /\ format_2f <$> example_summary !! "stdev" = Some "1.25"
  /\ verify_stats example_summary = Ok tt
  /\ (forall (reader : string -> csv_table) (raw_dir processed_dir : Path)
        (w : world) (text : string) (names : list string),
        files w !! path_div raw_dir "2020_happiness.csv" = Some text ->
        reader text = CsvTable (Some names) example_rows ->
        "Ladder score" ∈ names ->
        exists w',
          run_csv_pipeline reader raw_dir processed_dir w = (Ok tt, w')
          /\ files w' !! path_div processed_dir "csv_ladder_score_stats.txt"
             = Some example_report).
Proof.
  split; [exact example_scores_extracted|].
  split; [exact example_transformed|].
  assert (Hverify : verify_stats example_summary = Ok tt)
    by (vm_compute; reflexivity).
  do 5 (split; [vm_compute; reflexivity|]).
  split; [exact Hverify|].
  intros reader raw_dir processed_dir w text names Hfile Hreader Hcol.
  unfold run_csv_pipeline, io_bind.
  rewrite (extract_csv_scores_found reader _ _ text names example_rows w
             Hfile Hreader Hcol).
  rewrite example_scores_extracted.
  unfold io_lift. rewrite example_transformed, Hverify.
  match goal with |- context [load_stats_report _ ?out ?w0] =>
    destruct (load_stats_report_text example_summary out w0
                (Ffin 3) (Ffin 5) (Ffin (15 # 2))
                (Ffin (7018109419319023 # 1125899906842624))
                (Ffin (5631000533982285 # 4503599627370496)) 3)
      as (w' & Hrun & Hout); try reflexivity
  end.
  exists w'. split; [exact Hrun|]. rewrite Hout.
  vm_compute. reflexivity.
Qed.

Lemma csv_pipeline_example_witness :
  let raw_dir := ["data"; "raw"] in
  let processed_dir := ["data"; "processed"] in
  let reader := fun _ : string => CsvTable (Some ["Ladder score"]) example_rows in
  let w := World {[ path_div raw_dir "2020_happiness.csv" := "" ]} ∅ [] in
  exists w',
    run_csv_pipeline reader raw_dir processed_dir w = (Ok tt, w')
    /\ files w' !! path_div processed_dir "csv_ladder_score_stats.txt"
       = Some example_report.
Proof.
  intros raw_dir processed_dir reader w.
  destruct csv_pipeline_example as (_ & _ & _ & _ & _ & _ & _ & _ & Hrun).
  apply (Hrun reader raw_dir processed_dir w "" ["Ladder score"]).
  - reflexivity.
  - reflexivity.
  - apply list_elem_of_here.
Defined.

(** C1 as stated gives 1.31 for the standard deviation; the sample standard
    deviation of 7.5, 6.2 and 5.0, which the code computes, prints as
    1.25. *)
Lemma example_stdev_is_not_1_31 :
  (stats <- transform_scores_to_stats example_scores;;
   sd <- getitem stats "stdev";;
   Ok (format_2f sd)) = Ok "1.25"
  /\ "1.25" <> "1.31".
Proof. split; [vm_compute; reflexivity | discriminate]. Qed.

(** * Floats *)

(** ** Powers of two *)

Lemma Qpow2_pos (e : Z) : (0 < 2 ^ e)%Q.
Proof. apply Qpower_0_lt. reflexivity. Qed.

Lemma Qpow2_add (a b : Z) : (2 ^ (a + b) == 2 ^ a * 2 ^ b)%Q.
Proof. apply Qpower_plus. discriminate. Qed.

Lemma Qpow2_le (a b : Z) : a <= b -> (2 ^ a <= 2 ^ b)%Q.
Proof. intros H. apply Qpower_le_compat_l; [exact H | discriminate]. Qed.

Lemma Qpow2_lt (a b : Z) : a < b -> (2 ^ a < 2 ^ b)%Q.
Proof. intros H. apply Qpower_lt_compat_l; [exact H | reflexivity]. Qed.

Lemma Qpow2_lt_inv (a b : Z) : (2 ^ a < 2 ^ b)%Q -> a < b.
Proof. intros H. apply (Qpower_lt_compat_l_inv 2); [exact H | reflexivity]. Qed.

Lemma Qpow2_inject (k : Z) : 0 <= k -> (inject_Z (2 ^ k) == 2 ^ k)%Q.
Proof. intros H. apply (Zpower_Qpower 2 k H). Qed.

Lemma Qpow2_sub (a b : Z) : (2 ^ (a - b) * 2 ^ b == 2 ^ a)%Q.
Proof. rewrite <- Qpow2_add. replace (a - b + b) with a by lia. reflexivity. Qed.

Lemma Qdiv_pow2 (x : Q) (e : Z) : (x / 2 ^ e * 2 ^ e == x)%Q.
Proof. pose proof (Qpow2_pos e). field. lra. Qed.

(** ** The binary logarithm *)

Lemma Zlog2_bounds (n : Z) :
  0 < n -> (2 ^ Z.log2 n <= inject_Z n < 2 ^ (Z.log2 n + 1))%Q.
Proof.
  intros Hn. destruct (Z.log2_spec n Hn) as [Hlo Hhi].
  pose proof (Z.log2_nonneg n) as Hnn.
  rewrite <- !Qpow2_inject by lia. rewrite <- Zle_Qle, <- Zlt_Qlt.
  replace (Z.log2 n + 1) with (Z.succ (Z.log2 n)) by lia. lia.
Qed.

Lemma Qilog2_spec (q : Q) :
  (0 < q)%Q -> (2 ^ Qilog2 q <= q < 2 ^ (Qilog2 q + 1))%Q.
Proof.
  intros Hq. destruct q as [n d]. unfold Qilog2. cbn [Qnum Qden].
  assert (Hn : 0 < n) by (unfold Qlt in Hq; simpl in Hq; lia).
  destruct (Zlog2_bounds n Hn) as [Hn1 Hn2].
  destruct (Zlog2_bounds (Zpos d) eq_refl) as [Hd1 Hd2].
  set (ln := Z.log2 n) in *. set (ld := Z.log2 (Zpos d)) in *.
  assert (Hq' : (n # d) * inject_Z (Zpos d) == inject_Z n).
  { rewrite (Qmake_Qdiv n d). field. discriminate. }
  assert (Hdpos : (0 < inject_Z (Zpos d))%Q) by reflexivity.
  pose proof (Qpow2_sub (ln + 1) ld) as E1.
  pose proof (Qpow2_sub ln (ld + 1)) as E2.
  pose proof (Qpow2_pos (ln + 1 - ld)) as P1.
  pose proof (Qpow2_pos (ln - (ld + 1))) as P2.
  assert (Hhi : (n # d < 2 ^ (ln - ld + 1))%Q).
  { replace (ln - ld + 1) with (ln + 1 - ld) by lia.
    apply Qnot_le_lt. intros Hc.
    assert ((2 ^ (ln + 1 - ld) * 2 ^ ld <= (n # d) * inject_Z (Zpos d))%Q) by nra.
    lra. }
  assert (Hlo : (2 ^ (ln - ld - 1) < n # d)%Q).
  { replace (ln - ld - 1) with (ln - (ld + 1)) by lia.
    apply Qnot_le_lt. intros Hc.
    assert (((n # d) * inject_Z (Zpos d) <= 2 ^ (ln - (ld + 1)) * inject_Z (Zpos d))%Q) by nra.
    assert ((2 ^ (ln - (ld + 1)) * inject_Z (Zpos d) < 2 ^ (ln - (ld + 1)) * 2 ^ (ld + 1))%Q) by nra.
    lra. }
  destruct (Qle_bool (2 ^ (ln - ld)) (n # d)) eqn:E.
  - apply Qle_bool_iff in E. split; [exact E | exact Hhi].
  - assert (Hlt : (n # d < 2 ^ (ln - ld))%Q).
    { apply Qnot_le_lt. intros Hc. apply Qle_bool_iff in Hc. congruence. }
    replace (ln - ld - 1 + 1) with (ln - ld) by lia.
    split; [apply Qlt_le_weak; exact Hlo | exact Hlt].
Qed.

Lemma Qilog2_unique (q : Q) (l : Z) :
  (2 ^ l <= q < 2 ^ (l + 1))%Q -> Qilog2 q = l.
Proof.
  intros [Hlo Hhi].
  assert (Hq : (0 < q)%Q) by (pose proof (Qpow2_pos l); lra).
  destruct (Qilog2_spec q Hq) as [Hlo' Hhi'].
  assert (Qilog2 q < l + 1) by (apply Qpow2_lt_inv; lra).
  assert (l < Qilog2 q + 1) by (apply Qpow2_lt_inv; lra).
  lia.
Qed.

Lemma Qilog2_mono (x y : Q) : (0 < x)%Q -> (x <= y)%Q -> Qilog2 x <= Qilog2 y.
Proof.
  intros Hx Hxy.
  destruct (Qilog2_spec x Hx) as [Hlo _].
  destruct (Qilog2_spec y) as [_ Hhi]; [lra|].
  assert (Qilog2 x < Qilog2 y + 1) by (apply Qpow2_lt_inv; lra).
  lia.
Qed.

Lemma Qilog2_proper (x y : Q) : (0 < x)%Q -> x == y -> Qilog2 x = Qilog2 y.
Proof.
  intros Hx Hxy. symmetry. apply Qilog2_unique. rewrite <- Hxy.
  apply Qilog2_spec. exact Hx.
Qed.

(** ** Rounding to an integer *)

Lemma Qround_half_even_bounds (x : Q) :
  Qfloor x <= Qround_half_even x <= Qfloor x + 1.
Proof.
  unfold Qround_half_even.
  destruct (x - inject_Z (Qfloor x) ?= 1 # 2)%Q; try destruct (Z.even _); lia.
Qed.

Lemma Qround_half_even_proper (x y : Q) :
  x == y -> Qround_half_even x = Qround_half_even y.
Proof.
  intros H. unfold Qround_half_even. rewrite (Qfloor_comp x y H).
  assert (E : x - inject_Z (Qfloor y) == y - inject_Z (Qfloor y))
    by (rewrite H; reflexivity).
  rewrite (Qcompare_comp _ _ E (1 # 2) (1 # 2) (Qeq_refl _)). reflexivity.
Qed.

Lemma Qround_half_even_Z (n : Z) : Qround_half_even (inject_Z n) = n.
Proof.
  unfold Qround_half_even. rewrite Qfloor_Z.
  assert (E : (inject_Z n - inject_Z n ?= 1 # 2)%Q = Lt).
  { rewrite <- Qlt_alt. unfold Qlt, Qminus, Qplus, Qopp, inject_Z. simpl. lia. }
  rewrite E. reflexivity.
Qed.

Lemma Qround_half_even_mono (x y : Q) :
  (x <= y)%Q -> Qround_half_even x <= Qround_half_even y.
Proof.
  intros Hxy. pose proof (Qfloor_resp_le x y Hxy) as Hf.
  pose proof (Qround_half_even_bounds x) as Bx.
  pose proof (Qround_half_even_bounds y) as By.
  destruct (Z.eq_dec (Qfloor x) (Qfloor y)) as [E|NE]; [|lia].
  unfold Qround_half_even in *. rewrite <- E in *.
  destruct (Qcompare_spec (x - inject_Z (Qfloor x)) (1 # 2)) as [Hx|Hx|Hx];
    destruct (Qcompare_spec (y - inject_Z (Qfloor x)) (1 # 2)) as [Hy|Hy|Hy];
    try destruct (Z.even (Qfloor x)); try lia; exfalso; lra.
Qed.

Lemma Qround_half_even_ge (x : Q) (n : Z) :
  (inject_Z n <= x)%Q -> n <= Qround_half_even x.
Proof.
  intros H. rewrite <- (Qround_half_even_Z n). apply Qround_half_even_mono, H.
Qed.

Lemma Qround_half_even_le (x : Q) (n : Z) :
  (x <= inject_Z n)%Q -> Qround_half_even x <= n.
Proof.
  intros H. rewrite <- (Qround_half_even_Z n). apply Qround_half_even_mono, H.
Qed.

(** ** Rounding on the grid of the multiples of [2^e] *)

Lemma grid_round_mono (e : Z) (x y : Q) :
  (x <= y)%Q -> (grid_round e x <= grid_round e y)%Q.
Proof.
  intros Hxy. unfold grid_round. pose proof (Qpow2_pos e) as He.
  assert (Hdiv : (x / 2 ^ e <= y / 2 ^ e)%Q).
  { apply Qmult_le_compat_r; [exact Hxy|]. apply Qinv_le_0_compat. lra. }
  apply Qround_half_even_mono in Hdiv. rewrite Zle_Qle in Hdiv. nra.
Qed.

Lemma grid_round_le_pow2 (e k : Z) (x : Q) :
  0 <= k -> (x <= 2 ^ (e + k))%Q -> (grid_round e x <= 2 ^ (e + k))%Q.
Proof.
  intros Hk Hx. unfold grid_round. pose proof (Qpow2_pos e) as He.
  assert (Hdiv : (x / 2 ^ e <= inject_Z (2 ^ k))%Q).
  { rewrite Qpow2_inject by exact Hk. apply Qle_shift_div_r; [exact He|].
    rewrite <- Qpow2_add. replace (k + e) with (e + k) by lia. exact Hx. }
  apply Qround_half_even_le in Hdiv. rewrite Zle_Qle in Hdiv.
  rewrite Qpow2_inject in Hdiv by exact Hk. rewrite Qpow2_add. nra.
Qed.

Lemma grid_round_ge_pow2 (e k : Z) (x : Q) :
  0 <= k -> (2 ^ (e + k) <= x)%Q -> (2 ^ (e + k) <= grid_round e x)%Q.
Proof.
  intros Hk Hx. unfold grid_round. pose proof (Qpow2_pos e) as He.
  assert (Hdiv : (inject_Z (2 ^ k) <= x / 2 ^ e)%Q).
  { rewrite Qpow2_inject by exact Hk. apply Qle_shift_div_l; [exact He|].
    rewrite <- Qpow2_add. replace (k + e) with (e + k) by lia. exact Hx. }
  apply Qround_half_even_ge in Hdiv. rewrite Zle_Qle in Hdiv.
  rewrite Qpow2_inject in Hdiv by exact Hk. rewrite Qpow2_add. nra.
Qed.

Lemma grid_round_nonneg (e : Z) (x : Q) : (0 <= x)%Q -> (0 <= grid_round e x)%Q.
Proof.
  intros Hx. unfold grid_round. pose proof (Qpow2_pos e) as He.
  assert (Hdiv : (inject_Z 0 <= x / 2 ^ e)%Q).
  { apply Qle_shift_div_l; [exact He|]. change (inject_Z 0) with 0%Q. lra. }
  apply Qround_half_even_ge in Hdiv. rewrite Zle_Qle in Hdiv.
  change (inject_Z 0) with 0%Q in Hdiv. nra.
Qed.

(** ** Rounding to binary64 *)

Lemma round_pos_grid (q : Q) : round_pos q = grid_round (ulp_exponent q) q.
Proof. reflexivity. Qed.

Lemma round_pos_nonneg (q : Q) : (0 <= q)%Q -> (0 <= round_pos q)%Q.
Proof. intros H. rewrite round_pos_grid. apply grid_round_nonneg, H. Qed.

Lemma round_pos_mono (x y : Q) :
  (0 < x)%Q -> (x <= y)%Q -> (round_pos x <= round_pos y)%Q.
Proof.
  intros Hx Hxy. rewrite !round_pos_grid. unfold ulp_exponent.
  pose proof (Qilog2_mono x y Hx Hxy) as Hl.
  destruct (Qilog2_spec x Hx) as [_ Hxhi].
  destruct (Qilog2_spec y) as [Hylo _]; [lra|].
  set (lx := Qilog2 x) in *. set (ly := Qilog2 y) in *.
  set (ex := Z.max (lx - 52) (-1074)). set (ey := Z.max (ly - 52) (-1074)).
  destruct (Z.eq_dec ex ey) as [E|NE].
  - rewrite E. apply grid_round_mono, Hxy.
  - assert (Hlt : ex < ey) by lia.
    assert (Hey : ey = ly - 52) by lia.
    apply Qle_trans with (2 ^ ly)%Q.
    + set (k := Z.max (lx + 1 - ex) 0).
      apply Qle_trans with (2 ^ (ex + k))%Q.
      * apply grid_round_le_pow2; [lia|].
        apply Qle_trans with (2 ^ (lx + 1))%Q; [lra|]. apply Qpow2_le. lia.
      * apply Qpow2_le. lia.
    + replace ly with (ey + 52) at 1 by lia.
      apply grid_round_ge_pow2; [lia|]. replace (ey + 52) with ly by lia.
      exact Hylo.
Qed.

Lemma round_b64_cases (q : Q) :
  ((q == 0)%Q /\ round_b64 q = 0%Q)
  \/ ((0 < q)%Q /\ round_b64 q = Qred (round_pos q))
  \/ ((q < 0)%Q /\ round_b64 q = Qred (- round_pos (- q))).
Proof.
  unfold round_b64. destruct (Qcompare_spec q 0); auto.
Qed.

Lemma round_b64_mono (x y : Q) : (x <= y)%Q -> (round_b64 x <= round_b64 y)%Q.
Proof.
  intros Hxy.
  destruct (round_b64_cases x) as [[Hx ->] | [[Hx ->] | [Hx ->]]];
    destruct (round_b64_cases y) as [[Hy ->] | [[Hy ->] | [Hy ->]]];
    rewrite ?Qred_correct; try lra.
  - apply round_pos_nonneg. lra.
  - apply round_pos_mono; assumption.
  - pose proof (round_pos_nonneg (- x)). lra.
  - pose proof (round_pos_nonneg (- x)). pose proof (round_pos_nonneg y). lra.
  - pose proof (round_pos_mono (- y) (- x)). lra.
Qed.

Lemma round_pos_proper (x y : Q) :
  (0 < x)%Q -> x == y -> round_pos x == round_pos y.
Proof.
  intros Hx Hxy. unfold round_pos, ulp_exponent.
  rewrite <- (Qilog2_proper x y Hx Hxy).
  set (e := Z.max _ _).
  assert (E : x / 2 ^ e == y / 2 ^ e) by (rewrite Hxy; reflexivity).
  rewrite (Qround_half_even_proper _ _ E). reflexivity.
Qed.

Lemma round_b64_proper (x y : Q) : x == y -> round_b64 x = round_b64 y.
Proof.
  intros Hxy.
  destruct (round_b64_cases x) as [[Hx ->] | [[Hx ->] | [Hx ->]]];
    destruct (round_b64_cases y) as [[Hy ->] | [[Hy ->] | [Hy ->]]];
    try (exfalso; lra); try reflexivity.
  - apply Qred_complete, round_pos_proper; assumption.
  - apply Qred_complete. rewrite (round_pos_proper (- x) (- y)); [reflexivity|lra|].
    rewrite Hxy. reflexivity.
Qed.

Lemma is_binary64_spec (q : Q) :
  is_binary64 q = true ->
  round_b64 q == q /\ (- 2 ^ 1024 < q < 2 ^ 1024)%Q.
Proof.
  unfold is_binary64, float_overflow. intros H.
  apply andb_true_iff in H as [Heq Hov].
  apply Qeq_bool_iff in Heq. split; [exact Heq|].
  apply negb_true_iff in Hov.
  assert (Hlt : (Qabs q < 2 ^ 1024)%Q).
  { apply Qnot_le_lt. intros Hc. apply Qle_bool_iff in Hc. congruence. }
  apply Qabs_Qlt_condition in Hlt. exact Hlt.
Qed.

(** ** The order of the floats *)

Lemma Qltb_lt (a b : Q) : Qltb a b = true <-> (a < b)%Q.
Proof.
  unfold Qltb. rewrite negb_true_iff. split.
  - intros H. apply Qnot_le_lt. intros Hc. apply Qle_bool_iff in Hc. congruence.
  - intros H. destruct (Qle_bool b a) eqn:E; [|reflexivity].
    apply Qle_bool_iff in E. lra.
Qed.

Lemma Qltb_ge (a b : Q) : Qltb a b = false <-> (b <= a)%Q.
Proof.
  unfold Qltb. rewrite negb_false_iff. apply Qle_bool_iff.
Qed.

Lemma float_lt_le (x y : float) : float_lt x y = true -> float_le x y = true.
Proof.
  destruct x as [|[]|a], y as [|[]|b]; simpl; try congruence.
  intros H. apply Qltb_lt in H. apply Qle_bool_iff. lra.
Qed.

Lemma float_le_trans (x y z : float) :
  float_le x y = true -> float_le y z = true -> float_le x z = true.
Proof.
  destruct x as [|[]|a], y as [|[]|b], z as [|[]|c]; simpl; try congruence.
  rewrite !Qle_bool_iff. lra.
Qed.

Lemma float_le_not_gt (x y : float) :
  float_le x y = true -> float_gt x y = false.
Proof.
  unfold float_gt.
  destruct x as [|[]|a], y as [|[]|b]; simpl; try congruence.
  rewrite Qle_bool_iff, Qltb_ge. tauto.
Qed.

Lemma float_le_refl (x : float) : is_nan x = false -> float_le x x = true.
Proof.
  destruct x as [|[]|a]; simpl; try congruence. intros _.
  apply Qle_bool_iff. lra.
Qed.

Lemma float_lt_nan_r (x : float) : float_lt x Fnan = false.
Proof. destruct x as [|[]|a]; reflexivity. Qed.

(** ** [min] and [max] *)

Section extremes.

Variable x : float.

Lemma min_loop_below (l : list float) (cur : float) :
  float_le cur x = true -> float_le (fold_left min_step l cur) x = true.
Proof.
  revert cur. induction l as [|item l IH]; intros cur Hcur; [exact Hcur|].
  simpl. apply IH. unfold min_step.
  destruct (float_lt item cur) eqn:E; [|exact Hcur].
  eapply float_le_trans; [apply float_lt_le; exact E | exact Hcur].
Qed.

Lemma max_loop_above (l : list float) (cur : float) :
  float_le x cur = true -> float_le x (fold_left max_step l cur) = true.
Proof.
  revert cur. induction l as [|item l IH]; intros cur Hcur; [exact Hcur|].
  simpl. apply IH. unfold max_step, float_gt.
  destruct (float_lt cur item) eqn:E; [|exact Hcur].
  eapply float_le_trans; [exact Hcur | apply float_lt_le; exact E].
Qed.

Lemma min_loop_nan (l : list float) : fold_left min_step l Fnan = Fnan.
Proof.
  induction l as [|item l IH]; [reflexivity|]. simpl.
  unfold min_step at 2. rewrite float_lt_nan_r. exact IH.
Qed.

End extremes.

(** The minimum is never above the maximum; it is below it unless the
    first element is a NaN, which then is both. *)
Lemma min_max_order (x : float) (l : list float) (lo hi : float) :
  builtin_min (x :: l) = Ok lo -> builtin_max (x :: l) = Ok hi ->
  float_gt lo hi = false
  /\ (is_nan x = false -> float_le lo hi = true)
  /\ (is_nan x = true -> lo = Fnan).
Proof.
  simpl. intros [= <-] [= <-].
  destruct (is_nan x) eqn:Enan.
  - destruct x; try discriminate. rewrite min_loop_nan.
    split; [|split; [discriminate | reflexivity]].
    unfold float_gt. apply float_lt_nan_r.
  - assert (Hle : float_le (fold_left min_step l x) (fold_left max_step l x)
                  = true).
    { eapply float_le_trans.
      - apply min_loop_below, float_le_refl, Enan.
      - apply max_loop_above, float_le_refl, Enan. }
    split; [apply float_le_not_gt, Hle | split; [intros _; exact Hle | discriminate]].
Qed.

(** On finite values the minimum and the maximum are elements that bound
    all the others. *)
Lemma min_finite (q : Q) (qs : list Q) :
  exists m, builtin_min (map Ffin (q :: qs)) = Ok (Ffin m)
            /\ In m (q :: qs) /\ Forall (fun v => (m <= v)%Q) (q :: qs).
Proof.
  simpl builtin_min.
  assert (H : forall cur seen,
    In cur seen -> Forall (fun v => (cur <= v)%Q) seen ->
    exists m,
      fold_left min_step (map Ffin qs) (Ffin cur) = Ffin m
      /\ In m (seen ++ qs) /\ Forall (fun v => (m <= v)%Q) (seen ++ qs)).
  { induction qs as [|v qs IH]; intros cur seen Hin Hall.
    - exists cur. rewrite app_nil_r. auto.
    - simpl fold_left. unfold min_step at 2. simpl float_lt.
      replace (seen ++ v :: qs)%list with ((seen ++ [v]) ++ qs)%list
        by (rewrite <- app_assoc; reflexivity).
      destruct (Qltb v cur) eqn:E.
      + apply Qltb_lt in E. apply IH.
        * apply in_or_app. right. left. reflexivity.
        * apply Forall_app. split.
          -- eapply Forall_impl; [exact Hall|]. simpl. intros; lra.
          -- constructor; [lra | constructor].
      + apply Qltb_ge in E. apply IH.
        * apply in_or_app. left. exact Hin.
        * apply Forall_app. split; [exact Hall|].
          constructor; [exact E | constructor]. }
  destruct (H q [q]) as (m & Hm & Hin & Hall).
  - left. reflexivity.
  - constructor; [lra | constructor].
  - exists m. rewrite Hm. auto.
Qed.

Lemma max_finite (q : Q) (qs : list Q) :
  exists m, builtin_max (map Ffin (q :: qs)) = Ok (Ffin m)
            /\ In m (q :: qs) /\ Forall (fun v => (v <= m)%Q) (q :: qs).
Proof.
  simpl builtin_max.
  assert (H : forall cur seen,
    In cur seen -> Forall (fun v => (v <= cur)%Q) seen ->
    exists m,
      fold_left max_step (map Ffin qs) (Ffin cur) = Ffin m
      /\ In m (seen ++ qs) /\ Forall (fun v => (v <= m)%Q) (seen ++ qs)).
  { induction qs as [|v qs IH]; intros cur seen Hin Hall.
    - exists cur. rewrite app_nil_r. auto.
    - simpl fold_left. unfold max_step at 2, float_gt. simpl float_lt.
      replace (seen ++ v :: qs)%list with ((seen ++ [v]) ++ qs)%list
        by (rewrite <- app_assoc; reflexivity).
      destruct (Qltb cur v) eqn:E.
      + apply Qltb_lt in E. apply IH.
        * apply in_or_app. right. left. reflexivity.
        * apply Forall_app. split.
          -- eapply Forall_impl; [exact Hall|]. simpl. intros; lra.
          -- constructor; [lra | constructor].
      + apply Qltb_ge in E. apply IH.
        * apply in_or_app. left. exact Hin.
        * apply Forall_app. split; [exact Hall|].
          constructor; [exact E | constructor]. }
  destruct (H q [q]) as (m & Hm & Hin & Hall).
  - left. reflexivity.
  - constructor; [lra | constructor].
  - exists m. rewrite Hm. auto.
Qed.

(** ** Conversions to float *)

Lemma float_overflow_false (r : Q) :
  (- 2 ^ 1024 < r < 2 ^ 1024)%Q -> float_overflow r = false.
Proof.
  intros H. unfold float_overflow.
  destruct (Qle_bool (2 ^ 1024) (Qabs r)) eqn:E; [|reflexivity].
  apply Qle_bool_iff in E. apply Qabs_Qlt_condition in H. lra.
Qed.

Lemma float_of_Q_exn_cases (q : Q) :
  float_of_Q_exn q = Ok (Ffin (round_b64 q))
  \/ float_of_Q_exn q = Raise OverflowError.
Proof. unfold float_of_Q_exn. destruct (float_overflow _); auto. Qed.

Lemma float_of_Q_exn_proper (x y : Q) :
  x == y -> float_of_Q_exn x = float_of_Q_exn y.
Proof.
  intros H. unfold float_of_Q_exn. rewrite (round_b64_proper x y H).
  reflexivity.
Qed.

(** A value between two binary64 numbers rounds to a float between
    them. *)
Lemma float_of_Q_exn_between (q lo hi : Q) :
  is_binary64 lo = true -> is_binary64 hi = true -> (lo <= q <= hi)%Q ->
  float_of_Q_exn q = Ok (Ffin (round_b64 q))
  /\ (lo <= round_b64 q <= hi)%Q.
Proof.
  intros Hlo Hhi [Hq1 Hq2].
  apply is_binary64_spec in Hlo as [Elo Blo].
  apply is_binary64_spec in Hhi as [Ehi Bhi].
  pose proof (round_b64_mono lo q Hq1) as M1.
  pose proof (round_b64_mono q hi Hq2) as M2.
  assert (Hb : (lo <= round_b64 q <= hi)%Q) by lra.
  split; [|exact Hb].
  unfold float_of_Q_exn. rewrite float_overflow_false by lra. reflexivity.
Qed.

Lemma int_true_divide_pos (a b : Z) :
  0 < b -> int_true_divide a b = float_of_Q_exn (inject_Z a / inject_Z b).
Proof.
  intros Hb. unfold int_true_divide.
  destruct (Z.eqb_spec b 0); [lia | reflexivity].
Qed.

Lemma float_of_Fraction_round (q : Q) :
  float_of_Fraction q = float_of_Q_exn q.
Proof.
  unfold float_of_Fraction. rewrite int_true_divide_pos by reflexivity.
  apply float_of_Q_exn_proper.
  rewrite <- Qmake_Qdiv. destruct (Qred q) as [n d] eqn:E. simpl.
  rewrite <- E. apply Qred_correct.
Qed.

Lemma binary64_one : is_binary64 1 = true.
Proof. vm_compute. reflexivity. Qed.

Lemma binary64_zero : is_binary64 0 = true.
Proof. vm_compute. reflexivity. Qed.

Lemma binary64_maxsize : is_binary64 (inject_Z (2 ^ 63)) = true.
Proof. vm_compute. reflexivity. Qed.

(** [float(len(scores))] of a list that is not empty. *)
Lemma float_of_len_positive (n : Z) (count : float) :
  1 <= n -> float_of_int n = Ok count -> float_lt (Ffin 0) count = true.
Proof.
  intros Hn. unfold float_of_int.
  destruct (float_of_Q_exn_cases (inject_Z n)) as [-> | ->]; [|discriminate].
  intros [= <-]. simpl. apply Qltb_lt.
  assert (H1 : (1 <= inject_Z n)%Q) by (change 1%Q with (inject_Z 1); rewrite <- Zle_Qle; exact Hn).
  apply round_b64_mono in H1.
  destruct (is_binary64_spec 1 binary64_one) as [E _]. lra.
Qed.

Lemma float_of_len_returns (n : Z) :
  1 <= n <= 2 ^ 63 ->
  exists r, float_of_int n = Ok (Ffin r) /\ (1 <= r)%Q.
Proof.
  intros Hn. unfold float_of_int.
  destruct (float_of_Q_exn_between (inject_Z n) 1 (inject_Z (2 ^ 63))
              binary64_one binary64_maxsize) as [E [B _]].
  - change 1%Q with (inject_Z 1). rewrite <- !Zle_Qle. exact Hn.
  - eauto.
Qed.

(** ** Exact sums *)

Lemma nonfinite_total_finite (qs : list Q) :
  statistics.nonfinite_total (map Ffin qs) = None.
Proof.
  unfold statistics.nonfinite_total.
  induction qs as [|q qs IH]; [reflexivity | exact IH].
Qed.

Lemma exact_sum_bounds (f : Q -> Q) (lo hi : Q) (qs : list Q) (acc : Q) :
  Forall (fun q => (lo <= f q <= hi)%Q) qs ->
  let s := fold_left
             (fun acc x => match x with Ffin q => (acc + f q)%Q | _ => acc end)
             (map Ffin qs) acc in
  (acc + inject_Z (Z.of_nat (length qs)) * lo <= s
   /\ s <= acc + inject_Z (Z.of_nat (length qs)) * hi)%Q.
Proof.
  intros Hall. revert acc.
  induction Hall as [|q qs [Hq1 Hq2] _ IH]; intros acc.
  - cbn [map fold_left length]. change (inject_Z (Z.of_nat 0)) with 0%Q. lra.
  - cbn [map fold_left length]. specialize (IH (acc + f q)%Q).
    cbv zeta in IH. rewrite Nat2Z.inj_succ. unfold Z.succ.
    rewrite inject_Z_plus. change (inject_Z 1) with 1%Q. lra.
Qed.

(** ** The mean *)

Lemma mean_finite (q : Q) (qs : list Q) (lo hi : Q) :
  is_binary64 lo = true -> is_binary64 hi = true ->
  Forall (fun v => (lo <= v <= hi)%Q) (q :: qs) ->
  exists r, statistics.mean (map Ffin (q :: qs)) = Ok (Ffin r)
            /\ (lo <= r <= hi)%Q.
Proof.
  intros Hlo Hhi Hall.
  unfold statistics.mean, statistics._sum.
  rewrite nonfinite_total_finite, length_map.
  set (n := Z.of_nat (length (q :: qs))).
  assert (Hn : 1 <= n) by (unfold n; simpl length; lia).
  destruct (Z.ltb_spec n 1); [lia|].
  rewrite float_of_Fraction_round.
  pose proof (exact_sum_bounds (fun v => v) lo hi (q :: qs) 0 Hall) as Hsum.
  cbv zeta in Hsum. fold n in Hsum.
  unfold statistics.exact_sum.
  set (s := fold_left _ (map Ffin (q :: qs)) 0%Q) in *.
  assert (Hnq : (1 <= inject_Z n)%Q)
    by (change 1%Q with (inject_Z 1); rewrite <- Zle_Qle; exact Hn).
  destruct (float_of_Q_exn_between (s / inject_Z n) lo hi Hlo Hhi) as [E B].
  - split.
    + apply Qle_shift_div_l; lra.
    + apply Qle_shift_div_r; lra.
  - eauto.
Qed.

(** ** The integer square root of a fraction *)

Lemma bit_length_spec (n : Z) :
  0 < n ->
  2 ^ (statistics.bit_length n - 1) <= n < 2 ^ statistics.bit_length n
  /\ 1 <= statistics.bit_length n.
Proof.
  intros Hn. unfold statistics.bit_length.
  destruct (Z.eqb_spec n 0); [lia|]. rewrite Z.abs_eq by lia.
  pose proof (Z.log2_spec n Hn) as H. pose proof (Z.log2_nonneg n).
  replace (Z.log2 n + 1 - 1) with (Z.log2 n) by lia.
  replace (Z.log2 n + 1) with (Z.succ (Z.log2 n)) by lia. lia.
Qed.

Lemma rto_bounds (n m : Z) :
  0 <= n -> 0 < m ->
  let r := statistics._integer_sqrt_of_frac_rto n m in
  0 <= r /\ (n = 0 -> r = 0) /\ (m <= n -> r * r * m <= 4 * n).
Proof.
  intros Hn Hm. unfold statistics._integer_sqrt_of_frac_rto.
  set (a := Z.sqrt (n / m)). set (s := if a * a * m =? n then 0 else 1).
  assert (Hdiv : 0 <= n / m) by (apply Z.div_pos; lia).
  assert (Ha : 0 <= a) by apply Z.sqrt_nonneg.
  assert (Hs : 0 <= s <= 1) by (unfold s; destruct (_ =? _); lia).
  assert (Hlor : 0 <= Z.lor a s <= a + s).
  { split; [apply Z.lor_nonneg; lia|].
    pose proof (Z.add_lor_land a s).
    assert (0 <= Z.land a s) by (apply Z.land_nonneg; lia). lia. }
  cbv zeta. split; [lia|]. split.
  - intros ->. unfold s, a. rewrite Z.div_0_l by lia. reflexivity.
  - intros Hle.
    assert (H1 : 1 <= n / m) by (apply Z.div_le_lower_bound; lia).
    assert (Ha1 : 1 <= a).
    { unfold a. change 1 with (Z.sqrt 1). apply Z.sqrt_le_mono. exact H1. }
    destruct (Z.sqrt_spec (n / m) Hdiv) as [Hsq _]. fold a in Hsq.
    pose proof (Z.mul_div_le n m Hm) as Hmul.
    assert (Hr : Z.lor a s <= 2 * a) by lia.
    assert (Hrr : Z.lor a s * Z.lor a s <= 4 * (a * a)) by nia.
    assert (a * a * m <= n) by nia.
    nia.
Qed.

Lemma pow2_pos (k : Z) : 0 <= k -> 0 < 2 ^ k.
Proof. intros. apply Z.pow_pos_nonneg; lia. Qed.

(** [_float_sqrt_of_frac n m] is the true division [num / den] of a
    numerator that is not negative by a positive denominator, the square of
    which is at most [4 n / m]. *)
Lemma float_sqrt_of_frac_divide (n m : Z) :
  0 <= n -> 0 < m ->
  exists num den,
    statistics._float_sqrt_of_frac n m = int_true_divide num den
    /\ 0 <= num /\ 0 < den /\ num * num * m <= 4 * n * (den * den).
Proof.
  intros Hn Hm. unfold statistics._float_sqrt_of_frac.
  set (bn := statistics.bit_length n). set (bm := statistics.bit_length m).
  destruct (bit_length_spec m Hm) as [[Hm1 Hm2] Hbm]. fold bm in Hm1, Hm2, Hbm.
  set (x := bn - bm - statistics._sqrt_bit_width).
  assert (Hx : x = bn - bm - 109) by reflexivity.
  set (q := x / 2).
  assert (Hq : 2 * q <= x < 2 * q + 2).
  { unfold q. pose proof (Z.mul_div_le x 2 eq_refl).
    pose proof (Z.mul_succ_div_gt x 2 eq_refl). lia. }
  destruct (Z.leb_spec 0 q) as [Hq0|Hq0].
  - (* the denominator is scaled *)
    assert (Hnpos : 0 < n).
    { destruct (Z.eq_dec n 0) as [->|]; [|lia].
      unfold bn, statistics.bit_length in Hx. simpl in Hx. lia. }
    destruct (bit_length_spec n Hnpos) as [[Hn1 Hn2] Hbn]. fold bn in Hn1, Hn2, Hbn.
    rewrite !Z.shiftl_mul_pow2 by lia.
    set (m' := m * 2 ^ (2 * q)).
    assert (Hp : 0 < 2 ^ (2 * q)) by (apply pow2_pos; lia).
    assert (Hm' : 0 < m') by (unfold m'; nia).
    assert (Hle : m' <= n).
    { unfold m'.
      assert (m * 2 ^ (2 * q) < 2 ^ bm * 2 ^ (2 * q)) by nia.
      rewrite <- Z.pow_add_r in H by lia.
      assert (2 ^ (bm + 2 * q) <= 2 ^ (bn - 1)) by (apply Z.pow_le_mono_r; lia).
      lia. }
    destruct (rto_bounds n m' Hn Hm') as (Hr0 & _ & Hr).
    specialize (Hr Hle).
    set (r := statistics._integer_sqrt_of_frac_rto n m') in *.
    exists (r * 2 ^ q), 1. split; [reflexivity|].
    assert (Hpq : 0 < 2 ^ q) by (apply pow2_pos; lia).
    split; [nia|]. split; [lia|].
    assert (E : 2 ^ (2 * q) = 2 ^ q * 2 ^ q).
    { rewrite <- Z.pow_add_r by lia. f_equal. lia. }
    unfold m' in Hr. rewrite E in Hr. nia.
  - (* the numerator is scaled *)
    set (k := - q). assert (Hk : 0 < k) by lia.
    replace (- 2 * q) with (2 * k) by lia.
    rewrite !Z.shiftl_mul_pow2 by lia.
    set (n' := n * 2 ^ (2 * k)).
    assert (Hp : 0 < 2 ^ (2 * k)) by (apply pow2_pos; lia).
    assert (Hn' : 0 <= n') by (unfold n'; nia).
    destruct (rto_bounds n' m Hn' Hm) as (Hr0 & Hrz & Hr).
    set (r := statistics._integer_sqrt_of_frac_rto n' m) in *.
    assert (Hpk : 0 < 2 ^ k) by (apply pow2_pos; lia).
    assert (E : 2 ^ (2 * k) = 2 ^ k * 2 ^ k).
    { rewrite <- Z.pow_add_r by lia. f_equal. lia. }
    exists r, (1 * 2 ^ k). split; [reflexivity|].
    split; [exact Hr0|]. split; [lia|].
    destruct (Z.eq_dec n 0) as [Hz|Hnz].
    + rewrite Hrz by (unfold n'; rewrite Hz; reflexivity). rewrite Hz. lia.
    + assert (Hnpos : 0 < n) by lia.
      destruct (bit_length_spec n Hnpos) as [[Hn1 Hn2] Hbn].
      fold bn in Hn1, Hn2, Hbn.
      assert (Hle : m <= n').
      { unfold n'.
        assert (2 ^ (bn - 1) * 2 ^ (2 * k) <= n * 2 ^ (2 * k)) by nia.
        rewrite <- Z.pow_add_r in H by lia.
        assert (2 ^ bm <= 2 ^ (bn - 1 + 2 * k)) by (apply Z.pow_le_mono_r; lia).
        lia. }
      specialize (Hr Hle). unfold n' in Hr. rewrite E in Hr. nia.
Qed.

(** ** The sample variance *)

Lemma exact_sum_Qsum (f : Q -> Q) (qs : list Q) :
  statistics.exact_sum f (map Ffin qs) == Qsum f qs.
Proof.
  unfold statistics.exact_sum.
  assert (H : forall acc,
    fold_left (fun acc x => match x with Ffin q => (acc + f q)%Q | _ => acc end)
      (map Ffin qs) acc == acc + Qsum f qs).
  { induction qs as [|q qs IH]; intros acc; simpl.
    - ring.
    - rewrite IH. ring. }
  rewrite H. ring.
Qed.

Lemma Qlen_cons (q : Q) (qs : list Q) : Qlen (q :: qs) == 1 + Qlen qs.
Proof.
  unfold Qlen. simpl length. rewrite Nat2Z.inj_succ. unfold Z.succ.
  rewrite inject_Z_plus. change (inject_Z 1) with 1%Q. ring.
Qed.

Lemma Qlen_nonneg (qs : list Q) : (0 <= Qlen qs)%Q.
Proof.
  unfold Qlen. change 0%Q with (inject_Z 0). rewrite <- Zle_Qle. lia.
Qed.

Lemma Qsquare_nonneg (x : Q) : (0 <= x * x)%Q.
Proof.
  destruct (Qlt_le_dec x 0) as [H|H].
  - assert (E : x * x == (- x) * (- x)) by ring. rewrite E.
    apply Qmult_le_0_compat; lra.
  - apply Qmult_le_0_compat; lra.
Qed.

(** The squared deviations from any [c] add up to a sum that is not
    negative. *)
Lemma sum_sq_dev (c : Q) (qs : list Q) :
  (0 <= Qsum (fun q => q * q) qs - 2 * c * Qsum (fun q => q) qs
        + Qlen qs * (c * c))%Q.
Proof.
  induction qs as [|q qs IH].
  - unfold Qlen. simpl. change (inject_Z (Z.of_nat 0)) with 0%Q. lra.
  - rewrite Qlen_cons. simpl Qsum.
    pose proof (Qsquare_nonneg (q - c)). nra.
Qed.

Lemma cauchy_schwarz (qs : list Q) :
  (Qsum (fun q => q) qs * Qsum (fun q => q) qs
   <= Qlen qs * Qsum (fun q => q * q) qs)%Q.
Proof.
  induction qs as [|q qs IH].
  - unfold Qlen. simpl. lra.
  - rewrite Qlen_cons. simpl Qsum. pose proof (sum_sq_dev q qs). nra.
Qed.

Lemma sum_sq_bound (M : Q) (qs : list Q) :
  Forall (fun q => (- M <= q <= M)%Q) qs ->
  (Qsum (fun q => q * q) qs <= Qlen qs * (M * M))%Q.
Proof.
  induction 1 as [|q qs Hq _ IH].
  - unfold Qlen. simpl. change (inject_Z (Z.of_nat 0)) with 0%Q. lra.
  - rewrite Qlen_cons. simpl Qsum.
    assert (q * q <= M * M)%Q.
    { pose proof (Qsquare_nonneg (M - q)). pose proof (Qsquare_nonneg (M + q)).
      assert (0 <= (M - q) * (M + q))%Q by (apply Qmult_le_0_compat; lra).
      lra. }
    nra.
Qed.

Lemma Qlen_ge_2 (qs : list Q) : (2 <= length qs)%nat -> (2 <= Qlen qs)%Q.
Proof.
  intros H. unfold Qlen. change 2%Q with (inject_Z 2). rewrite <- Zle_Qle. lia.
Qed.

Lemma sample_variance_nonneg (qs : list Q) :
  (2 <= length qs)%nat -> (0 <= sample_variance qs)%Q.
Proof.
  intros Hn. apply Qlen_ge_2 in Hn. pose proof (cauchy_schwarz qs) as CS.
  unfold sample_variance.
  apply Qle_shift_div_l; [lra|]. apply Qle_shift_div_l; [lra|]. lra.
Qed.

Lemma sample_variance_bound (M : Q) (qs : list Q) :
  (2 <= length qs)%nat -> Forall (fun q => (- M <= q <= M)%Q) qs ->
  (sample_variance qs <= 2 * (M * M))%Q.
Proof.
  intros Hn Hall. apply Qlen_ge_2 in Hn.
  pose proof (sum_sq_bound M qs Hall) as Hsq.
  unfold sample_variance.
  set (n := Qlen qs) in *. set (S1 := Qsum (fun q => q) qs).
  set (S2 := Qsum (fun q => q * q)%Q qs) in *.
  pose proof (Qsquare_nonneg M). pose proof (Qsquare_nonneg S1).
  apply Qle_shift_div_r; [lra|]. apply Qle_shift_div_r; [lra|]. nra.
Qed.

(** ** The standard deviation *)

(** [stdev] rounds a value that is not negative and whose square is at
    most four times the sample variance. *)
Lemma stdev_finite_value (qs : list Q) :
  (2 <= length qs)%nat ->
  exists R : Q,
    statistics.stdev (map Ffin qs) = float_of_Q_exn R
    /\ (0 <= R)%Q /\ (R * R <= 4 * sample_variance qs)%Q.
Proof.
  intros Hn. unfold statistics.stdev, statistics._ss.
  rewrite nonfinite_total_finite, length_map.
  destruct (Z.eqb_spec (Z.of_nat (length qs)) 0); [lia|].
  destruct (Z.ltb_spec (Z.of_nat (length qs)) 2); [lia|].
  set (ssd := ((inject_Z (Z.of_nat (length qs)) * _ - _) / _)%Q).
  set (mss := Qred (ssd / inject_Z (Z.of_nat (length qs) - 1))).
  assert (Emss : mss == sample_variance qs).
  { unfold mss, ssd, sample_variance. rewrite Qred_correct.
    rewrite !exact_sum_Qsum. unfold Qlen.
    unfold Z.sub. rewrite inject_Z_plus. reflexivity. }
  pose proof (sample_variance_nonneg qs Hn) as Hv.
  assert (Hnum : 0 <= Qnum mss).
  { rewrite <- Emss in Hv. unfold Qle in Hv. simpl in Hv. lia. }
  destruct (float_sqrt_of_frac_divide (Qnum mss) (Zpos (Qden mss)) Hnum eq_refl)
    as (num & den & -> & Hnum0 & Hden & Hsq).
  rewrite int_true_divide_pos by exact Hden.
  exists (inject_Z num / inject_Z den)%Q. split; [reflexivity|].
  assert (HD : (0 < inject_Z den)%Q)
    by (change 0%Q with (inject_Z 0); rewrite <- Zlt_Qlt; exact Hden).
  assert (HN : (0 <= inject_Z num)%Q)
    by (change 0%Q with (inject_Z 0); rewrite <- Zle_Qle; exact Hnum0).
  split; [apply Qle_shift_div_l; lra|].
  rewrite <- Emss.
  assert (Hmq : mss == inject_Z (Qnum mss) / inject_Z (Zpos (Qden mss))).
  { destruct mss as [a b]. simpl. apply Qmake_Qdiv. }
  rewrite Zle_Qle in Hsq. rewrite !inject_Z_mult in Hsq.
  change (inject_Z 4) with 4%Q in Hsq.
  set (N := inject_Z num) in *. set (D := inject_Z den) in *.
  set (a := inject_Z (Qnum mss)) in *.
  set (b := inject_Z (Zpos (Qden mss))) in *.
  assert (Hb : (0 < b)%Q) by reflexivity.
  rewrite Hmq.
  assert (E1 : N / D * (N / D) == N * N / (D * D)) by (field; lra).
  rewrite E1.
  apply Qle_shift_div_r; [nra|].
  assert (E2 : 4 * (a / b) * (D * D) == 4 * a * (D * D) / b) by (field; lra).
  rewrite E2. apply Qle_shift_div_l; [exact Hb|]. lra.
Qed.

Lemma stdev_finite (qs : list Q) :
  (2 <= length qs)%nat ->
  (exists r, statistics.stdev (map Ffin qs) = Ok (Ffin r) /\ (0 <= r)%Q)
  \/ statistics.stdev (map Ffin qs) = Raise OverflowError.
Proof.
  intros Hn. destruct (stdev_finite_value qs Hn) as (R & -> & HR & _).
  destruct (float_of_Q_exn_cases R) as [-> | ->]; [left|right; reflexivity].
  eexists. split; [reflexivity|].
  apply round_b64_mono in HR.
  destruct (is_binary64_spec 0 binary64_zero) as [E _]. lra.
Qed.

Lemma binary64_safe_max : is_binary64 safe_max = true.
Proof. vm_compute. reflexivity. Qed.

Lemma safe_max_square : (2 ^ 2047 < safe_max * safe_max)%Q.
Proof. vm_compute. reflexivity. Qed.

Lemma safe_max_pos : (0 <= safe_max)%Q.
Proof. vm_compute. discriminate. Qed.

Lemma pow_1022_square : (2 * (2 ^ 1022 * 2 ^ 1022) == 2 ^ 2045)%Q.
Proof. vm_compute. reflexivity. Qed.

Lemma pow_2047 : (4 * 2 ^ 2045 == 2 ^ 2047)%Q.
Proof. vm_compute. reflexivity. Qed.

(** With all the values within [2^1022] of zero the standard deviation is
    in the range of the floats. *)
Lemma stdev_bounded (qs : list Q) :
  (2 <= length qs)%nat ->
  Forall (fun q => (- 2 ^ 1022 <= q <= 2 ^ 1022)%Q) qs ->
  exists r, statistics.stdev (map Ffin qs) = Ok (Ffin r) /\ (0 <= r)%Q.
Proof.
  intros Hn Hall. destruct (stdev_finite_value qs Hn) as (R & -> & HR & Hsq).
  pose proof (sample_variance_bound (2 ^ 1022) qs Hn Hall) as Hv.
  pose proof pow_1022_square as E1. pose proof pow_2047 as E2.
  pose proof safe_max_square as HB. pose proof safe_max_pos as HB0.
  set (v := sample_variance qs) in *.
  set (T := (2 ^ 2047)%Q) in *. set (U := (2 ^ 2045)%Q) in *.
  set (P := (2 ^ 1022)%Q) in *.
  assert (HR2 : (R * R <= T)%Q) by lra.
  assert (HRB : (R <= safe_max)%Q).
  { apply Qnot_lt_le. intros Hc.
    assert (safe_max * safe_max <= R * R)%Q by nra. lra. }
  destruct (float_of_Q_exn_between R 0 safe_max binary64_zero
              binary64_safe_max) as [E [B _]]; [lra|].
  eauto.
Qed.

(** ** The statistics transformer *)

Lemma finite_list (scores : list float) :
  Forall (fun x => is_finite x = true) scores ->
  exists qs, scores = map Ffin qs.
Proof.
  induction 1 as [|x l Hx _ (qs & ->)]; [exists []; reflexivity|].
  destruct x as [| |q]; try discriminate. exists (q :: qs). reflexivity.
Qed.

Lemma nonfinite_total_stays (l : list float) (t : float) :
  exists t',
    fold_left
      (fun acc x =>
         if is_finite x then acc
         else Some (match acc with None => x | Some t => float_add t x end))
      l (Some t) = Some t'.
Proof.
  revert t. induction l as [|x l IH]; intros t; simpl; [eauto|].
  destruct (is_finite x); apply IH.
Qed.

Lemma finite_or_not (scores : list float) :
  (exists qs, scores = map Ffin qs)
  \/ (exists t, statistics.nonfinite_total scores = Some t).
Proof.
  unfold statistics.nonfinite_total.
  induction scores as [|x l [(qs & ->) | (t & Ht)]].
  - left. exists []. reflexivity.
  - destruct x as [| |q].
    + right. simpl. apply nonfinite_total_stays.
    + right. simpl. apply nonfinite_total_stays.
    + left. exists (q :: qs). reflexivity.
  - right. simpl. destruct (is_finite x); [eauto|].
    apply nonfinite_total_stays.
Qed.

(** The fields of the summary the transformer builds. *)
Lemma summary_fields (count lo hi avg sd : float) :
  let stats : gmap string float :=
    list_to_map [("count", count); ("min", lo); ("max", hi);
                 ("mean", avg); ("stdev", sd)] in
  stats !! "count" = Some count /\ stats !! "min" = Some lo
  /\ stats !! "max" = Some hi /\ stats !! "mean" = Some avg
  /\ stats !! "stdev" = Some sd /\ dom stats = stats_required.
Proof.
  intros stats. repeat split; reflexivity.
Qed.

(** What a summary that was returned is made of. *)
Lemma transform_returned (scores : list float) (stats : gmap string float) :
  transform_scores_to_stats scores = Ok stats ->
  exists x l count lo hi avg sd,
    scores = x :: l
    /\ float_of_int (Z.of_nat (length scores)) = Ok count
    /\ builtin_min scores = Ok lo /\ builtin_max scores = Ok hi
    /\ statistics.mean scores = Ok avg
    /\ (if 1 <? Z.of_nat (length scores)
        then statistics.stdev scores else Ok (Ffin 0)) = Ok sd
    /\ stats = list_to_map [("count", count); ("min", lo); ("max", hi);
                            ("mean", avg); ("stdev", sd)].
Proof.
  unfold transform_scores_to_stats. destruct scores as [|x l]; [discriminate|].
  set (scores := x :: l).
  destruct (float_of_int _) as [count|]; [|discriminate].
  destruct (builtin_min scores) as [lo|]; [|discriminate].
  destruct (builtin_max scores) as [hi|]; [|discriminate].
  destruct (statistics.mean scores) as [avg|]; [|discriminate].
  destruct (if 1 <? _ then _ else _) as [sd|]; [|discriminate].
  simpl. intros [= <-]. exists x, l, count, lo, hi, avg, sd.
  repeat split; reflexivity.
Qed.

(** The errors of the transformer. *)
Lemma transform_raised (scores : list float) (e : exn) :
  transform_scores_to_stats scores = Raise e ->
  (scores = [] /\ e = ValueError)
  \/ (scores <> [] /\ (e = OverflowError \/ e = AttributeError)).
Proof.
  unfold transform_scores_to_stats. destruct scores as [|x l].
  { intros [= <-]. left. auto. }
  intros H. right. split; [discriminate|]. revert H.
  set (scores := x :: l).
  unfold float_of_int.
  destruct (float_of_Q_exn_cases (inject_Z (Z.of_nat (length scores))))
    as [-> | ->]; [|intros [= <-]; auto].
  assert (Hmin : exists lo, builtin_min scores = Ok lo)
    by (eexists; reflexivity).
  assert (Hmax : exists hi, builtin_max scores = Ok hi)
    by (eexists; reflexivity).
  destruct Hmin as (lo & ->). destruct Hmax as (hi & ->). cbn [bind].
  assert (Hmean : (exists avg, statistics.mean scores = Ok avg)
                  \/ statistics.mean scores = Raise OverflowError).
  { unfold statistics.mean, statistics._sum.
    destruct (Z.ltb_spec (Z.of_nat (length scores)) 1);
      [unfold scores in *; simpl length in *; lia|].
    destruct (statistics.nonfinite_total scores); [left; eauto|].
    rewrite float_of_Fraction_round.
    destruct (float_of_Q_exn_cases
                (statistics.exact_sum (fun q => q) scores
                 / inject_Z (Z.of_nat (length scores)))) as [-> | ->]; eauto. }
  destruct Hmean as [(avg & ->) | ->]; [|intros [= <-]; auto].
  cbn [bind].
  destruct (Z.ltb_spec 1 (Z.of_nat (length scores))) as [Hlen|Hlen];
    [|discriminate].
  destruct (finite_or_not scores) as [(qs & E) | (t & Ht)].
  - rewrite E. destruct (stdev_finite qs) as [(r & -> & _) | ->].
    + apply (f_equal (@length _)) in E. rewrite length_map in E. lia.
    + discriminate.
    + intros [= <-]. auto.
  - unfold statistics.stdev, statistics._ss. rewrite Ht.
    destruct (Z.eqb_spec (Z.of_nat (length scores)) 0); [lia|].
    destruct (Z.ltb_spec (Z.of_nat (length scores)) 2); [lia|].
    intros [= <-]. auto.
Qed.

Lemma float_lt_not_le (x y : float) :
  float_lt x y = true -> float_le y x = false.
Proof.
  destruct x as [|[]|a], y as [|[]|b]; simpl; try congruence.
  intros H. apply Qltb_lt in H.
  destruct (Qle_bool b a) eqn:E; [|reflexivity].
  apply Qle_bool_iff in E. lra.
Qed.

(** The verifier accepts a complete summary with a positive count and a
    minimum that is not above the maximum. *)
Lemma verify_stats_accepts (stats : gmap string float) (count lo hi : float) :
  dom stats = stats_required ->
  stats !! "count" = Some count -> stats !! "min" = Some lo ->
  stats !! "max" = Some hi ->
  float_lt (Ffin 0) count = true -> float_gt lo hi = false ->
  verify_stats stats = Ok tt.
Proof.
  intros Hdom Hcount Hlo Hhi Hpos Hord. unfold verify_stats, getitem.
  rewrite Hdom, Hcount, Hlo, Hhi.
  rewrite bool_decide_eq_false_2 by (intros H; apply H; set_solver).
  simpl. rewrite (float_lt_not_le _ _ Hpos), Hord. reflexivity.
Qed.

Lemma float_within_spec (M : Q) (x : float) :
  float_within M x = true -> exists q, x = Ffin q /\ (- M <= q <= M)%Q.
Proof.
  destruct x as [| |q]; try discriminate. simpl.
  rewrite andb_true_iff, !Qle_bool_iff. eauto.
Qed.

(** The parts of the summary of a list of finite floats. *)
Lemma transform_finite_parts (q : Q) (qs : list Q) :
  Forall (fun v => is_binary64 v = true) (q :: qs) ->
  Z.of_nat (length (q :: qs)) <= 2 ^ 63 ->
  exists count lo hi avg,
    float_of_int (Z.of_nat (length (map Ffin (q :: qs)))) = Ok (Ffin count)
    /\ builtin_min (map Ffin (q :: qs)) = Ok (Ffin lo)
    /\ builtin_max (map Ffin (q :: qs)) = Ok (Ffin hi)
    /\ statistics.mean (map Ffin (q :: qs)) = Ok (Ffin avg)
    /\ (lo <= avg <= hi)%Q.
Proof.
  intros Hok Hlen.
  destruct (float_of_len_returns (Z.of_nat (length (q :: qs))))
    as (count & Hcount & _); [simpl length in *; lia|].
  destruct (min_finite q qs) as (lo & Hmin & Hlo_in & Hlo).
  destruct (max_finite q qs) as (hi & Hmax & Hhi_in & Hhi).
  rewrite Forall_forall in Hok.
  assert (Hblo : is_binary64 lo = true) by (apply Hok, list_elem_of_In, Hlo_in).
  assert (Hbhi : is_binary64 hi = true) by (apply Hok, list_elem_of_In, Hhi_in).
  destruct (mean_finite q qs lo hi Hblo Hbhi) as (avg & Hmean & Havg).
  { rewrite List.Forall_forall in Hlo, Hhi. apply List.Forall_forall.
    intros v Hv. split; [apply Hlo | apply Hhi]; exact Hv. }
  exists count, lo, hi, avg. rewrite length_map. auto.
Qed.

Lemma binary64_list (qs : list Q) :
  Forall (fun x => float_ok x = true) (map Ffin qs) ->
  Forall (fun v => is_binary64 v = true) qs.
Proof.
  induction qs as [|q qs IH]; intros H; [constructor|].
  apply Forall_cons in H as [Hq H]. constructor; [exact Hq | apply IH, H].
Qed.

Lemma within_list (M : Q) (scores : list float) :
  Forall (fun x => float_within M x = true) scores ->
  exists qs, scores = map Ffin qs /\ Forall (fun q => (- M <= q <= M)%Q) qs.
Proof.
  induction 1 as [|x l Hx _ (qs & -> & Hqs)].
  - exists []. split; [reflexivity | constructor].
  - apply float_within_spec in Hx as (q & -> & Hq). exists (q :: qs).
    split; [reflexivity | constructor; assumption].
Qed.

(** [stdev] of two or more values one of which is not finite. *)
Lemma stdev_not_finite (scores : list float) (t : float) :
  statistics.nonfinite_total scores = Some t ->
  (2 <= length scores)%nat ->
  statistics.stdev scores = Raise AttributeError.
Proof.
  intros Ht Hn. unfold statistics.stdev, statistics._ss. rewrite Ht.
  destruct (Z.eqb_spec (Z.of_nat (length scores)) 0); [lia|].
  destruct (Z.ltb_spec (Z.of_nat (length scores)) 2); [lia|]. reflexivity.
Qed.

(** The summary of finite floats, when it is returned, has its mean
    between the extremes and a standard deviation that is not negative. *)
Lemma transform_ordered_finite (qs : list Q) (stats : gmap string float) :
  Forall (fun v => is_binary64 v = true) qs ->
  transform_scores_to_stats (map Ffin qs) = Ok stats ->
  exists lo hi avg sd : Q,
    stats !! "min" = Some (Ffin lo) /\ stats !! "max" = Some (Ffin hi)
    /\ stats !! "mean" = Some (Ffin avg) /\ stats !! "stdev" = Some (Ffin sd)
    /\ (lo <= avg <= hi)%Q /\ (0 <= sd)%Q.
Proof.
  intros Hok H.
  apply transform_returned in H
    as (x & l & count & lo & hi & avg & sd & E & _ & Hmin & Hmax & Hmean
        & Hsd & ->).
  destruct qs as [|q qs]; [discriminate E|]. clear E x l.
  destruct (min_finite q qs) as (m & Hm & Hm_in & Hm_le).
  destruct (max_finite q qs) as (M & HM & HM_in & HM_le).
  rewrite Hm in Hmin. rewrite HM in Hmax.
  injection Hmin as <-. injection Hmax as <-.
  rewrite Forall_forall in Hok.
  assert (Hbm : is_binary64 m = true) by (apply Hok, list_elem_of_In, Hm_in).
  assert (HbM : is_binary64 M = true) by (apply Hok, list_elem_of_In, HM_in).
  destruct (mean_finite q qs m M Hbm HbM) as (r & Hr & Hr_le).
  { rewrite List.Forall_forall in Hm_le, HM_le. apply List.Forall_forall.
    intros v Hv. split; [apply Hm_le | apply HM_le]; exact Hv. }
  rewrite Hr in Hmean. injection Hmean as <-.
  assert (Hsd' : exists s, sd = Ffin s /\ (0 <= s)%Q).
  { rewrite length_map in Hsd.
    destruct (Z.ltb_spec 1 (Z.of_nat (length (q :: qs)))) as [Hn|Hn].
    - destruct (stdev_finite (q :: qs)) as [(s & Hs & Hs0) | Hov]; [lia| |].
      + rewrite Hs in Hsd. injection Hsd as <-. eauto.
      + rewrite Hov in Hsd. discriminate Hsd.
    - injection Hsd as <-. exists 0%Q. split; [reflexivity | lra]. }
  destruct Hsd' as (s & -> & Hs).
  exists m, M, r, s. repeat split; try reflexivity; tauto || exact Hs.
Qed.

(** The same for every list without a NaN: the transformer returns on a
    list with an infinity only when it is the only element. *)
Lemma transform_ordered (scores : list float) (stats : gmap string float) :
  Forall (fun x => float_ok x = true /\ is_nan x = false) scores ->
  transform_scores_to_stats scores = Ok stats ->
  exists lo hi avg sd,
    stats !! "min" = Some lo /\ stats !! "max" = Some hi
    /\ stats !! "mean" = Some avg /\ stats !! "stdev" = Some sd
    /\ float_le lo avg = true /\ float_le avg hi = true
    /\ float_le (Ffin 0) sd = true.
Proof.
  intros Hall H.
  destruct (finite_or_not scores) as [(qs & ->) | (t & Ht)].
  - destruct (transform_ordered_finite qs stats) as
      (lo & hi & avg & sd & Elo & Ehi & Eavg & Esd & Havg & Hsd);
      [|exact H|].
    + apply binary64_list. eapply Forall_impl; [exact Hall|]. simpl. tauto.
    + exists (Ffin lo), (Ffin hi), (Ffin avg), (Ffin sd).
      do 4 (split; [assumption|]). simpl. rewrite !Qle_bool_iff. tauto.
  - apply transform_returned in H
      as (x & l & count & lo & hi & avg & sd & -> & _ & Hmin & Hmax & Hmean
          & Hsd & ->).
    destruct l as [|y l].
    + apply Forall_cons in Hall as [[_ Hnan] _].
      destruct x as [|neg|q];
        [discriminate Hnan | | vm_compute in Ht; discriminate Ht].
      injection Hmin as <-. injection Hmax as <-. injection Hsd as <-.
      assert (avg = Finf neg) as ->.
      { destruct neg; vm_compute in Hmean; congruence. }
      exists (Finf neg), (Finf neg), (Finf neg), (Ffin 0).
      do 4 (split; [reflexivity|]). destruct neg; repeat split; reflexivity.
    + rewrite (stdev_not_finite _ t Ht) in Hsd by (simpl; lia).
      destruct (Z.ltb_spec 1 (Z.of_nat (length (x :: y :: l)))) as [_|Hn];
        [discriminate Hsd | simpl length in Hn; lia].
Qed.

(** The transformer returns on finite floats of moderate size. *)
Lemma transform_bounded_returns (scores : list float) :
  scores <> [] ->
  Forall (fun x => float_ok x = true /\ float_within (2 ^ 1022) x = true)
    scores ->
  Z.of_nat (length scores) <= 2 ^ 63 ->
  exists stats, transform_scores_to_stats scores = Ok stats.
Proof.
  intros Hne Hall Hlen.
  destruct (within_list (2 ^ 1022) scores) as (qs & -> & Hqs).
  { eapply Forall_impl; [exact Hall|]. simpl. tauto. }
  assert (Hok : Forall (fun v => is_binary64 v = true) qs).
  { apply binary64_list. eapply Forall_impl; [exact Hall|]. simpl. tauto. }
  destruct qs as [|q qs]; [exfalso; apply Hne; reflexivity|].
  rewrite length_map in Hlen.
  destruct (transform_finite_parts q qs Hok Hlen)
    as (count & lo & hi & avg & Hcount & Hmin & Hmax & Hmean & _).
  unfold transform_scores_to_stats. simpl map at 1. cbv iota.
  rewrite Hcount, Hmin, Hmax, Hmean. cbn [bind]. rewrite length_map.
  destruct (Z.ltb_spec 1 (Z.of_nat (length (q :: qs)))) as [Hn|Hn].
  - destruct (stdev_bounded (q :: qs)) as (sd & -> & _); [lia | exact Hqs|].
    cbn [bind]. eauto.
  - cbn [bind]. eauto.
Qed.

Lemma transform_complete (scores : list float) (stats : gmap string float) :
  transform_scores_to_stats scores = Ok stats -> dom stats = stats_required.
Proof.
  intros H.
  apply transform_returned in H
    as (x & l & count & lo & hi & avg & sd & _ & _ & _ & _ & _ & _ & ->).
  apply summary_fields.
Qed.

Lemma transform_single (x : float) :
  float_ok x = true ->
  exists stats,
    transform_scores_to_stats [x] = Ok stats
    /\ stats !! "stdev" = Some (Ffin 0).
Proof.
  intros Hok. destruct x as [|neg|q].
  - eexists. split; reflexivity.
  - eexists. split; reflexivity.
  - destruct (transform_finite_parts q [])
      as (count & lo & hi & avg & Hcount & Hmin & Hmax & Hmean & _).
    + constructor; [exact Hok | constructor].
    + simpl. lia.
    + unfold transform_scores_to_stats.
      change [Ffin q] with (map Ffin [q]).
      rewrite Hcount, Hmin, Hmax, Hmean. cbn [bind map length].
      eexists. split; reflexivity.
Qed.

(** C3, as the code has it: on every list of floats other than NaN on
    which the transformer returns, the summary has min <= mean <= max and
    stdev >= 0; the transformer returns on every non-empty list of finite
    floats that are at most [2^1022] in magnitude; the summary of a single
    float has the standard deviation 0. *)
Theorem transform_stats_ordered :
  (forall (scores : list float) (stats : gmap string float),
     Forall (fun x => float_ok x = true /\ is_nan x = false) scores ->
     transform_scores_to_stats scores = Ok stats ->
     exists lo hi avg sd,
       stats !! "min" = Some lo /\ stats !! "max" = Some hi
       /\ stats !! "mean" = Some avg /\ stats !! "stdev" = Some sd
       /\ float_le lo avg = true /\ float_le avg hi = true
       /\ float_le (Ffin 0) sd = true)
  /\ (forall scores : list float,
      scores <> [] ->
      Forall (fun x => float_ok x = true /\ float_within (2 ^ 1022) x = true)
        scores ->
      Z.of_nat (length scores) <= 2 ^ 63 ->
      returns (transform_scores_to_stats scores) = true)
  /\ (forall x : float, float_ok x = true ->
      exists stats,
        transform_scores_to_stats [x] = Ok stats
        /\ stats !! "stdev" = Some (Ffin 0)).
Proof.
  split; [exact transform_ordered|]. split; [|exact transform_single].
  intros scores Hne Hall Hlen.
  destruct (transform_bounded_returns scores Hne Hall Hlen) as (stats & ->).
  reflexivity.
Qed.

Lemma transform_stats_ordered_witness :
  (exists lo hi avg sd,
     example_summary !! "min" = Some lo /\ example_summary !! "max" = Some hi
     /\ example_summary !! "mean" = Some avg
     /\ example_summary !! "stdev" = Some sd
     /\ float_le lo avg = true /\ float_le avg hi = true
     /\ float_le (Ffin 0) sd = true)
  /\ returns (transform_scores_to_stats example_scores) = true
  /\ exists stats,
       transform_scores_to_stats [Ffin 5] = Ok stats
       /\ stats !! "stdev" = Some (Ffin 0).
Proof.
  destruct transform_stats_ordered as (Hordered & Hreturns & Hsingle).
  split; [|split].
  - apply (Hordered example_scores example_summary).
    + repeat constructor.
    + exact example_transformed.
  - apply (Hreturns example_scores).
    + intros H. discriminate H.
    + repeat constructor.
    + vm_compute. discriminate.
  - apply (Hsingle (Ffin 5)). vm_compute. reflexivity.
Defined.

(** C3 as stated fails in two ways.  On the two finite floats of
    [huge_scores] the standard deviation is about 1.9e308, more than the
    largest float, and [statistics.stdev] raises [OverflowError]: no
    summary is returned.  On a NaN the summary is returned, and its minimum
    and its mean are the NaN, which is not less than or equal to itself. *)
Lemma transform_huge_overflows :
  (Forall (fun x => float_ok x = true /\ is_finite x = true) huge_scores
   /\ transform_scores_to_stats huge_scores = Raise OverflowError)
  /\ (transform_scores_to_stats [Fnan] = Ok nan_summary
      /\ nan_summary !! "min" = Some Fnan
      /\ nan_summary !! "mean" = Some Fnan
      /\ float_le Fnan Fnan = false).
Proof.
  split; split.
  - repeat constructor; vm_compute; reflexivity.
  - vm_compute. reflexivity.
  - unfold transform_scores_to_stats.
    replace (float_of_int (Z.of_nat (length [Fnan]))) with (Ok (Ffin 1))
      by (vm_compute; reflexivity).
    reflexivity.
  - repeat split; reflexivity.
Qed.

(** C8, as the code has it: [ValueError] is raised exactly on the empty
    list; a summary that is returned has all the five fields; on finite
    floats of magnitude at most [2^1022] the transformer returns; the only
    other errors, on lists that are not empty, are the [OverflowError] and
    the [AttributeError] of [statistics.stdev]. *)
Theorem transform_empty_input :
  (forall scores,
     transform_scores_to_stats scores = Raise ValueError <-> scores = [])
  /\ (forall scores stats,
      transform_scores_to_stats scores = Ok stats ->
      dom stats = stats_required)
  /\ (forall scores,
      scores <> [] ->
      Forall (fun x => float_ok x = true /\ float_within (2 ^ 1022) x = true)
        scores ->
      Z.of_nat (length scores) <= 2 ^ 63 ->
      exists stats,
        transform_scores_to_stats scores = Ok stats
        /\ dom stats = stats_required)
  /\ (forall scores e,
      scores <> [] -> transform_scores_to_stats scores = Raise e ->
      e = OverflowError \/ e = AttributeError).
Proof.
  split; [|split; [exact transform_complete | split]].
  - intros scores. split.
    + intros H. apply transform_raised in H as [[-> _] | [_ [H | H]]];
        [reflexivity | discriminate H | discriminate H].
    + intros ->. reflexivity.
  - intros scores Hne Hall Hlen.
    destruct (transform_bounded_returns scores Hne Hall Hlen) as (stats & H).
    exists stats. split; [exact H | apply (transform_complete scores), H].
  - intros scores e Hne H.
    apply transform_raised in H as [[-> _] | [_ H]]; [congruence | exact H].
Qed.

Lemma transform_empty_input_witness :
  exists stats,
    transform_scores_to_stats example_scores = Ok stats
    /\ dom stats = stats_required.
Proof.
  destruct transform_empty_input as (_ & _ & Hreturns & _).
  apply (Hreturns example_scores).
  - intros H. discriminate H.
  - repeat constructor.
  - vm_compute. discriminate.
Defined.

(** C8 as stated fails: the cells [1.7e308] and [-1.7e308] are read as
    finite floats, and on them the transformer raises [OverflowError]
    instead of returning a summary. *)
Lemma transform_parsed_overflows :
  (x <- float_of_str "1.7e308";;
   y <- float_of_str "-1.7e308";;
   Ok (is_finite x && is_finite y)) = Ok true
  /\ (x <- float_of_str "1.7e308";;
      y <- float_of_str "-1.7e308";;
      transform_scores_to_stats [x; y]) = Raise OverflowError.
Proof. split; vm_compute; reflexivity. Qed.

(** C9, as the code has it: on whatever list the transformer returns a
    summary, the summary has the five fields, a positive count, and a
    minimum that is not greater than the maximum, so the verifier accepts
    it; the minimum is less than or equal to the maximum unless the first
    score is a NaN.  The transformer returns on every non-empty list of
    finite floats of magnitude at most [2^1022]. *)
Theorem verify_accepts_transformed :
  (forall scores stats,
     transform_scores_to_stats scores = Ok stats ->
     dom stats = stats_required
     /\ (exists x l count lo hi,
           scores = x :: l
           /\ stats !! "count" = Some count /\ stats !! "min" = Some lo
           /\ stats !! "max" = Some hi
           /\ float_lt (Ffin 0) count = true
           /\ float_gt lo hi = false
           /\ (is_nan x = false -> float_le lo hi = true))
     /\ verify_stats stats = Ok tt)
  /\ (forall scores,
      scores <> [] ->
      Forall (fun x => float_ok x = true /\ float_within (2 ^ 1022) x = true)
        scores ->
      Z.of_nat (length scores) <= 2 ^ 63 ->
      exists stats,
        transform_scores_to_stats scores = Ok stats
        /\ verify_stats stats = Ok tt).
Proof.
  assert (Hfirst : forall scores stats,
    transform_scores_to_stats scores = Ok stats ->
    dom stats = stats_required
    /\ (exists x l count lo hi,
          scores = x :: l
          /\ stats !! "count" = Some count /\ stats !! "min" = Some lo
          /\ stats !! "max" = Some hi
          /\ float_lt (Ffin 0) count = true
          /\ float_gt lo hi = false
          /\ (is_nan x = false -> float_le lo hi = true))
    /\ verify_stats stats = Ok tt).
  { intros scores stats H.
    apply transform_returned in H
      as (x & l & count & lo & hi & avg & sd & -> & Hcount & Hmin & Hmax
          & _ & _ & ->).
    destruct (summary_fields count lo hi avg sd)
      as (Ec & Elo & Ehi & _ & _ & Hdom).
    destruct (min_max_order x l lo hi Hmin Hmax) as (Hgt & Hle & _).
    assert (Hpos : float_lt (Ffin 0) count = true).
    { eapply float_of_len_positive; [|exact Hcount]. simpl length. lia. }
    split; [exact Hdom|]. split.
    - exists x, l, count, lo, hi. auto 10.
    - eapply verify_stats_accepts; eassumption. }
  split; [exact Hfirst|].
  intros scores Hne Hall Hlen.
  destruct (transform_bounded_returns scores Hne Hall Hlen) as (stats & H).
  exists stats. split; [exact H | apply (Hfirst scores stats H)].
Qed.

Lemma verify_accepts_transformed_witness :
  verify_stats example_summary = Ok tt
  /\ exists stats,
       transform_scores_to_stats example_scores = Ok stats
       /\ verify_stats stats = Ok tt.
Proof.
  destruct verify_accepts_transformed as [Haccepts Hreturns]. split.
  - apply (Haccepts example_scores example_summary). exact example_transformed.
  - apply (Hreturns example_scores).
    + intros H. discriminate H.
    + repeat constructor.
    + vm_compute. discriminate.
Defined.

(** C9 as stated fails on a NaN: the cell [nan] is read as a float, the
    summary of the one-element list has it as minimum and as maximum, and
    a NaN is not less than or equal to itself; the verifier, which tests
    [min > max], accepts the summary all the same.  And there are lists of
    floats, such as [huge_scores], on which the transformer has no output
    for the verifier. *)
Lemma transform_nan_min_max :
  float_of_str "nan" = Ok Fnan
  /\ transform_scores_to_stats [Fnan] = Ok nan_summary
  /\ nan_summary !! "min" = Some Fnan
  /\ nan_summary !! "max" = Some Fnan
  /\ float_le Fnan Fnan = false
  /\ verify_stats nan_summary = Ok tt
  /\ returns (transform_scores_to_stats huge_scores) = false.
Proof.
  split; [vm_compute; reflexivity|].
  split; [|repeat split; vm_compute; reflexivity].
  unfold transform_scores_to_stats.
  replace (float_of_int (Z.of_nat (length [Fnan]))) with (Ok (Ffin 1))
    by (vm_compute; reflexivity).
  reflexivity.
Qed.

(** * Further properties *)

(** ** Reading the input file

    The four extractors start in the same way: the existence test, then
    the file is opened and read.  *)

Lemma path_exists_file (p : Path) (text : string) (w : world) :
  files w !! p = Some text ->
  path_exists p w = (Ok true, log (EvExists p) w).
Proof.
  intros H. unfold path_exists. rewrite H.
  rewrite bool_decide_eq_true_2 by eauto. reflexivity.
Qed.

Lemma path_exists_dir (p : Path) (w : world) :
  p ∈ dirs w -> path_exists p w = (Ok true, log (EvExists p) w).
Proof.
  intros H. unfold path_exists.
  rewrite (bool_decide_eq_true_2 (p ∈ dirs w)) by exact H.
  rewrite orb_true_r. reflexivity.
Qed.

Lemma path_exists_neither (p : Path) (w : world) :
  files w !! p = None -> p ∉ dirs w ->
  path_exists p w = (Ok false, log (EvExists p) w).
Proof.
  intros Hf Hd. unfold path_exists. rewrite Hf.
  rewrite bool_decide_eq_false_2 by (intros [? ?]; discriminate).
  rewrite bool_decide_eq_false_2 by exact Hd. reflexivity.
Qed.

(** The start of an extractor on a regular file. *)
Lemma read_file {A} (p : Path) (text : string) (k : string -> io A)
    (w : world) :
  files w !! p = Some text ->
  (found <~ path_exists p;;
   if negb found then io_raise FileNotFoundError
   else text <~ open_read p;; k text) w
  = k text (log (EvOpenRead p) (log (EvExists p) w)).
Proof.
  intros H. unfold io_bind at 1. rewrite (path_exists_file p text w H).
  cbn [negb]. unfold io_bind at 1, open_read. cbn [files log].
  rewrite H. reflexivity.
Qed.

(** The start of an extractor where there is no regular file. *)
Lemma read_no_file {A} (p : Path) (k : string -> io A) (w : world) :
  files w !! p = None ->
  exists w',
    (found <~ path_exists p;;
     if negb found then io_raise FileNotFoundError
     else text <~ open_read p;; k text) w
    = (Raise (no_file_error w p), w')
    /\ same_store w w'.
Proof.
  intros H. unfold no_file_error. destruct (decide (p ∈ dirs w)) as [Hd|Hd].
  - rewrite bool_decide_eq_true_2 by exact Hd.
    eexists. unfold io_bind at 1. rewrite (path_exists_dir p w Hd).
    cbn [negb]. unfold io_bind at 1, open_read. cbn [files dirs log].
    rewrite H. rewrite bool_decide_eq_true_2 by exact Hd.
    split; [reflexivity | split; reflexivity].
  - rewrite bool_decide_eq_false_2 by exact Hd.
    eexists. unfold io_bind at 1. rewrite (path_exists_neither p w H Hd).
    cbn [negb]. split; [reflexivity | split; reflexivity].
Qed.

(** ** The text pipeline *)

(** *** The words of a line *)

Lemma str_truthy_snoc (word : string) (c : ascii) :
  str_truthy (word +:+ String c "") = true.
Proof. destruct word; reflexivity. Qed.

Lemma split_scan_length (s word : string) :
  length (split_scan word s)
  = ((if str_truthy word then 1 else 0)
     + starts_after (negb (str_truthy word)) s)%nat.
Proof.
  revert word. induction s as [|c s IH]; intros word; simpl.
  - destruct (str_truthy word); reflexivity.
  - destruct (is_space c) eqn:Ec.
    + rewrite andb_false_r. destruct (str_truthy word); simpl;
        rewrite (IH ""); simpl; reflexivity.
    + rewrite IH, str_truthy_snoc. simpl. rewrite andb_true_r.
      destruct (str_truthy word); simpl; lia.
Qed.

Lemma count_if_cons {A} (f : A -> bool) (x : A) (l : list A) :
  count_if f (x :: l) = ((if f x then 1 else 0) + count_if f l)%nat.
Proof. unfold count_if. simpl. destruct (f x); reflexivity. Qed.

Lemma count_if_seq_S {f : nat -> bool} (start len : nat) :
  count_if f (seq (S start) len) = count_if (fun i => f (S i)) (seq start len).
Proof.
  unfold count_if. revert start. induction len as [|len IH]; intros start;
    [reflexivity|].
  simpl. destruct (f (S start)); simpl; rewrite IH; reflexivity.
Qed.

Lemma count_if_ext {A} (f g : A -> bool) (l : list A) :
  (forall x, In x l -> f x = g x) -> count_if f l = count_if g l.
Proof.
  unfold count_if. induction l as [|x l IH]; intros H; [reflexivity|].
  simpl. rewrite (H x) by (left; reflexivity).
  destruct (g x); simpl; rewrite IH; auto using in_cons.
Qed.

Lemma count_if_le {A} (f : A -> bool) (l : list A) :
  (count_if f l <= length l)%nat.
Proof. unfold count_if. apply List.filter_length_le. Qed.

(** The word starts of [String c s] after the first position. *)
Lemma starts_after_count (s : string) (c : ascii) :
  starts_after (is_space c) s
  = count_if (fun i => is_word_start (String c s) (S i))
      (seq 0 (String.length s)).
Proof.
  revert c. induction s as [|d s IH]; intros c; [reflexivity|].
  cbn [starts_after String.length seq].
  rewrite count_if_cons, count_if_seq_S.
  replace (is_word_start (String c (String d s)) 1)
    with (is_space c && negb (is_space d))
    by (unfold is_word_start; simpl; apply andb_comm).
  rewrite (count_if_ext (fun i => is_word_start (String c (String d s)) (S (S i)))
             (fun i => is_word_start (String d s) (S i)))
    by (intros i _; reflexivity).
  rewrite <- (IH d). reflexivity.
Qed.

(** [len(s.split())] is the number of the word starts of [s]. *)
Lemma str_split_length (s : string) : length (str_split s) = word_starts s.
Proof.
  unfold str_split, word_starts. rewrite split_scan_length. simpl.
  destruct s as [|c s]; [reflexivity|].
  cbn [starts_after String.length seq].
  rewrite count_if_cons, count_if_seq_S, starts_after_count.
  replace (is_word_start (String c s) 0) with (negb (is_space c))
    by (unfold is_word_start; simpl; rewrite andb_true_r; reflexivity).
  reflexivity.
Qed.

Lemma word_starts_le (s : string) : (word_starts s <= String.length s)%nat.
Proof.
  unfold word_starts. etransitivity; [apply count_if_le|].
  rewrite length_seq. reflexivity.
Qed.

(** *** The counts *)

Lemma count_line_loop (lines : list string) (word_count char_count : Z) :
  fold_left count_line lines (word_count, char_count)
  = (word_count + Z.of_nat (sum_list (map word_starts lines)),
     char_count + Z.of_nat (total_length lines)).
Proof.
  unfold total_length. revert word_count char_count.
  induction lines as [|line lines IH]; intros word_count char_count; simpl.
  - f_equal; lia.
  - rewrite IH, str_split_length. f_equal; lia.
Qed.

Lemma of_nat_not_negative (n : nat) : (Z.of_nat n <? 0) = false.
Proof. apply Z.ltb_ge. lia. Qed.

Lemma transform_counts_eq (lines : list string) :
  transform_line_word_char_counts lines
  = list_to_map
      [("lines", Z.of_nat (length lines));
       ("words", Z.of_nat (sum_list (map word_starts lines)));
       ("chars", Z.of_nat (total_length lines))].
Proof.
  unfold transform_line_word_char_counts. rewrite count_line_loop. reflexivity.
Qed.

Lemma sum_word_starts_le (lines : list string) :
  (sum_list (map word_starts lines)
   <= total_length lines)%nat.
Proof.
  unfold total_length. induction lines as [|line lines IH]; simpl; [lia|].
  pose proof (word_starts_le line). lia.
Qed.

(** X1: the summary of the text transformer has the three keys [lines],
    [words] and [chars] and no other; [lines] is the number of lines,
    [chars] the sum of their lengths, and [words] the number of word
    starts, the characters that are not white space and stand first in
    their line or after white space. *)
Theorem transform_line_word_char_counts_fields (lines : list string) :
  let summary := transform_line_word_char_counts lines in
  dom summary = {[ "lines"; "words"; "chars" ]}
  /\ summary !! "lines" = Some (Z.of_nat (length lines))
  /\ summary !! "words" = Some (Z.of_nat (sum_list (map word_starts lines)))
  /\ summary !! "chars"
     = Some (Z.of_nat (total_length lines)).
Proof.
  intros summary. subst summary. rewrite transform_counts_eq.
  repeat split; reflexivity.
Qed.

(** X2: the verifier of the text pipeline accepts the summary of every
    list of lines; there are never more words than characters. *)
Theorem verify_summary_accepts_transformed (lines : list string) :
  let summary := transform_line_word_char_counts lines in
  verify_summary summary = Ok tt
  /\ exists word_count char_count,
       summary !! "words" = Some word_count
       /\ summary !! "chars" = Some char_count
       /\ 0 <= word_count <= char_count.
Proof.
  intros summary. subst summary. rewrite transform_counts_eq. split.
  - unfold verify_summary. cbn [fold_left bind].
    change (list_to_map _ !! "lines") with (Some (Z.of_nat (length lines))).
    change (list_to_map _ !! "words")
      with (Some (Z.of_nat (sum_list (map word_starts lines)))).
    change (list_to_map _ !! "chars")
      with (Some (Z.of_nat (total_length lines))).
    cbn [bind]. rewrite !of_nat_not_negative. reflexivity.
  - exists (Z.of_nat (sum_list (map word_starts lines))),
      (Z.of_nat (total_length lines)).
    split; [reflexivity|]. split; [reflexivity|].
    pose proof (sum_word_starts_le lines). lia.
Qed.

Ltac rejected :=
  split;
  [split; [discriminate
          | intros (? & ? & ? & ? & ? & ? & ? & ? & ?); simplify_eq; lia]
  | auto].

(** X3: [verify_summary] accepts exactly the summaries that have a count
    that is not negative under each of the three keys; whatever else the
    summary holds does not matter.  It raises [KeyError] or [ValueError]
    otherwise. *)
Theorem verify_summary_accepts_iff (summary : gmap string Z) :
  (verify_summary summary = Ok tt <->
   exists line_count word_count char_count,
     summary !! "lines" = Some line_count
     /\ summary !! "words" = Some word_count
     /\ summary !! "chars" = Some char_count
     /\ 0 <= line_count /\ 0 <= word_count /\ 0 <= char_count)
  /\ (verify_summary summary = Ok tt
      \/ verify_summary summary = Raise KeyError
      \/ verify_summary summary = Raise ValueError).
Proof.
  unfold verify_summary. cbn [fold_left bind].
  destruct (summary !! "lines") as [l|]; cbn [bind]; [|rejected].
  destruct (Z.ltb_spec l 0); cbn [bind]; [rejected|].
  destruct (summary !! "words") as [n|]; cbn [bind]; [|rejected].
  destruct (Z.ltb_spec n 0); cbn [bind]; [rejected|].
  destruct (summary !! "chars") as [c|]; cbn [bind]; [|rejected].
  destruct (Z.ltb_spec c 0); cbn [bind]; [rejected|].
  split; [|auto]. split; [|reflexivity]. intros _. eauto 10.
Qed.

Lemma verify_summary_transformed (lines : list string) :
  verify_summary (transform_line_word_char_counts lines) = Ok tt.
Proof.
  rewrite transform_counts_eq. unfold verify_summary. cbn [fold_left bind].
  change (list_to_map _ !! "lines") with (Some (Z.of_nat (length lines))).
  change (list_to_map _ !! "words")
    with (Some (Z.of_nat (sum_list (map word_starts lines)))).
  change (list_to_map _ !! "chars")
    with (Some (Z.of_nat (total_length lines))).
  cbn [bind]. rewrite !of_nat_not_negative. reflexivity.
Qed.

(** *** The report *)

Lemma load_summary_report_complete (summary : gmap string Z)
    (out_path : Path) (w : world) (line_count word_count char_count : Z) :
  summary !! "lines" = Some line_count ->
  summary !! "words" = Some word_count ->
  summary !! "chars" = Some char_count ->
  exists w',
    load_summary_report summary out_path w = (Ok tt, w')
    /\ written w out_path
         (summary_report line_count word_count char_count) w'.
Proof.
  intros Hl Hw Hc. unfold load_summary_report, getitem.
  rewrite Hl, Hw, Hc.
  open_file H. write_line H. rewrite io_bind_lift_ok.
  write_line H. rewrite io_bind_lift_ok.
  write_line H. rewrite io_bind_lift_ok.
  match goal with |- context [write _ ?text ?w0] =>
    destruct (write_end w out_path _ text w0 H) as (w' & Hrun & H')
  end.
  exists w'. split; [exact Hrun|].
  unfold summary_report. rewrite !append_assoc in H'. exact H'.
Qed.

(** X4: on a summary with the three counts, each of at most 4300 digits
    so that Python converts it to text, [load_summary_report] returns, and
    the output file holds the four lines of the report, whatever it held
    before; no other file is changed.  The loader does not test the
    summary first: when a key is missing it raises [KeyError] after it has
    written the lines before that key, and leaves the report incomplete. *)
Theorem load_summary_report_writes (summary : gmap string Z)
    (out_path : Path) (w : world) :
  writable w out_path ->
  (forall line_count word_count char_count,
     summary !! "lines" = Some line_count ->
     summary !! "words" = Some word_count ->
     summary !! "chars" = Some char_count ->
     printable line_count -> printable word_count -> printable char_count ->
     exists w',
       load_summary_report summary out_path w = (Ok tt, w')
       /\ written w out_path
            (summary_report line_count word_count char_count) w')
  /\ (summary !! "lines" = None ->
      exists w',
        load_summary_report summary out_path w = (Raise KeyError, w')
        /\ written w out_path ("Text File Summary" +:+ nl) w')
  /\ (forall line_count,
      summary !! "lines" = Some line_count ->
      summary !! "words" = None ->
      printable line_count ->
      exists w',
        load_summary_report summary out_path w = (Raise KeyError, w')
        /\ written w out_path
             ("Text File Summary" +:+ nl
              +:+ "Lines: " +:+ str_of_int line_count +:+ nl) w').
Proof.
  intros _. split; [|split].
  - intros line_count word_count char_count Hl Hw Hc _ _ _.
    apply load_summary_report_complete; assumption.
  - intros Hl. unfold load_summary_report, getitem. rewrite Hl.
    open_file H. write_line H. rewrite io_bind_raise.
    eexists. split; [reflexivity | exact H].
  - intros line_count Hl Hw _. unfold load_summary_report, getitem.
    rewrite Hl, Hw.
    open_file H. write_line H. rewrite io_bind_lift_ok.
    write_line H. rewrite io_bind_raise.
    eexists. split; [reflexivity|]. rewrite !append_assoc in H. exact H.
Qed.

(** *** The pipeline *)

Section text_pipeline.

Variable readlines : string -> list string.

Lemma extract_lines_file (p : Path) (text : string) (w : world) :
  files w !! p = Some text ->
  exists w',
    extract_lines readlines p w = (Ok (readlines text), w')
    /\ same_store w w'.
Proof.
  intros H. unfold extract_lines. rewrite (read_file p text _ w H).
  eexists. split; [reflexivity | split; reflexivity].
Qed.

Lemma extract_lines_no_file (p : Path) (w : world) :
  files w !! p = None ->
  exists w',
    extract_lines readlines p w = (Raise (no_file_error w p), w')
    /\ same_store w w'.
Proof. intros H. apply (read_no_file p _ w H). Qed.

Lemma extract_lines_store (p : Path) (w : world) :
  same_store w (snd (extract_lines readlines p w)).
Proof.
  destruct (files w !! p) as [text|] eqn:Hfile.
  - destruct (extract_lines_file p text w Hfile) as (w' & -> & Hw'). exact Hw'.
  - destruct (extract_lines_no_file p w Hfile) as (w' & -> & Hw'). exact Hw'.
Qed.

Lemma run_text_cases (raw_dir processed_dir : Path) (w : world) :
  let input_file := path_div raw_dir "romeo_and_juliet.txt" in
  let output_file := path_div processed_dir "txt_summary.txt" in
  match fst (extract_lines readlines input_file w) with
  | Ok lines =>
      exists w',
        run_text_pipeline readlines raw_dir processed_dir w = (Ok tt, w')
        /\ written w output_file
             (summary_report
                (Z.of_nat (length lines))
                (Z.of_nat (sum_list (map word_starts lines)))
                (Z.of_nat (total_length lines))) w'
  | Raise e =>
      exists w',
        run_text_pipeline readlines raw_dir processed_dir w = (Raise e, w')
        /\ same_store w w'
  end.
Proof.
  intros input_file output_file.
  pose proof (extract_lines_store input_file w) as Hstore.
  unfold run_text_pipeline. fold input_file output_file.
  destruct (extract_lines readlines input_file w)
    as [[lines|e] w1] eqn:Hextract; cbn [fst snd] in *.
  - rewrite (io_bind_ok _ _ w w1 _ Hextract).
    rewrite verify_summary_transformed, io_bind_lift_ok.
    destruct (load_summary_report_complete
                (transform_line_word_char_counts lines)
                output_file w1
                (Z.of_nat (length lines))
                (Z.of_nat (sum_list (map word_starts lines)))
                (Z.of_nat (total_length lines)))
      as (w' & Hload & Hw'); try (rewrite transform_counts_eq; reflexivity).
    exists w'. split; [exact Hload|]. eapply written_from; eassumption.
  - unfold io_bind at 1. rewrite Hextract. eauto.
Qed.

(** X5: the text pipeline.  When the input is a regular file, the pipeline
    returns, and the output file holds the report of the counts of the
    lines of the input; every other file is as before.  When it is not,
    the pipeline raises [FileNotFoundError], or [IsADirectoryError] on a
    directory, and no file or directory has been created or changed. *)
Theorem run_text_pipeline_effect (raw_dir processed_dir : Path) (w : world) :
  let input_file := path_div raw_dir "romeo_and_juliet.txt" in
  let output_file := path_div processed_dir "txt_summary.txt" in
  writable w output_file ->
  (forall text,
     files w !! input_file = Some text ->
     let lines := readlines text in
     exists w',
       run_text_pipeline readlines raw_dir processed_dir w = (Ok tt, w')
       /\ written w output_file
            (summary_report
               (Z.of_nat (length lines))
               (Z.of_nat (sum_list (map word_starts lines)))
               (Z.of_nat (total_length lines))) w')
  /\ (files w !! input_file = None ->
      exists w',
        run_text_pipeline readlines raw_dir processed_dir w
        = (Raise (no_file_error w input_file), w')
        /\ same_store w w').
Proof.
  intros input_file output_file _.
  pose proof (run_text_cases raw_dir processed_dir w) as H.
  cbv zeta in H. fold input_file output_file in H. split.
  - intros text Hfile lines.
    destruct (extract_lines_file input_file text w Hfile) as (w1 & Hrun & _).
    rewrite Hrun in H. exact H.
  - intros Hfile.
    destruct (extract_lines_no_file input_file w Hfile) as (w1 & Hrun & _).
    rewrite Hrun in H. exact H.
Qed.

End text_pipeline.

(** ** The XLSX pipeline *)

(** *** The strings of a column *)

Lemma keep_strings_loop (cells : list cell_value) (values : list string) :
  fold_left
    (fun values cell =>
       match cell with
       | CellStr value =>
           if str_truthy (strip value) then (values ++ [value])%list
           else values
       | _ => values
       end)
    cells values
  = (values ++ omap cell_string cells)%list.
Proof.
  revert values. induction cells as [|cell cells IH]; intros values.
  - simpl. rewrite app_nil_r. reflexivity.
  - cbn [fold_left]. rewrite IH.
    destruct cell as [|value| |]; try reflexivity.
    cbn [omap list_omap cell_string]. rewrite str_truthy_strip.
    destruct (blank value); cbn [negb]; [reflexivity|].
    rewrite <- app_assoc. reflexivity.
Qed.

Lemma cell_strings_not_blank (cells : list cell_value) :
  Forall (fun value => blank value = false) (omap cell_string cells).
Proof.
  induction cells as [|cell cells IH]; [constructor|].
  cbn [omap list_omap]. destruct cell as [|value| |]; try exact IH.
  cbn [cell_string]. destruct (blank value) eqn:E; [exact IH|].
  constructor; assumption.
Qed.

Section xlsx_extractor.

Variable openpyxl_load_workbook : string -> result workbook.

Lemma extract_xlsx_file (p : Path) (column_letter text : string) (w : world) :
  files w !! p = Some text ->
  exists w',
    extract_xlsx_column_strings openpyxl_load_workbook p column_letter w
    = (wb <- openpyxl_load_workbook text;;
       match active wb with
       | None => Raise TypeError
       | Some sheet =>
           cells <- sheet column_letter;;
           Ok (omap cell_string cells)
       end, w')
    /\ same_store w w'.
Proof.
  intros H. unfold extract_xlsx_column_strings.
  rewrite (read_file p text _ w H).
  unfold io_bind at 1, parse.
  destruct (openpyxl_load_workbook text) as [wb|e];
    [|eexists; split; [reflexivity | split; reflexivity]].
  rewrite io_bind_lift_ok. cbn [bind].
  destruct (active wb) as [sheet|];
    [|eexists; split; [reflexivity | split; reflexivity]].
  destruct (sheet column_letter) as [cells|e];
    [|eexists; split; [reflexivity | split; reflexivity]].
  rewrite io_bind_lift_ok. cbn [bind]. unfold io_ret.
  rewrite keep_strings_loop. eexists. split; [reflexivity | split; reflexivity].
Qed.

(** X6: on a regular file [extract_xlsx_column_strings] returns the strings
    of the cells of the column that hold a string that is not blank, in
    the order of the cells and as they are (not stripped); cells without
    a string are skipped.  An error of the workbook loader or of the
    column access is passed on, a workbook without an active sheet is a
    [TypeError].  The extractor changes no file. *)
Theorem extract_xlsx_column_strings_cells (p : Path)
    (column_letter text : string) (w : world) :
  files w !! p = Some text ->
  exists w',
    extract_xlsx_column_strings openpyxl_load_workbook p column_letter w
    = (wb <- openpyxl_load_workbook text;;
       match active wb with
       | None => Raise TypeError
       | Some sheet =>
           cells <- sheet column_letter;;
           Ok (omap cell_string cells)
       end, w')
    /\ same_store w w'
    /\ forall values,
         fst (extract_xlsx_column_strings openpyxl_load_workbook p
                column_letter w) = Ok values ->
         Forall (fun value => blank value = false) values.
Proof.
  intros H. destruct (extract_xlsx_file p column_letter text w H)
    as (w' & Hrun & Hw').
  exists w'. split; [exact Hrun|]. split; [exact Hw'|].
  intros values. rewrite Hrun. cbn [fst].
  destruct (openpyxl_load_workbook text) as [wb|e]; [|discriminate].
  cbn [bind]. destruct (active wb) as [sheet|]; [|discriminate].
  destruct (sheet column_letter) as [cells|e]; [|discriminate].
  cbn [bind]. intros [= <-]. apply cell_strings_not_blank.
Qed.

End xlsx_extractor.

(** *** Counting the word *)

Lemma transform_count_word_eq (values : list string) (word : string) :
  word <> "" ->
  transform_count_word values word
  = Ok (foldr Z.add 0
          (map (fun text => str_count (lower text) (lower word)) values)).
Proof.
  intros Hword. unfold transform_count_word.
  destruct word as [|c word]; [congruence|]. cbn [str_truthy negb].
  rewrite count_word_loop. reflexivity.
Qed.

(** X7: the count does not depend on the case of the letters, of the word
    or of the strings: inputs that are equal once lower-cased give the
    same result, and lower-casing the inputs beforehand changes
    nothing. *)
Theorem transform_count_word_case_insensitive :
  (forall values values' word word',
     lower word = lower word' -> map lower values = map lower values' ->
     transform_count_word values word = transform_count_word values' word')
  /\ (forall values word,
      transform_count_word (map lower values) (lower word)
      = transform_count_word values word).
Proof.
  assert (Hgen : forall values values' word word',
    lower word = lower word' -> map lower values = map lower values' ->
    transform_count_word values word = transform_count_word values' word').
  { intros values values' word word' Hword Hvalues.
    destruct word as [|c word].
    - symmetry in Hword. apply lower_empty in Hword. subst word'. reflexivity.
    - destruct word' as [|c' word']; [discriminate Hword|].
      rewrite !transform_count_word_eq by discriminate.
      rewrite Hword. f_equal. f_equal.
      assert (E : forall vs,
        map (fun text => str_count (lower text) (lower (String c' word'))) vs
        = map (fun low => str_count low (lower (String c' word')))
            (map lower vs))
        by (intros vs; rewrite List.map_map; reflexivity).
      rewrite !E.
      rewrite Hvalues. reflexivity. }
  split; [exact Hgen|].
  intros values word. apply Hgen; [apply lower_idem|].
  rewrite List.map_map. apply List.map_ext. intros text. apply lower_idem.
Qed.

(** *** The size of the count *)

Lemma substring_length_le (s : string) (i n : nat) :
  (String.length (substring i n s) <= String.length s - i)%nat.
Proof.
  revert i n. induction s as [|c s IH]; intros i n.
  - destruct i, n; simpl; lia.
  - destruct i as [|i].
    + destruct n as [|n]; simpl; [lia|]. specialize (IH O n). lia.
    + simpl. apply IH.
Qed.

Lemma occurs_at_inside (sub s : string) (i : nat) :
  sub <> "" -> occurs_at sub s i ->
  (i + String.length sub <= String.length s)%nat.
Proof.
  intros Hsub H. unfold occurs_at in H.
  pose proof (substring_length_le s i (String.length sub)) as Hle.
  rewrite H in Hle.
  assert (1 <= String.length sub)%nat by (destruct sub; [congruence | simpl; lia]).
  lia.
Qed.

(** Occurrences that do not overlap need their room. *)
Lemma non_overlapping_room (sub s : string) (ps : list nat) (base : nat) :
  sub <> "" ->
  non_overlapping sub s ps ->
  Forall (fun p => (base <= p)%nat) ps ->
  (base <= String.length s)%nat ->
  (base + length ps * String.length sub <= String.length s)%nat.
Proof.
  intros Hsub [Hocc Hsorted]. revert base.
  induction Hsorted as [|p ps Hsorted IH Hgap]; intros base Hbase Hlen.
  - simpl. lia.
  - apply Forall_cons in Hocc as [Hp Hocc].
    apply Forall_cons in Hbase as [Hbp _].
    pose proof (occurs_at_inside sub s p Hsub Hp) as Hin.
    specialize (IH Hocc (p + String.length sub)%nat).
    simpl length. rewrite List.Forall_forall in Hgap.
    assert (Forall (fun q => (p + String.length sub <= q)%nat) ps)
      by (apply Forall_forall; intros q Hq; apply Hgap, list_elem_of_In, Hq).
    specialize (IH H Hin). lia.
Qed.

Lemma str_count_room (s sub : string) :
  sub <> "" ->
  0 <= str_count s sub
  /\ str_count s sub * Z.of_nat (String.length sub)
     <= Z.of_nat (String.length s).
Proof.
  intros Hsub.
  destruct (str_count_max sub Hsub s) as (n & -> & (ps & Hps & <-) & _).
  split; [lia|].
  pose proof (non_overlapping_room sub s ps 0 Hsub Hps) as H.
  rewrite <- Nat2Z.inj_mul. apply Nat2Z.inj_le.
  apply H; [apply Forall_forall; intros; lia | lia].
Qed.

Lemma count_word_room (target : string) (values : list string) :
  target <> "" ->
  let count :=
    foldr Z.add 0 (map (fun text => str_count (lower text) target) values) in
  0 <= count
  /\ count * Z.of_nat (String.length target) <= Z.of_nat (total_length values).
Proof.
  intros Htarget. unfold total_length.
  induction values as [|text values [IH0 IH]]; simpl; [lia|].
  destruct (str_count_room (lower text) target Htarget) as [H0 H].
  rewrite lower_length in H. lia.
Qed.

Lemma transform_count_word_room (values : list string) (word : string)
    (count : Z) :
  transform_count_word values word = Ok count ->
  word <> ""
  /\ 0 <= count
  /\ count * Z.of_nat (String.length word) <= Z.of_nat (total_length values).
Proof.
  intros H. destruct word as [|c word]; [discriminate H|].
  split; [discriminate|].
  rewrite transform_count_word_eq in H by discriminate. injection H as <-.
  rewrite <- (lower_length (String c word)).
  exact (count_word_room (lower (String c word)) values
           (lower_not_empty (String c word) ltac:(discriminate))).
Qed.

(** X8: a count that [transform_count_word] returns is not negative, so
    that [verify_count] accepts it, and the occurrences it counts fit in
    the strings: the count times the length of the word is at most the
    total number of characters. *)
Theorem transform_count_word_bounds (values : list string) (word : string)
    (count : Z) :
  transform_count_word values word = Ok count ->
  0 <= count
  /\ count * Z.of_nat (String.length word) <= Z.of_nat (total_length values)
  /\ verify_count count = Ok tt.
Proof.
  intros H. apply transform_count_word_room in H as (_ & H0 & H).
  split; [exact H0|]. split; [exact H|].
  unfold verify_count. destruct (Z.ltb_spec count 0); [lia | reflexivity].
Qed.

Lemma foldr_add_app (l1 l2 : list Z) :
  foldr Z.add 0 (l1 ++ l2) = foldr Z.add 0 l1 + foldr Z.add 0 l2.
Proof. induction l1 as [|x l1 IH]; simpl; lia. Qed.

Lemma foldr_add_perm (l1 l2 : list Z) :
  l1 ≡ₚ l2 -> foldr Z.add 0 l1 = foldr Z.add 0 l2.
Proof. induction 1; simpl; lia. Qed.

(** X9: the strings are counted one by one: the count of two lists put
    together is the sum of their counts, and the order of the strings does
    not matter. *)
Theorem transform_count_word_additive (word : string) :
  (forall values1 values2 count1 count2,
     transform_count_word values1 word = Ok count1 ->
     transform_count_word values2 word = Ok count2 ->
     transform_count_word (values1 ++ values2) word = Ok (count1 + count2))
  /\ (forall values values',
      values ≡ₚ values' ->
      transform_count_word values word = transform_count_word values' word).
Proof.
  destruct word as [|c word]; [split; [discriminate | reflexivity]|].
  split.
  - intros values1 values2 count1 count2.
    rewrite !transform_count_word_eq by discriminate.
    intros [= <-] [= <-]. rewrite map_app, foldr_add_app. reflexivity.
  - intros values values' Hperm.
    rewrite !transform_count_word_eq by discriminate. f_equal.
    apply foldr_add_perm, Permutation_map, Hperm.
Qed.

(** *** The report and the pipeline *)

Lemma load_count_report_run (count : Z) (out_path : Path)
    (word column_letter : string) (w : world) :
  exists w',
    load_count_report count out_path word column_letter w = (Ok tt, w')
    /\ written w out_path (count_report word column_letter count) w'.
Proof.
  unfold load_count_report.
  open_file H. write_line H. write_line H. write_line H.
  match goal with |- context [write _ ?text ?w0] =>
    destruct (write_end w out_path _ text w0 H) as (w' & Hrun & H')
  end.
  exists w'. split; [exact Hrun|].
  unfold count_report. rewrite !append_assoc in H'. exact H'.
Qed.

Section xlsx_pipeline.

Variable openpyxl_load_workbook : string -> result workbook.

Lemma extract_xlsx_store (p : Path) (column_letter : string) (w : world) :
  same_store w
    (snd (extract_xlsx_column_strings openpyxl_load_workbook p
            column_letter w)).
Proof.
  destruct (files w !! p) as [text|] eqn:Hfile.
  - destruct (extract_xlsx_file openpyxl_load_workbook p column_letter text w
                Hfile) as (w' & -> & Hw').
    exact Hw'.
  - unfold extract_xlsx_column_strings.
    edestruct (read_no_file (A := list string) p) as (w' & Hrun & Hw');
      [exact Hfile|].
    rewrite Hrun. exact Hw'.
Qed.

Lemma run_xlsx_cases (raw_dir processed_dir : Path) (w : world) :
  let input_file := path_div raw_dir "Feedback.xlsx" in
  let output_file := path_div processed_dir "xlsx_feedback_github_count.txt" in
  match fst (extract_xlsx_column_strings openpyxl_load_workbook input_file
               "A" w) with
  | Ok values =>
      exists count w',
        transform_count_word values "GitHub" = Ok count
        /\ run_xlsx_pipeline openpyxl_load_workbook raw_dir processed_dir w
           = (Ok tt, w')
        /\ written w output_file (count_report "GitHub" "A" count) w'
  | Raise e =>
      exists w',
        run_xlsx_pipeline openpyxl_load_workbook raw_dir processed_dir w
        = (Raise e, w')
        /\ same_store w w'
  end.
Proof.
  intros input_file output_file.
  pose proof (extract_xlsx_store input_file "A" w) as Hstore.
  unfold run_xlsx_pipeline. fold input_file output_file.
  destruct (extract_xlsx_column_strings openpyxl_load_workbook input_file
              "A" w) as [[values|e] w1] eqn:Hextract; cbn [fst snd] in *.
  - rewrite (io_bind_ok _ _ w w1 _ Hextract).
    rewrite transform_count_word_eq by discriminate.
    set (count := foldr Z.add 0 _).
    assert (Hcount : 0 <= count).
    { apply (count_word_room (lower "GitHub") values). discriminate. }
    rewrite io_bind_lift_ok. unfold verify_count.
    destruct (Z.ltb_spec count 0); [lia|]. rewrite io_bind_lift_ok.
    destruct (load_count_report_run count output_file "GitHub" "A" w1)
      as (w' & Hload & Hw').
    exists count, w'. split; [reflexivity|]. split; [exact Hload|].
    eapply written_from; eassumption.
  - unfold io_bind at 1. rewrite Hextract. eauto.
Qed.

(** X10: the XLSX pipeline returns exactly when its extractor does, as the
    transformer and the verifier cannot fail on the word [GitHub]: the
    output file then holds the report with the word, the column [A] and
    the count of the word in the strings extracted, every other file is
    as before.  When the extractor raises, the pipeline raises the same
    error and has changed no file or directory. *)
Theorem run_xlsx_pipeline_effect (raw_dir processed_dir : Path) (w : world) :
  let input_file := path_div raw_dir "Feedback.xlsx" in
  let output_file := path_div processed_dir "xlsx_feedback_github_count.txt" in
  let extracted :=
    fst (extract_xlsx_column_strings openpyxl_load_workbook input_file "A" w)
  in
  writable w output_file ->
  (forall values,
     extracted = Ok values ->
     exists count w',
       transform_count_word values "GitHub" = Ok count
       /\ run_xlsx_pipeline openpyxl_load_workbook raw_dir processed_dir w
          = (Ok tt, w')
       /\ written w output_file (count_report "GitHub" "A" count) w')
  /\ (forall e,
      extracted = Raise e ->
      exists w',
        run_xlsx_pipeline openpyxl_load_workbook raw_dir processed_dir w
        = (Raise e, w')
        /\ same_store w w').
Proof.
  intros input_file output_file extracted _.
  pose proof (run_xlsx_cases raw_dir processed_dir w) as H.
  cbv zeta in H. fold input_file output_file in H. fold extracted in H.
  split.
  - intros values E. rewrite E in H. exact H.
  - intros e E. rewrite E in H. exact H.
Qed.

End xlsx_pipeline.

(** ** The JSON pipeline *)

(** *** The dictionaries of the list *)

Lemma keep_dicts_loop (value : list json)
    (people_list : list (gmap string json)) :
  fold_left
    (fun people_list item =>
       match item with
       | JDict person => (people_list ++ [person])%list
       | _ => people_list
       end)
    value people_list
  = (people_list ++ omap json_dict value)%list.
Proof.
  revert people_list. induction value as [|item value IH]; intros people_list.
  - simpl. rewrite app_nil_r. reflexivity.
  - cbn [fold_left]. rewrite IH.
    destruct item; try reflexivity.
    cbn [omap list_omap json_dict]. rewrite <- app_assoc. reflexivity.
Qed.

Section json_extractor.

Variable json_load : string -> result json.

Lemma extract_people_file (p : Path) (list_key text : string) (w : world) :
  files w !! p = Some text ->
  exists w',
    extract_people_list json_load p list_key w
    = (data <- json_load text;;
       match data with
       | JDict d =>
           match default (JList []) (d !! list_key) with
           | JList value => Ok (omap json_dict value)
           | _ => Raise TypeError
           end
       | _ => Raise TypeError
       end, w')
    /\ same_store w w'.
Proof.
  intros H. unfold extract_people_list.
  rewrite (read_file p text _ w H).
  unfold io_bind at 1, parse.
  destruct (json_load text) as [data|e];
    [|eexists; split; [reflexivity | split; reflexivity]].
  rewrite io_bind_lift_ok. cbn [bind].
  destruct data as [| | | | | |d];
    try (eexists; split; [reflexivity | split; reflexivity]).
  destruct (default (JList []) (d !! list_key)) as [| | | | |value|];
    try (eexists; split; [reflexivity | split; reflexivity]).
  unfold io_ret. rewrite keep_dicts_loop.
  eexists. split; [reflexivity | split; reflexivity].
Qed.

Lemma extract_people_store (p : Path) (list_key : string) (w : world) :
  same_store w (snd (extract_people_list json_load p list_key w)).
Proof.
  destruct (files w !! p) as [text|] eqn:Hfile.
  - destruct (extract_people_file p list_key text w Hfile) as (w' & -> & Hw').
    exact Hw'.
  - unfold extract_people_list.
    edestruct (read_no_file (A := list (gmap string json)) p)
      as (w' & Hrun & Hw'); [exact Hfile|].
    rewrite Hrun. exact Hw'.
Qed.

(** X11: on a regular file [extract_people_list] returns the items of the
    list under [list_key] that are dictionaries, in their order; the other
    items are skipped, and a missing key gives the empty list.  A
    top-level value that is not a dictionary, or a value under [list_key]
    that is not a list, is a [TypeError]; an error of [json.load] is
    passed on.  The extractor changes no file. *)
Theorem extract_people_list_items (p : Path) (list_key text : string)
    (w : world) :
  files w !! p = Some text ->
  exists w',
    extract_people_list json_load p list_key w
    = (data <- json_load text;;
       match data with
       | JDict d =>
           match d !! list_key with
           | None => Ok []
           | Some (JList value) => Ok (omap json_dict value)
           | Some _ => Raise TypeError
           end
       | _ => Raise TypeError
       end, w')
    /\ same_store w w'.
Proof.
  intros H. destruct (extract_people_file p list_key text w H)
    as (w' & Hrun & Hw').
  exists w'. split; [|exact Hw']. rewrite Hrun. f_equal.
  destruct (json_load text) as [data|e]; [|reflexivity]. cbn [bind].
  destruct data as [| | | | | |d]; try reflexivity.
  destruct (d !! list_key) as [[]|]; reflexivity.
Qed.

End json_extractor.

(** *** The groups *)

Lemma count_if_app {A} (f : A -> bool) (l1 l2 : list A) :
  count_if f (l1 ++ l2) = (count_if f l1 + count_if f l2)%nat.
Proof. unfold count_if. rewrite List.filter_app, length_app. reflexivity. Qed.

Lemma count_if_perm {A} (f : A -> bool) (l1 l2 : list A) :
  l1 ≡ₚ l2 -> count_if f l1 = count_if f l2.
Proof.
  induction 1 as [|x l1 l2 _ IH|x y l|l1 l2 l3 _ IH1 _ IH2].
  - reflexivity.
  - rewrite !count_if_cons, IH. reflexivity.
  - rewrite !count_if_cons. lia.
  - congruence.
Qed.

Lemma count_if_pos {A} (f : A -> bool) (l : list A) :
  (0 < count_if f l)%nat <-> exists x, In x l /\ f x = true.
Proof.
  induction l as [|x l IH]; rewrite ?count_if_cons.
  - unfold count_if. simpl. split; [lia | intros (? & [] & _)].
  - destruct (f x) eqn:E.
    + split; [intros _; exists x; split; [left; reflexivity | exact E] | lia].
    + simpl. rewrite IH. split.
      * intros (y & Hy & Hf). exists y. split; [right; exact Hy | exact Hf].
      * intros (y & [-> | Hy] & Hf); [congruence | eauto].
Qed.

(** X12: the grouped counts do not depend on the order of the records, the
    counts of two lists put together are the sums of their counts, and
    the groups of the result are exactly the groups of the records. *)
Theorem transform_count_by_craft_groups (craft_key : string) :
  (forall people people',
     people ≡ₚ people' ->
     transform_count_by_craft people craft_key
     = transform_count_by_craft people' craft_key)
  /\ (forall people1 people2 g,
      default 0 (transform_count_by_craft (people1 ++ people2) craft_key !! g)
      = default 0 (transform_count_by_craft people1 craft_key !! g)
        + default 0 (transform_count_by_craft people2 craft_key !! g))
  /\ (forall people g,
      g ∈ dom (transform_count_by_craft people craft_key)
      <-> exists person, person ∈ people /\ craft_of craft_key person = g).
Proof.
  split; [|split].
  - intros people people' Hperm. apply map_eq. intros g.
    rewrite !transform_lookup. unfold group_size.
    rewrite (count_if_perm _ people people' Hperm). reflexivity.
  - intros people1 people2 g. rewrite !default_transform_lookup.
    unfold group_size. rewrite count_if_app. lia.
  - intros people g. rewrite elem_of_dom, transform_lookup.
    pose proof (count_if_pos
                  (fun p => String.eqb (craft_of craft_key p) g) people) as H.
    fold (group_size craft_key g people) in H.
    destruct (group_size craft_key g people) as [|n].
    + split; [intros [? ?]; discriminate|].
      intros (person & Hin & Hg). exfalso.
      assert (0 < 0)%nat; [|lia]. apply H. exists person.
      split; [apply list_elem_of_In, Hin | apply String.eqb_eq, Hg].
    + split; [|eauto]. intros _.
      destruct (proj1 H) as (person & Hin & Hg); [lia|].
      exists person. split; [apply list_elem_of_In, Hin | apply String.eqb_eq, Hg].
Qed.

(** *** The verifier *)

Lemma verify_counts_item_ok (craft : string) (count : Z) :
  verify_counts_item (craft, count) = Ok tt
  <-> blank craft = false /\ 0 <= count.
Proof.
  unfold verify_counts_item. rewrite str_truthy_strip, Bool.negb_involutive.
  destruct (blank craft); cbn [negb].
  - split; [discriminate | intros [[=] _]].
  - destruct (Z.ltb_spec count 0).
    + split; [discriminate | intros [_ ?]; lia].
    + split; [intros _; split; [reflexivity | lia] | reflexivity].
Qed.

Lemma verify_counts_raised (l : list (string * Z)) (e : exn) :
  fold_left (fun acc item => _ <- acc;; verify_counts_item item) l (Raise e)
  = Raise e.
Proof. induction l as [|item l IH]; [reflexivity | exact IH]. Qed.

Lemma verify_counts_loop (l : list (string * Z)) :
  fold_left (fun acc item => _ <- acc;; verify_counts_item item) l (Ok tt)
  = Ok tt
  <-> Forall (fun item => verify_counts_item item = Ok tt) l.
Proof.
  induction l as [|item l IH]; [split; [constructor | reflexivity]|].
  cbn [fold_left bind]. rewrite Forall_cons.
  destruct (verify_counts_item item) as [[]|e].
  - rewrite IH. tauto.
  - rewrite verify_counts_raised. split; [discriminate | intros [[=] _]].
Qed.

(** X13: [verify_counts] accepts exactly the mappings in which no group is
    blank and no count is negative (a count of 0 passes); on every other
    mapping it raises [ValueError]. *)
Theorem verify_counts_accepts_iff (counts : gmap string Z) :
  (verify_counts counts = Ok tt <->
   forall g n, counts !! g = Some n -> blank g = false /\ 0 <= n)
  /\ (verify_counts counts = Ok tt \/ verify_counts counts = Raise ValueError).
Proof.
  split; [|apply verify_counts_errors].
  unfold verify_counts. rewrite verify_counts_loop, Forall_forall. split.
  - intros H g n Hg. apply verify_counts_item_ok, H.
    apply elem_of_map_to_list, Hg.
  - intros H [g n] Hin. apply verify_counts_item_ok, H.
    apply elem_of_map_to_list, Hin.
Qed.

Lemma transform_counts_accepted (people : list (gmap string json))
    (craft_key : string) :
  verify_counts (transform_count_by_craft people craft_key) = Ok tt.
Proof.
  unfold verify_counts. apply verify_counts_loop, Forall_forall.
  intros [g n] Hin. apply elem_of_map_to_list in Hin.
  apply verify_counts_item_ok. rewrite transform_lookup in Hin.
  pose proof (count_if_pos
                (fun p => String.eqb (craft_of craft_key p) g) people) as H.
  fold (group_size craft_key g people) in H.
  destruct (group_size craft_key g people) as [|k]; [discriminate|].
  injection Hin as <-. split; [|lia].
  destruct (proj1 H) as (person & _ & Hg); [lia|].
  apply String.eqb_eq in Hg. subst g. apply craft_of_not_blank.
Qed.

(** *** The report and the pipeline *)

(** No group has more members than there are records: the counts of
    fewer than [10^4300] records can be converted to text. *)
Lemma transform_counts_printable (people : list (gmap string json))
    (craft_key : string) :
  printable (Z.of_nat (length people)) ->
  map_Forall (fun _ n => printable n)
    (transform_count_by_craft people craft_key).
Proof.
  unfold printable. generalize (10 ^ max_str_digits). intros limit Hlen g n Hg.
  rewrite transform_lookup in Hg.
  pose proof (count_if_le (fun p => String.eqb (craft_of craft_key p) g)
                people) as Hle.
  fold (group_size craft_key g people) in Hle.
  destruct (group_size craft_key g people) as [|k]; [discriminate|].
  injection Hg as <-. lia.
Qed.

Section json_pipeline.

Variable json_load : string -> result json.

Lemma run_json_cases (raw_dir processed_dir : Path) (w : world) :
  let input_file := path_div raw_dir "astros.json" in
  let output_file := path_div processed_dir "json_astronauts_by_craft.txt" in
  match fst (extract_people_list json_load input_file "people" w) with
  | Ok people =>
      printable (Z.of_nat (length people)) ->
      exists w',
        run_json_pipeline json_load raw_dir processed_dir w = (Ok tt, w')
        /\ written w output_file
             (counts_report (transform_count_by_craft people "craft")) w'
  | Raise e =>
      exists w',
        run_json_pipeline json_load raw_dir processed_dir w = (Raise e, w')
        /\ same_store w w'
  end.
Proof.
  intros input_file output_file.
  pose proof (extract_people_store json_load input_file "people" w) as Hstore.
  unfold run_json_pipeline. fold input_file output_file.
  destruct (extract_people_list json_load input_file "people" w)
    as [[people|e] w1] eqn:Hextract; cbn [fst snd] in *.
  - intros Hlen. rewrite (io_bind_ok _ _ w w1 _ Hextract).
    rewrite transform_counts_accepted, io_bind_lift_ok.
    destruct (load_counts_report_run
                (transform_count_by_craft people "craft") output_file w1
                (transform_counts_printable people "craft" Hlen))
      as (w' & Hload & Hw').
    exists w'. split; [exact Hload|]. eapply written_from; eassumption.
  - unfold io_bind at 1. rewrite Hextract. eauto.
Qed.

(** X14: the JSON pipeline on a path that can be written.  When the
    extractor returns records, fewer than [10^4300] of them so that every
    count can be converted to text, the pipeline returns, as the verifier
    accepts every mapping of the transformer: the output file then holds
    the title and the line of every group in ascending order, the counts
    add up to the number of the records extracted, and every other file
    is as before.  When the extractor raises, the pipeline raises the same
    error and has changed no file or directory.  The strings of the
    document are Latin-1 text, which the file can always hold. *)
Theorem run_json_pipeline_effect (raw_dir processed_dir : Path) (w : world) :
  let input_file := path_div raw_dir "astros.json" in
  let output_file := path_div processed_dir "json_astronauts_by_craft.txt" in
  let extracted := fst (extract_people_list json_load input_file "people" w) in
  writable w output_file ->
  (forall people,
     extracted = Ok people ->
     printable (Z.of_nat (length people)) ->
     let counts := transform_count_by_craft people "craft" in
     dict_sum counts = Z.of_nat (length people)
     /\ exists w',
          run_json_pipeline json_load raw_dir processed_dir w = (Ok tt, w')
          /\ written w output_file (counts_report counts) w')
  /\ (forall e,
      extracted = Raise e ->
      exists w',
        run_json_pipeline json_load raw_dir processed_dir w = (Raise e, w')
        /\ same_store w w').
Proof.
  intros input_file output_file extracted _.
  pose proof (run_json_cases raw_dir processed_dir w) as H.
  cbv zeta in H. fold input_file output_file in H. fold extracted in H.
  split.
  - intros people E Hlen counts. rewrite E in H. split; [|exact (H Hlen)].
    unfold counts, transform_count_by_craft. rewrite tally_sum. reflexivity.
  - intros e E. rewrite E in H. exact H.
Qed.

End json_pipeline.

(** ** The floats that rounding gives *)

Lemma Qpow2_nonzero (e : Z) : ~ (2 ^ e == 0)%Q.
Proof. pose proof (Qpow2_pos e). lra. Qed.

Lemma grid_round_exact (e m : Z) (x : Q) :
  (x == inject_Z m * 2 ^ e)%Q -> (grid_round e x == x)%Q.
Proof.
  intros H. unfold grid_round.
  assert (Hdiv : (x / 2 ^ e == inject_Z m)%Q).
  { rewrite H. field. apply Qpow2_nonzero. }
  rewrite (Qround_half_even_proper _ _ Hdiv), Qround_half_even_Z.
  rewrite H. reflexivity.
Qed.

Lemma grid_finer (e e' k : Z) :
  e' <= e ->
  (inject_Z k * 2 ^ e == inject_Z (k * 2 ^ (e - e')) * 2 ^ e')%Q.
Proof.
  intros H. rewrite inject_Z_mult, Qpow2_inject by lia.
  rewrite <- Qmult_assoc, Qpow2_sub. reflexivity.
Qed.

Lemma Qilog2_grid (k e : Z) :
  0 < k -> Qilog2 (inject_Z k * 2 ^ e) = Z.log2 k + e.
Proof.
  intros Hk. apply Qilog2_unique.
  destruct (Zlog2_bounds k Hk) as [Hlo Hhi].
  pose proof (Qpow2_pos e) as He.
  replace (Z.log2 k + e + 1) with (Z.log2 k + 1 + e) by lia.
  rewrite (Qpow2_add (Z.log2 k) e), (Qpow2_add (Z.log2 k + 1) e).
  generalize dependent (2 ^ Z.log2 k)%Q.
  generalize dependent (2 ^ (Z.log2 k + 1))%Q.
  generalize dependent (2 ^ e)%Q. generalize (inject_Z k).
  intros x c Hc b Hb a Ha. split; nra.
Qed.

(** A multiple [k * 2^e] with at most 53 bits and an exponent in the
    range is a binary64 number: rounding leaves it as it is. *)
Lemma round_pos_fixed (k e : Z) :
  0 < k <= 2 ^ 53 -> -1074 <= e ->
  (round_pos (inject_Z k * 2 ^ e) == inject_Z k * 2 ^ e)%Q.
Proof.
  intros [Hk0 Hk] He. rewrite round_pos_grid. unfold ulp_exponent.
  rewrite Qilog2_grid by exact Hk0.
  destruct (Z.eq_dec k (2 ^ 53)) as [->|Hne].
  - replace (Z.log2 (2 ^ 53)) with 53 by reflexivity.
    replace (Z.max (53 + e - 52) (-1074)) with (e + 1) by lia.
    apply (grid_round_exact (e + 1) (2 ^ 52)).
    rewrite !Qpow2_inject by lia. rewrite <- !Qpow2_add. f_equiv. lia.
  - assert (Hlog : Z.log2 k < 53) by (apply Z.log2_lt_pow2; lia).
    set (e' := Z.max (Z.log2 k + e - 52) (-1074)).
    apply (grid_round_exact e' (k * 2 ^ (e - e'))).
    apply grid_finer. unfold e'. lia.
Qed.

(** What [round_pos] gives: at most 53 bits on its grid. *)
Lemma round_pos_result (q : Q) :
  (0 < q)%Q ->
  exists k,
    0 <= k <= 2 ^ 53
    /\ round_pos q = (inject_Z k * 2 ^ ulp_exponent q)%Q
    /\ -1074 <= ulp_exponent q.
Proof.
  intros Hq. exists (Qround_half_even (q / 2 ^ ulp_exponent q)).
  pose proof (Qpow2_pos (ulp_exponent q)) as He.
  split; [|split; [reflexivity | unfold ulp_exponent; lia]].
  destruct (Qilog2_spec q Hq) as [_ Hhi]. split.
  - apply Qround_half_even_ge. change (inject_Z 0) with 0%Q.
    apply Qle_shift_div_l; [exact He | lra].
  - apply Qround_half_even_le. apply Qle_shift_div_r; [exact He|].
    rewrite Qpow2_inject by lia. rewrite <- Qpow2_add.
    apply Qle_trans with (2 ^ (Qilog2 q + 1))%Q; [lra|].
    apply Qpow2_le. unfold ulp_exponent. lia.
Qed.

Lemma round_pos_idem (q : Q) :
  (0 < q)%Q ->
  (round_pos q == 0)%Q
  \/ ((0 < round_pos q)%Q /\ (round_pos (round_pos q) == round_pos q)%Q).
Proof.
  intros Hq. destruct (round_pos_result q Hq) as (k & [Hk0 Hk] & -> & He).
  destruct (Z.eq_dec k 0) as [->|Hne].
  - left. change (inject_Z 0) with 0%Q. lra.
  - right. split.
    + pose proof (Qpow2_pos (ulp_exponent q)).
      assert (1 <= inject_Z k)%Q
        by (change 1%Q with (inject_Z 1); rewrite <- Zle_Qle; lia).
      nra.
    + apply round_pos_fixed; [lia | exact He].
Qed.

Lemma round_b64_zero (q : Q) : (q == 0)%Q -> round_b64 q = 0%Q.
Proof. intros H. rewrite (round_b64_proper q 0 H). reflexivity. Qed.

(** Rounding a second time changes nothing. *)
Lemma round_b64_idem (q : Q) : (round_b64 (round_b64 q) == round_b64 q)%Q.
Proof.
  destruct (round_b64_cases q) as [[_ ->] | [[Hq ->] | [Hq ->]]].
  - reflexivity.
  - destruct (round_pos_idem q Hq) as [H0 | [Hpos Hidem]].
    + rewrite (round_b64_zero (Qred (round_pos q)))
        by (rewrite Qred_correct; exact H0).
      rewrite Qred_correct, H0. reflexivity.
    + rewrite (round_b64_proper (Qred (round_pos q)) (round_pos q))
        by apply Qred_correct.
      destruct (round_b64_cases (round_pos q)) as [[H _] | [[_ ->] | [H _]]];
        [lra | | lra].
      rewrite !Qred_correct. exact Hidem.
  - assert (Hq' : (0 < - q)%Q) by lra.
    destruct (round_pos_idem (- q) Hq') as [H0 | [Hpos Hidem]].
    + rewrite (round_b64_zero (Qred (- round_pos (- q))))
        by (rewrite Qred_correct; lra).
      rewrite Qred_correct. lra.
    + rewrite (round_b64_proper (Qred (- round_pos (- q)))
                 (- round_pos (- q))) by apply Qred_correct.
      destruct (round_b64_cases (- round_pos (- q)))
        as [[H _] | [[H _] | [_ ->]]]; [lra | lra |].
      rewrite !Qred_correct.
      rewrite (round_pos_proper (- - round_pos (- q)) (round_pos (- q)))
        by (lra || ring).
      rewrite Hidem. reflexivity.
Qed.

Lemma round_b64_binary64 (q : Q) :
  float_overflow (round_b64 q) = false -> is_binary64 (round_b64 q) = true.
Proof.
  intros H. unfold is_binary64. rewrite H.
  rewrite (proj2 (Qeq_bool_iff _ _) (round_b64_idem q)). reflexivity.
Qed.

Lemma float_of_Q_inf_ok (q : Q) : float_ok (float_of_Q_inf q) = true.
Proof.
  unfold float_of_Q_inf.
  destruct (float_overflow (round_b64 q)) eqn:E; [reflexivity|].
  apply round_b64_binary64, E.
Qed.

(** Every value of [float(s)] is a float. *)
Lemma float_of_str_ok (s : string) (x : float) :
  float_of_str s = Ok x -> float_ok x = true.
Proof.
  unfold float_of_str. destruct (sign_prefix (strip s)) as [neg body].
  destruct (_ || _); [intros [= <-]; reflexivity|].
  destruct (String.eqb _ _); [intros [= <-]; reflexivity|].
  destruct (decimal_literal body); [|discriminate].
  intros [= <-]. apply float_of_Q_inf_ok.
Qed.

(** An int of at most 53 bits is a float, and [int] gives it back. *)
Lemma float_of_int_exact (n : Z) :
  0 <= n <= 2 ^ 53 ->
  exists r,
    float_of_int n = Ok (Ffin r) /\ (r == inject_Z n)%Q
    /\ int_of_float (Ffin r) = Ok n.
Proof.
  intros [Hn0 Hn].
  assert (Hround : (round_b64 (inject_Z n) == inject_Z n)%Q).
  { destruct (Z.eq_dec n 0) as [->|Hne]; [reflexivity|].
    assert (Hpos : (0 < inject_Z n)%Q)
      by (change 0%Q with (inject_Z 0); rewrite <- Zlt_Qlt; lia).
    destruct (round_b64_cases (inject_Z n)) as [[H _] | [[_ ->] | [H _]]];
      [lra | | lra].
    rewrite Qred_correct.
    rewrite (round_pos_proper (inject_Z n) (inject_Z n * 2 ^ 0)).
    - rewrite round_pos_fixed by lia. change (2 ^ 0)%Q with 1%Q. ring.
    - exact Hpos.
    - change (2 ^ 0)%Q with 1%Q. ring. }
  exists (round_b64 (inject_Z n)). unfold float_of_int, float_of_Q_exn.
  rewrite float_overflow_false.
  - split; [reflexivity|]. split; [exact Hround|]. unfold int_of_float.
    assert (Hle : Qle_bool 0 (round_b64 (inject_Z n)) = true).
    { apply Qle_bool_iff. rewrite Hround. change 0%Q with (inject_Z 0).
      rewrite <- Zle_Qle. exact Hn0. }
    rewrite Hle. f_equal. rewrite Hround. apply Qfloor_Z.
  - rewrite Hround.
    assert (inject_Z n <= inject_Z (2 ^ 53))%Q by (rewrite <- Zle_Qle; lia).
    assert (0 <= inject_Z n)%Q
      by (change 0%Q with (inject_Z 0); rewrite <- Zle_Qle; lia).
    assert (inject_Z (2 ^ 53) < 2 ^ 1024)%Q
      by (rewrite Qpow2_inject by lia; apply Qpow2_lt; lia).
    pose proof (Qpow2_pos 1024). split; lra.
Qed.

(** ** The CSV pipeline *)

(** *** The scores of the rows *)

Lemma float_of_str_error (s : string) (e : exn) :
  float_of_str s = Raise e -> e = ValueError.
Proof.
  unfold float_of_str. destruct (sign_prefix (strip s)) as [neg body].
  destruct (_ || _); [discriminate|].
  destruct (String.eqb _ _); [discriminate|].
  destruct (decimal_literal body); [discriminate|]. congruence.
Qed.

Lemma scores_step_score (column_name : string) (scores : list float)
    (row : csv_row) :
  scores_step column_name (Ok scores) row
  = Ok (scores ++ option_list (cell_score column_name row))%list.
Proof.
  unfold scores_step, cell_score. cbn [bind].
  destruct (str_truthy (raw_value_of row column_name)); cbn [negb];
    [|rewrite app_nil_r; reflexivity].
  destruct (float_of_str (raw_value_of row column_name)) as [x|e] eqn:E;
    [reflexivity|].
  apply float_of_str_error in E. subst e. rewrite app_nil_r. reflexivity.
Qed.

Lemma scores_loop (column_name : string) (rs : list csv_row)
    (scores : list float) :
  fold_left (scores_step column_name) rs (Ok scores)
  = Ok (scores ++ omap (cell_score column_name) rs)%list.
Proof.
  revert scores. induction rs as [|row rs IH]; intros scores.
  - simpl. rewrite app_nil_r. reflexivity.
  - cbn [fold_left]. rewrite scores_step_score, IH.
    cbn [omap list_omap]. rewrite <- app_assoc.
    destruct (cell_score column_name row); reflexivity.
Qed.

Lemma scores_of_rows_scores (column_name : string) (rs : list csv_row) :
  scores_of_rows column_name rs = Ok (omap (cell_score column_name) rs).
Proof. apply scores_loop. Qed.

Section csv_extractor.

Variable csv_DictReader : string -> csv_table.

Lemma extract_csv_file (p : Path) (column_name text : string) (w : world) :
  files w !! p = Some text ->
  exists w',
    extract_csv_scores csv_DictReader p column_name w
    = (reading_scores column_name (csv_DictReader text), w')
    /\ same_store w w'.
Proof.
  intros H. unfold extract_csv_scores, reading_scores.
  rewrite (read_file p text _ w H).
  unfold io_bind at 1, parse.
  destruct (fieldnames (csv_DictReader text)) as [[names|]|e]; cbn [bind];
    try (eexists; split; [reflexivity | split; reflexivity]).
  rewrite io_bind_lift_ok.
  destruct (bool_decide (column_name ∈ names)); cbn [negb];
    [|eexists; split; [reflexivity | split; reflexivity]].
  destruct (rows (csv_DictReader text)) as [rs|e];
    [|eexists; split; [reflexivity | split; reflexivity]].
  rewrite io_bind_lift_ok. unfold io_lift. cbn [bind].
  rewrite scores_of_rows_scores.
  eexists. split; [reflexivity | split; reflexivity].
Qed.

Lemma extract_csv_store (p : Path) (column_name : string) (w : world) :
  same_store w (snd (extract_csv_scores csv_DictReader p column_name w)).
Proof.
  destruct (files w !! p) as [text|] eqn:Hfile.
  - destruct (extract_csv_file p column_name text w Hfile) as (w' & -> & Hw').
    exact Hw'.
  - unfold extract_csv_scores.
    edestruct (read_no_file (A := list float) p) as (w' & Hrun & Hw');
      [exact Hfile|].
    rewrite Hrun. exact Hw'.
Qed.

Lemma reading_scores_table (column_name : string) (names : list string)
    (rs : list csv_row) :
  column_name ∈ names ->
  reading_scores column_name (CsvTable (Some names) rs)
  = Ok (omap (cell_score column_name) rs).
Proof.
  intros Hcol. unfold reading_scores, CsvTable. cbn [fieldnames rows bind].
  rewrite bool_decide_eq_true_2 by exact Hcol. reflexivity.
Qed.

(** X15: the extractor on a regular file.  When the reader reads the file
    without error and the header has the column, [extract_csv_scores]
    returns the floats of the cells of the column that are not blank and
    that [float] reads, in the order of the rows: no cell makes it fail,
    so there are at most as many scores as rows.  An error of the reader
    is passed on: one at the header line before the column is looked for,
    one at a later line after.  A file without a header, or a header
    without the column, is a [KeyError], whatever the rows hold and even
    when the reader refuses them.  The extractor changes no file. *)
Theorem extract_csv_scores_rows (p : Path) (column_name text : string)
    (w : world) :
  files w !! p = Some text ->
  let reader := csv_DictReader text in
  let run := extract_csv_scores csv_DictReader p column_name w in
  same_store w (snd run)
  /\ (forall names rs,
      reader = CsvTable (Some names) rs -> column_name ∈ names ->
      let scores := omap (cell_score column_name) rs in
      fst run = Ok scores /\ (length scores <= length rs)%nat)
  /\ (forall e, fieldnames reader = Raise e -> fst run = Raise e)
  /\ (fieldnames reader = Ok None -> fst run = Raise KeyError)
  /\ (forall names,
      fieldnames reader = Ok (Some names) -> column_name ∉ names ->
      fst run = Raise KeyError)
  /\ (forall names e,
      fieldnames reader = Ok (Some names) -> column_name ∈ names ->
      rows reader = Raise e ->
      fst run = Raise e).
Proof.
  intros H reader run.
  destruct (extract_csv_file p column_name text w H) as (w' & Hrun & Hw').
  unfold run. rewrite Hrun. fold reader. cbn [fst snd].
  split; [exact Hw'|]. split; [|split; [|split; [|split]]].
  - intros names rs E Hcol. cbv zeta. rewrite E.
    split; [apply reading_scores_table, Hcol|].
    clear. induction rs as [|row rs IH]; [reflexivity|].
    cbn [omap list_omap]. destruct (cell_score column_name row); simpl; lia.
  - intros e E. unfold reading_scores. rewrite E. reflexivity.
  - intros E. unfold reading_scores. rewrite E. reflexivity.
  - intros names E Hcol. unfold reading_scores. rewrite E. cbn [bind].
    rewrite bool_decide_eq_false_2 by exact Hcol. reflexivity.
  - intros names e E Hcol Erows. unfold reading_scores. rewrite E. cbn [bind].
    rewrite bool_decide_eq_true_2 by exact Hcol. rewrite Erows. reflexivity.
Qed.

End csv_extractor.

(** *** The verifier *)

Lemma stats_required_elem (k : string) :
  k ∈ stats_required
  <-> k = "count" \/ k = "min" \/ k = "max" \/ k = "mean" \/ k = "stdev".
Proof.
  unfold stats_required. rewrite elem_of_list_to_set.
  rewrite !elem_of_cons, elem_of_nil. tauto.
Qed.

Lemma stats_complete (stats : gmap string float) :
  stats_required ∖ dom stats = ∅
  <-> exists count lo hi avg sd,
        stats !! "count" = Some count /\ stats !! "min" = Some lo
        /\ stats !! "max" = Some hi /\ stats !! "mean" = Some avg
        /\ stats !! "stdev" = Some sd.
Proof.
  split.
  - intros H.
    assert (Hin : forall k, k ∈ stats_required -> is_Some (stats !! k)).
    { intros k Hk. apply elem_of_dom.
      destruct (decide (k ∈ dom stats)) as [Hd|Hd]; [exact Hd|].
      exfalso. apply (not_elem_of_empty (C := gset string) k).
      rewrite <- H. apply elem_of_difference. auto. }
    destruct (Hin "count") as [count Hcount];
      [apply stats_required_elem; tauto|].
    destruct (Hin "min") as [lo Hlo]; [apply stats_required_elem; tauto|].
    destruct (Hin "max") as [hi Hhi]; [apply stats_required_elem; tauto|].
    destruct (Hin "mean") as [avg Havg]; [apply stats_required_elem; tauto|].
    destruct (Hin "stdev") as [sd Hsd]; [apply stats_required_elem; tauto|].
    eauto 10.
  - intros (count & lo & hi & avg & sd & Hcount & Hlo & Hhi & Havg & Hsd).
    apply set_eq. intros k. rewrite elem_of_difference, elem_of_dom.
    split; [|intros Hk; apply elem_of_empty in Hk; destruct Hk].
    intros [Hk Hno]. exfalso. apply Hno.
    apply stats_required_elem in Hk as [-> | [-> | [-> | [-> | ->]]]]; eauto.
Qed.

(** X16: [verify_stats] accepts exactly the summaries that have the five
    keys, a count that is not [<= 0] and a minimum that is not [>] the
    maximum; the values of the mean and of the standard deviation are not
    looked at.  It raises [KeyError] exactly when a key is missing, and
    [ValueError] in the remaining cases. *)
Theorem verify_stats_accepts_iff (stats : gmap string float) :
  (verify_stats stats = Ok tt <->
   exists count lo hi avg sd,
     stats !! "count" = Some count /\ stats !! "min" = Some lo
     /\ stats !! "max" = Some hi /\ stats !! "mean" = Some avg
     /\ stats !! "stdev" = Some sd
     /\ float_le count (Ffin 0) = false /\ float_gt lo hi = false)
  /\ (verify_stats stats = Raise KeyError <->
      exists k, k ∈ stats_required /\ stats !! k = None)
  /\ (verify_stats stats = Ok tt \/ verify_stats stats = Raise KeyError
      \/ verify_stats stats = Raise ValueError).
Proof.
  unfold verify_stats. cbv zeta.
  destruct (decide (stats_required ∖ dom stats = ∅)) as [Hall|Hmiss].
  - rewrite bool_decide_eq_false_2 by (intros H; apply H, Hall).
    pose proof (proj1 (stats_complete stats) Hall)
      as (count & lo & hi & avg & sd & Hcount & Hlo & Hhi & Havg & Hsd).
    unfold getitem. rewrite Hcount, Hlo, Hhi. cbn [bind].
    assert (Hno : ~ exists k, k ∈ stats_required /\ stats !! k = None).
    { intros (k & Hk & Hnone).
      apply stats_required_elem in Hk as [-> | [-> | [-> | [-> | ->]]]];
        congruence. }
    destruct (float_le count (Ffin 0)) eqn:Ecount.
    + split; [|split; [|auto]].
      * split; [discriminate|].
        intros (? & ? & ? & ? & ? & ? & _ & _ & _ & _ & ? & _). congruence.
      * split; [discriminate | intros H; destruct (Hno H)].
    + cbn [bind]. destruct (float_gt lo hi) eqn:Eord.
      * split; [|split; [|auto]].
        -- split; [discriminate|].
           intros (? & ? & ? & ? & ? & _ & ? & ? & _ & _ & _ & ?). congruence.
        -- split; [discriminate | intros H; destruct (Hno H)].
      * split; [|split; [|auto]].
        -- split; [intros _; eauto 15 | reflexivity].
        -- split; [discriminate | intros H; destruct (Hno H)].
  - rewrite bool_decide_eq_true_2 by exact Hmiss.
    split; [|split; [|auto]].
    + split; [discriminate|].
      intros (count & lo & hi & avg & sd & Hcount & Hlo & Hhi & Havg & Hsd & _).
      destruct Hmiss. apply stats_complete. eauto 10.
    + split; [|reflexivity]. intros _.
      destruct (stats !! "count") as [count|] eqn:Hcount;
        [|exists "count"; split; [apply stats_required_elem; tauto | exact Hcount]].
      destruct (stats !! "min") as [lo|] eqn:Hlo;
        [|exists "min"; split; [apply stats_required_elem; tauto | exact Hlo]].
      destruct (stats !! "max") as [hi|] eqn:Hhi;
        [|exists "max"; split; [apply stats_required_elem; tauto | exact Hhi]].
      destruct (stats !! "mean") as [avg|] eqn:Havg;
        [|exists "mean"; split; [apply stats_required_elem; tauto | exact Havg]].
      destruct (stats !! "stdev") as [sd|] eqn:Hsd;
        [|exists "stdev"; split; [apply stats_required_elem; tauto | exact Hsd]].
      destruct Hmiss. apply stats_complete. eauto 10.
Qed.

(** *** The scores are floats *)

Lemma cell_scores_ok (column_name : string) (rs : list csv_row) :
  Forall (fun x => float_ok x = true) (omap (cell_score column_name) rs).
Proof.
  induction rs as [|row rs IH]; [constructor|].
  cbn [omap list_omap]. destruct (cell_score column_name row) as [x|] eqn:E;
    [|exact IH].
  constructor; [|exact IH]. unfold cell_score in E.
  destruct (str_truthy _); [|discriminate].
  destruct (float_of_str _) as [y|] eqn:Ey; [|discriminate].
  injection E as <-. apply (float_of_str_ok _ _ Ey).
Qed.

(** *** The report *)

(** [int(x)] of a float has at most 309 digits: Python converts it to
    text. *)
Lemma int_of_float_printable (x : float) (n : Z) :
  float_ok x = true -> int_of_float x = Ok n -> printable n.
Proof.
  destruct x as [| |q]; try discriminate. simpl. intros Hq [= <-].
  apply is_binary64_spec in Hq as [_ [Hlo Hhi]].
  rewrite <- (Qpow2_inject 1024) in Hlo, Hhi by lia.
  assert (Hlimit : 2 ^ 1024 < 10 ^ max_str_digits) by (vm_compute; reflexivity).
  unfold printable. revert Hlimit. generalize (10 ^ max_str_digits).
  revert Hlo Hhi. generalize (2 ^ 1024). intros b Hlo Hhi limit Hlimit.
  assert (Hfloor : - b <= Qfloor q < b).
  { split.
    - replace (- b) with (Qfloor (inject_Z (- b))) by apply Qfloor_Z.
      apply Qfloor_resp_le. rewrite inject_Z_opp. lra.
    - rewrite Zlt_Qlt. eapply Qle_lt_trans; [apply Qfloor_le | exact Hhi]. }
  assert (Hceil : - b < Qceiling q <= b).
  { unfold Qceiling. 
    assert (Qfloor (- q) < b).
    { rewrite Zlt_Qlt. eapply Qle_lt_trans; [apply Qfloor_le|]. lra. }
    assert (- b <= Qfloor (- q)).
    { replace (- b) with (Qfloor (inject_Z (- b))) by apply Qfloor_Z.
      apply Qfloor_resp_le. rewrite inject_Z_opp. lra. }
    lia. }
  destruct (Qle_bool 0 q); lia.
Qed.

Lemma load_stats_report_run (stats : gmap string float) (out_path : Path)
    (w : world) (count lo hi avg sd : float) (n : Z) :
  stats !! "count" = Some count -> int_of_float count = Ok n ->
  stats !! "min" = Some lo -> stats !! "max" = Some hi ->
  stats !! "mean" = Some avg -> stats !! "stdev" = Some sd ->
  exists w',
    load_stats_report stats out_path w = (Ok tt, w')
    /\ written w out_path (stats_report n lo hi avg sd) w'.
Proof.
  intros Hcount Hn Hlo Hhi Havg Hsd.
  unfold load_stats_report, getitem.
  rewrite Hcount, Hlo, Hhi, Havg, Hsd.
  open_file H. write_line H. rewrite io_bind_lift_ok, Hn, io_bind_lift_ok.
  write_line H. rewrite io_bind_lift_ok.
  write_line H. rewrite io_bind_lift_ok.
  write_line H. rewrite io_bind_lift_ok.
  write_line H. rewrite io_bind_lift_ok.
  match goal with |- context [write _ ?text ?w0] =>
    destruct (write_end w out_path _ text w0 H) as (w' & Hrun & H')
  end.
  exists w'. split; [exact Hrun|].
  unfold stats_report. rewrite !append_assoc in H'. exact H'.
Qed.

Lemma stats_report_printed (n : Z) (lo hi avg sd : float) :
  stats_report_of n lo hi avg sd (stats_report n lo hi avg sd).
Proof.
  exists (format_2f lo), (format_2f hi), (format_2f avg), (format_2f sd).
  unfold printed_2f. auto 10.
Qed.

(** X17: on a summary with the five keys and a count that is a finite
    float [load_stats_report] returns, and the output file holds the six
    lines of the report, the count truncated to an int, which is within
    the digit limit of the conversion to text, and the other values with
    two decimals (a zero as [0.00] or [-0.00]), whatever the file held
    before; no other file is changed.  The loader does not test the
    summary first: without a count it raises [KeyError], on a count that
    is a NaN [ValueError] and on an infinite one [OverflowError], and
    leaves a file with the title only. *)
Theorem load_stats_report_writes (stats : gmap string float)
    (out_path : Path) (w : world) :
  writable w out_path ->
  (forall count lo hi avg sd n,
     stats !! "count" = Some count -> float_ok count = true ->
     int_of_float count = Ok n ->
     stats !! "min" = Some lo -> stats !! "max" = Some hi ->
     stats !! "mean" = Some avg -> stats !! "stdev" = Some sd ->
     printable n
     /\ exists text w',
          stats_report_of n lo hi avg sd text
          /\ load_stats_report stats out_path w = (Ok tt, w')
          /\ written w out_path text w')
  /\ (forall e,
      (stats !! "count" = None /\ e = KeyError)
      \/ (stats !! "count" = Some Fnan /\ e = ValueError)
      \/ ((exists neg, stats !! "count" = Some (Finf neg))
          /\ e = OverflowError) ->
      exists w',
        load_stats_report stats out_path w = (Raise e, w')
        /\ written w out_path ("CSV Ladder Score Statistics" +:+ nl) w').
Proof.
  intros _. split.
  - intros count lo hi avg sd n Hcount Hok Hn Hlo Hhi Havg Hsd.
    split; [exact (int_of_float_printable count n Hok Hn)|].
    destruct (load_stats_report_run stats out_path w count lo hi avg sd n
                Hcount Hn Hlo Hhi Havg Hsd) as (w' & Hrun & Hw').
    exists (stats_report n lo hi avg sd), w'.
    split; [apply stats_report_printed | split; assumption].
  - intros e He. unfold load_stats_report, getitem.
    open_file H. write_line H.
    destruct He as [[-> ->] | [[-> ->] | [[neg ->] ->]]];
      rewrite ?io_bind_lift_ok; cbn [int_of_float]; rewrite io_bind_raise;
      eexists; (split; [reflexivity | exact H]).
Qed.

(** *** The pipeline *)

Lemma verify_transformed (scores : list float) (stats : gmap string float) :
  transform_scores_to_stats scores = Ok stats -> verify_stats stats = Ok tt.
Proof.
  intros H. apply transform_returned in H
    as (x & l & count & lo & hi & avg & sd & -> & Hcount & Hmin & Hmax
        & _ & _ & ->).
  destruct (summary_fields count lo hi avg sd)
    as (Ec & Elo & Ehi & _ & _ & Hdom).
  destruct (min_max_order x l lo hi Hmin Hmax) as (Hgt & _).
  eapply verify_stats_accepts; try eassumption.
  eapply float_of_len_positive; [|exact Hcount]. simpl length. lia.
Qed.

(** The report of a summary that the transformer has returned. *)
Lemma load_transformed (scores : list float) (stats : gmap string float)
    (out_path : Path) (w : world) :
  transform_scores_to_stats scores = Ok stats ->
  exists count lo hi avg sd n w',
    stats !! "count" = Some count /\ stats !! "min" = Some lo
    /\ stats !! "max" = Some hi /\ stats !! "mean" = Some avg
    /\ stats !! "stdev" = Some sd
    /\ int_of_float count = Ok n
    /\ (Z.of_nat (length scores) <= 2 ^ 53 -> n = Z.of_nat (length scores))
    /\ load_stats_report stats out_path w = (Ok tt, w')
    /\ written w out_path (stats_report n lo hi avg sd) w'.
Proof.
  intros H. apply transform_returned in H
    as (x & l & count & lo & hi & avg & sd & -> & Hcount & _ & _ & _ & _ & ->).
  destruct (summary_fields count lo hi avg sd)
    as (Ec & Elo & Ehi & Eavg & Esd & _).
  assert (Hn : exists n, int_of_float count = Ok n
    /\ (Z.of_nat (length (x :: l)) <= 2 ^ 53 -> n = Z.of_nat (length (x :: l)))).
  { destruct (Z_le_gt_dec (Z.of_nat (length (x :: l))) (2 ^ 53)) as [Hle|Hgt].
    - destruct (float_of_int_exact (Z.of_nat (length (x :: l))))
        as (r & Hr & _ & Hint); [lia|].
      rewrite Hr in Hcount. injection Hcount as <-. eauto.
    - unfold float_of_int in Hcount.
      destruct (float_of_Q_exn_cases (inject_Z (Z.of_nat (length (x :: l)))))
        as [E | E]; rewrite E in Hcount; [|discriminate].
      injection Hcount as <-. eexists. split; [reflexivity | lia]. }
  destruct Hn as (n & Hn & Hlen).
  destruct (load_stats_report_run _ out_path w count lo hi avg sd n
              Ec Hn Elo Ehi Eavg Esd) as (w' & Hload & Hw').
  exists count, lo, hi, avg, sd, n, w'. auto 10.
Qed.

Section csv_pipeline.

Variable csv_DictReader : string -> csv_table.

Lemma run_csv_cases (raw_dir processed_dir : Path) (w : world) :
  let input_file := path_div raw_dir "2020_happiness.csv" in
  let output_file := path_div processed_dir "csv_ladder_score_stats.txt" in
  match fst (extract_csv_scores csv_DictReader input_file "Ladder score" w)
  with
  | Ok scores =>
      match transform_scores_to_stats scores with
      | Ok stats =>
          exists count lo hi avg sd n w',
            stats !! "count" = Some count /\ stats !! "min" = Some lo
            /\ stats !! "max" = Some hi /\ stats !! "mean" = Some avg
            /\ stats !! "stdev" = Some sd
            /\ int_of_float count = Ok n
            /\ (Z.of_nat (length scores) <= 2 ^ 53 ->
                n = Z.of_nat (length scores))
            /\ run_csv_pipeline csv_DictReader raw_dir processed_dir w
               = (Ok tt, w')
            /\ written w output_file (stats_report n lo hi avg sd) w'
      | Raise e =>
          exists w',
            run_csv_pipeline csv_DictReader raw_dir processed_dir w
            = (Raise e, w')
            /\ same_store w w'
      end
  | Raise e =>
      exists w',
        run_csv_pipeline csv_DictReader raw_dir processed_dir w = (Raise e, w')
        /\ same_store w w'
  end.
Proof.
  intros input_file output_file.
  pose proof (extract_csv_store csv_DictReader input_file "Ladder score" w)
    as Hstore.
  unfold run_csv_pipeline. fold input_file output_file.
  destruct (extract_csv_scores csv_DictReader input_file "Ladder score" w)
    as [[scores|e] w1] eqn:Hextract; cbn [fst snd] in *.
  - rewrite (io_bind_ok _ _ w w1 _ Hextract).
    destruct (transform_scores_to_stats scores) as [stats|e] eqn:Htransform.
    + rewrite io_bind_lift_ok.
      rewrite (verify_transformed scores stats Htransform), io_bind_lift_ok.
      destruct (load_transformed scores stats output_file w1 Htransform)
        as (count & lo & hi & avg & sd & n & w' & Ec & Elo & Ehi & Eavg & Esd
            & Hn & Hlen & Hload & Hw').
      exists count, lo, hi, avg, sd, n, w'.
      do 7 (split; [assumption|]). split; [exact Hload|].
      eapply written_from; eassumption.
    + rewrite io_bind_raise. eauto.
  - unfold io_bind at 1. rewrite Hextract. eauto.
Qed.

(** X18: the CSV pipeline returns exactly when its extractor and its
    transformer do, as the verifier accepts every summary of the
    transformer: the output file then holds the six lines of the report of
    the summary, with the number of the scores in the count line (for at
    most [2^53] scores) and the other values with two decimals (a zero as
    [0.00] or [-0.00]), and every other file is as before.  When the
    extractor or the transformer raises, the pipeline raises the same
    error and has changed no file or directory. *)
Theorem run_csv_pipeline_effect (raw_dir processed_dir : Path) (w : world) :
  let input_file := path_div raw_dir "2020_happiness.csv" in
  let output_file := path_div processed_dir "csv_ladder_score_stats.txt" in
  let extracted :=
    fst (extract_csv_scores csv_DictReader input_file "Ladder score" w) in
  writable w output_file ->
  (forall scores stats,
     extracted = Ok scores -> transform_scores_to_stats scores = Ok stats ->
     exists count lo hi avg sd n text w',
       stats !! "count" = Some count /\ stats !! "min" = Some lo
       /\ stats !! "max" = Some hi /\ stats !! "mean" = Some avg
       /\ stats !! "stdev" = Some sd
       /\ int_of_float count = Ok n
       /\ (Z.of_nat (length scores) <= 2 ^ 53 -> n = Z.of_nat (length scores))
       /\ stats_report_of n lo hi avg sd text
       /\ run_csv_pipeline csv_DictReader raw_dir processed_dir w = (Ok tt, w')
       /\ written w output_file text w')
  /\ (forall scores e,
      extracted = Ok scores -> transform_scores_to_stats scores = Raise e ->
      exists w',
        run_csv_pipeline csv_DictReader raw_dir processed_dir w = (Raise e, w')
        /\ same_store w w')
  /\ (forall e,
      extracted = Raise e ->
      exists w',
        run_csv_pipeline csv_DictReader raw_dir processed_dir w = (Raise e, w')
        /\ same_store w w').
Proof.
  intros input_file output_file extracted _.
  pose proof (run_csv_cases raw_dir processed_dir w) as H.
  cbv zeta in H. fold input_file output_file in H. fold extracted in H.
  split; [|split].
  - intros scores stats E Et. rewrite E, Et in H.
    destruct H as (count & lo & hi & avg & sd & n & w' & Ec & Elo & Ehi & Eavg
                   & Esd & Hn & Hlen & Hrun & Hw').
    exists count, lo, hi, avg, sd, n, (stats_report n lo hi avg sd), w'.
    do 7 (split; [assumption|]).
    split; [apply stats_report_printed | split; assumption].
  - intros scores e E Et. rewrite E, Et in H. exact H.
  - intros e E. rewrite E in H. exact H.
Qed.

(** X19: the CSV pipeline returns when the input is a regular file that
    the reader reads without error, to a header with the column
    [Ladder score] and to rows in which at least one cell of the column is
    read as a float, the floats read being finite and at most [2^1022] in
    magnitude: the report then has the number of these floats in its count
    line. *)
Theorem run_csv_pipeline_returns (raw_dir processed_dir : Path) (w : world)
    (text : string) (names : list string) (rs : list csv_row) :
  let input_file := path_div raw_dir "2020_happiness.csv" in
  let output_file := path_div processed_dir "csv_ladder_score_stats.txt" in
  let scores := omap (cell_score "Ladder score") rs in
  writable w output_file ->
  files w !! input_file = Some text ->
  csv_DictReader text = CsvTable (Some names) rs ->
  "Ladder score" ∈ names ->
  scores <> [] ->
  Forall (fun x => float_within (2 ^ 1022) x = true) scores ->
  Z.of_nat (length scores) <= 2 ^ 53 ->
  exists lo hi avg sd text' w',
    stats_report_of (Z.of_nat (length scores)) lo hi avg sd text'
    /\ run_csv_pipeline csv_DictReader raw_dir processed_dir w = (Ok tt, w')
    /\ written w output_file text' w'.
Proof.
  intros input_file output_file scores _ Hfile Hreader Hcol Hne Hall Hlen.
  pose proof (run_csv_cases raw_dir processed_dir w) as H.
  cbv zeta in H. fold input_file output_file in H.
  destruct (extract_csv_file csv_DictReader input_file "Ladder score" text w
              Hfile) as (w1 & Hextract & _).
  rewrite Hreader, (reading_scores_table _ _ _ Hcol) in Hextract.
  fold scores in Hextract. rewrite Hextract in H. cbn [fst] in H.
  destruct (transform_bounded_returns scores Hne) as (stats & Hstats).
  { pose proof (cell_scores_ok "Ladder score" rs) as Hok.
    fold scores in Hok. rewrite Forall_forall in Hok, Hall.
    apply Forall_forall. intros x Hx. split; [apply Hok | apply Hall]; exact Hx. }
  { lia. }
  rewrite Hstats in H.
  destruct H as (count & lo & hi & avg & sd & n & w' & _ & _ & _ & _ & _ & _
                 & Hn & Hrun & Hw').
  rewrite (Hn Hlen) in Hw'.
  exists lo, hi, avg, sd,
    (stats_report (Z.of_nat (length scores)) lo hi avg sd), w'.
  split; [apply stats_report_printed | split; assumption].
Qed.

End csv_pipeline.

(** ** The extremes of the summary *)

Lemma float_le_total (x y : float) :
  is_nan x = false -> is_nan y = false ->
  float_lt y x = false -> float_le x y = true.
Proof.
  destruct x as [|[]|a], y as [|[]|b]; simpl; try congruence.
  intros _ _ H. apply Qltb_ge in H. apply Qle_bool_iff, H.
Qed.

Lemma min_step_cases (cur item : float) :
  min_step cur item = cur \/ min_step cur item = item.
Proof. unfold min_step. destruct (float_lt item cur); auto. Qed.

Lemma max_step_cases (cur item : float) :
  max_step cur item = cur \/ max_step cur item = item.
Proof. unfold max_step. destruct (float_gt item cur); auto. Qed.

Lemma min_loop_member (l : list float) (cur : float) :
  fold_left min_step l cur ∈ cur :: l.
Proof.
  revert cur. induction l as [|item l IH]; intros cur; [left|].
  simpl. specialize (IH (min_step cur item)).
  apply elem_of_cons in IH as [-> | IH]; [|right; right; exact IH].
  destruct (min_step_cases cur item) as [-> | ->]; [left | right; left].
Qed.

Lemma max_loop_member (l : list float) (cur : float) :
  fold_left max_step l cur ∈ cur :: l.
Proof.
  revert cur. induction l as [|item l IH]; intros cur; [left|].
  simpl. specialize (IH (max_step cur item)).
  apply elem_of_cons in IH as [-> | IH]; [|right; right; exact IH].
  destruct (max_step_cases cur item) as [-> | ->]; [left | right; left].
Qed.

Lemma min_loop_bounds (l : list float) (cur : float) :
  is_nan cur = false -> Forall (fun x => is_nan x = false) l ->
  Forall (fun x => float_le (fold_left min_step l cur) x = true) (cur :: l).
Proof.
  intros Hcur Hall. revert cur Hcur.
  induction Hall as [|item l Hitem _ IH]; intros cur Hcur.
  - constructor; [apply float_le_refl, Hcur | constructor].
  - simpl fold_left.
    assert (Hstep : is_nan (min_step cur item) = false
                    /\ float_le (min_step cur item) cur = true
                    /\ float_le (min_step cur item) item = true).
    { unfold min_step. destruct (float_lt item cur) eqn:E.
      - split; [exact Hitem|].
        split; [apply float_lt_le, E | apply float_le_refl, Hitem].
      - split; [exact Hcur|].
        split; [apply float_le_refl, Hcur | apply float_le_total; assumption]. }
    destruct Hstep as (Hnan & Hle_cur & Hle_item).
    specialize (IH (min_step cur item) Hnan).
    apply Forall_cons in IH as [Hfirst Hrest].
    constructor; [eapply float_le_trans; eassumption|].
    constructor; [eapply float_le_trans; eassumption | exact Hrest].
Qed.

Lemma max_loop_bounds (l : list float) (cur : float) :
  is_nan cur = false -> Forall (fun x => is_nan x = false) l ->
  Forall (fun x => float_le x (fold_left max_step l cur) = true) (cur :: l).
Proof.
  intros Hcur Hall. revert cur Hcur.
  induction Hall as [|item l Hitem _ IH]; intros cur Hcur.
  - constructor; [apply float_le_refl, Hcur | constructor].
  - simpl fold_left.
    assert (Hstep : is_nan (max_step cur item) = false
                    /\ float_le cur (max_step cur item) = true
                    /\ float_le item (max_step cur item) = true).
    { unfold max_step, float_gt. destruct (float_lt cur item) eqn:E.
      - split; [exact Hitem|].
        split; [apply float_lt_le, E | apply float_le_refl, Hitem].
      - split; [exact Hcur|].
        split; [apply float_le_refl, Hcur | apply float_le_total; assumption]. }
    destruct Hstep as (Hnan & Hle_cur & Hle_item).
    specialize (IH (max_step cur item) Hnan).
    apply Forall_cons in IH as [Hfirst Hrest].
    constructor; [eapply float_le_trans; eassumption|].
    constructor; [eapply float_le_trans; eassumption | exact Hrest].
Qed.

Lemma max_loop_nan (l : list float) : fold_left max_step l Fnan = Fnan.
Proof.
  induction l as [|item l IH]; [reflexivity|]. simpl.
  unfold max_step at 2, float_gt. cbn [float_lt]. exact IH.
Qed.

(** X20: the minimum and the maximum of a summary are scores of the list.
    When no score is a NaN, the minimum is less than or equal to every
    score and the maximum greater than or equal to every score.  When the
    first score is a NaN, the minimum and the maximum are both that
    NaN, whatever the other scores are. *)
Theorem transform_stats_extremes (scores : list float)
    (stats : gmap string float) :
  transform_scores_to_stats scores = Ok stats ->
  exists lo hi,
    stats !! "min" = Some lo /\ stats !! "max" = Some hi
    /\ lo ∈ scores /\ hi ∈ scores
    /\ (Forall (fun x => is_nan x = false) scores ->
        Forall (fun x => float_le lo x = true /\ float_le x hi = true) scores)
    /\ (forall x, head scores = Some x -> is_nan x = true ->
        lo = Fnan /\ hi = Fnan).
Proof.
  intros H. apply transform_returned in H
    as (x & l & count & lo & hi & avg & sd & -> & _ & Hmin & Hmax & _ & _ & ->).
  injection Hmin as <-. injection Hmax as <-.
  eexists _, _. split; [reflexivity|]. split; [reflexivity|].
  split; [apply min_loop_member|]. split; [apply max_loop_member|]. split.
  - intros Hall. apply Forall_cons in Hall as [Hx Hl].
    pose proof (min_loop_bounds l x Hx Hl) as Hlo.
    pose proof (max_loop_bounds l x Hx Hl) as Hhi.
    rewrite Forall_forall in Hlo, Hhi. apply Forall_forall.
    intros y Hy. split; [apply Hlo | apply Hhi]; exact Hy.
  - intros y [= <-] Hnan. destruct x; try discriminate.
    rewrite min_loop_nan, max_loop_nan. auto.
Qed.

(** ** Equal scores *)

Lemma Qsum_constant (f : Q -> Q) (c : Q) (qs : list Q) :
  Forall (fun q => q = c) qs -> (Qsum f qs == Qlen qs * f c)%Q.
Proof.
  induction 1 as [|q qs -> _ IH].
  - unfold Qlen. simpl. ring.
  - cbn [Qsum fold_right]. fold (Qsum f qs). rewrite IH, Qlen_cons. ring.
Qed.

Lemma sample_variance_constant (c : Q) (qs : list Q) :
  (2 <= length qs)%nat -> Forall (fun q => q = c) qs ->
  (sample_variance qs == 0)%Q.
Proof.
  intros Hn Hall. unfold sample_variance.
  rewrite !(Qsum_constant _ c qs Hall).
  pose proof (Qlen_ge_2 qs Hn). field. split; lra.
Qed.

Lemma stdev_constant (c : Q) (qs : list Q) :
  (2 <= length qs)%nat -> Forall (fun q => q = c) qs ->
  statistics.stdev (map Ffin qs) = Ok (Ffin 0).
Proof.
  intros Hn Hall.
  destruct (stdev_finite_value qs Hn) as (R & -> & HR0 & HR).
  rewrite (sample_variance_constant c qs Hn Hall) in HR.
  assert (E : (R == 0)%Q) by nra.
  rewrite (float_of_Q_exn_proper R 0 E). reflexivity.
Qed.

Lemma constant_list (c : Q) (scores : list float) :
  Forall (fun x => x = Ffin c) scores ->
  exists qs, scores = map Ffin qs /\ Forall (fun q => q = c) qs.
Proof.
  induction 1 as [|x l -> _ (qs & -> & Hqs)].
  - exists []. split; [reflexivity | constructor].
  - exists (c :: qs). split; [reflexivity | constructor; [reflexivity | exact Hqs]].
Qed.

(** X21: when all the scores are the same finite float, the minimum and the
    maximum of the summary are that float, the mean is equal to it, and
    the standard deviation is 0: the exact sums of [statistics] leave no
    rounding error. *)
Theorem transform_equal_scores (c : Q) (scores : list float) :
  is_binary64 c = true -> scores <> [] ->
  Forall (fun x => x = Ffin c) scores ->
  Z.of_nat (length scores) <= 2 ^ 63 ->
  exists stats avg,
    transform_scores_to_stats scores = Ok stats
    /\ stats !! "min" = Some (Ffin c) /\ stats !! "max" = Some (Ffin c)
    /\ stats !! "mean" = Some (Ffin avg) /\ (avg == c)%Q
    /\ stats !! "stdev" = Some (Ffin 0).
Proof.
  intros Hc Hne Hall Hlen.
  destruct (constant_list c scores Hall) as (qs & -> & Hqs).
  destruct qs as [|q qs]; [exfalso; apply Hne; reflexivity|].
  rewrite length_map in Hlen.
  assert (Hin : forall m, In m (q :: qs) -> m = c).
  { intros m Hm. rewrite Forall_forall in Hqs.
    apply Hqs, list_elem_of_In, Hm. }
  assert (Hok : Forall (fun v => is_binary64 v = true) (q :: qs)).
  { eapply Forall_impl; [exact Hqs|]. simpl. intros v ->. exact Hc. }
  destruct (float_of_len_returns (Z.of_nat (length (q :: qs))))
    as (count & Hcount & _); [simpl length in *; lia|].
  destruct (min_finite q qs) as (lo & Hmin & Hlo & _).
  destruct (max_finite q qs) as (hi & Hmax & Hhi & _).
  apply Hin in Hlo, Hhi. subst lo hi.
  destruct (mean_finite q qs c c Hc Hc) as (avg & Hmean & Havg).
  { apply Forall_forall. intros v Hv. apply list_elem_of_In, Hin in Hv.
    subst v. lra. }
  unfold transform_scores_to_stats. simpl map at 1. cbv iota.
  rewrite length_map, Hcount, Hmin, Hmax, Hmean. cbn [bind].
  assert (Hsd : (if 1 <? Z.of_nat (length (q :: qs))
                 then statistics.stdev (map Ffin (q :: qs)) else Ok (Ffin 0))
                = Ok (Ffin 0)).
  { destruct (Z.ltb_spec 1 (Z.of_nat (length (q :: qs)))); [|reflexivity].
    apply (stdev_constant c); [lia | exact Hqs]. }
  rewrite Hsd. cbn [bind]. eexists _, avg.
  split; [reflexivity|]. do 3 (split; [reflexivity|]).
  split; [lra | reflexivity].
Qed.

(** ** Scores that are not finite *)

Lemma not_finite_total (scores : list float) :
  Exists (fun x => is_finite x = false) scores
  <-> exists t, statistics.nonfinite_total scores = Some t.
Proof.
  split.
  - intros H. destruct (finite_or_not scores) as [(qs & ->) | Ht]; [|exact Ht].
    exfalso. apply Exists_exists in H as (x & Hx & Hfin).
    apply list_elem_of_fmap in Hx as (q & -> & _). discriminate Hfin.
  - intros (t & Ht).
    destruct (decide (Forall (fun x => is_finite x = true) scores)) as [Hall|Hno].
    + apply finite_list in Hall as (qs & ->).
      rewrite nonfinite_total_finite in Ht. discriminate Ht.
    + apply not_Forall_Exists in Hno; [|intros x; apply _].
      eapply Exists_impl; [exact Hno|]. simpl. intros x Hx.
      destruct (is_finite x); [destruct Hx; reflexivity | reflexivity].
Qed.

Lemma mean_not_finite (scores : list float) (t : float) :
  statistics.nonfinite_total scores = Some t -> scores <> [] ->
  exists avg, statistics.mean scores = Ok avg.
Proof.
  intros Ht Hne. unfold statistics.mean, statistics._sum. rewrite Ht.
  destruct (Z.ltb_spec (Z.of_nat (length scores)) 1) as [Hlen|_]; [|eauto].
  destruct scores; [congruence | simpl length in Hlen; lia].
Qed.

(** The transformer on finite scores does not raise [AttributeError]. *)
Lemma transform_finite_error (qs : list Q) :
  transform_scores_to_stats (map Ffin qs) <> Raise AttributeError.
Proof.
  destruct qs as [|q qs]; [discriminate|].
  unfold transform_scores_to_stats. simpl map at 1. cbv iota.
  unfold float_of_int.
  destruct (float_of_Q_exn_cases
              (inject_Z (Z.of_nat (length (map Ffin (q :: qs))))))
    as [-> | ->]; [|discriminate].
  destruct (min_finite q qs) as (lo & -> & _).
  destruct (max_finite q qs) as (hi & -> & _). cbn [bind].
  assert (Hmean : (exists avg, statistics.mean (map Ffin (q :: qs)) = Ok avg)
                  \/ statistics.mean (map Ffin (q :: qs)) = Raise OverflowError).
  { unfold statistics.mean, statistics._sum. rewrite nonfinite_total_finite.
    destruct (Z.ltb_spec (Z.of_nat (length (map Ffin (q :: qs)))) 1);
      [simpl length in *; lia|].
    rewrite float_of_Fraction_round.
    destruct (float_of_Q_exn_cases
                (statistics.exact_sum (fun q => q) (map Ffin (q :: qs))
                 / inject_Z (Z.of_nat (length (map Ffin (q :: qs))))))
      as [-> | ->]; eauto. }
  destruct Hmean as [(avg & ->) | ->]; [|discriminate]. cbn [bind].
  destruct (Z.ltb_spec 1 (Z.of_nat (length (map Ffin (q :: qs))))) as [Hlen|_];
    [|discriminate].
  rewrite length_map in Hlen.
  destruct (stdev_finite (q :: qs)) as [(r & -> & _) | ->];
    [lia | discriminate | discriminate].
Qed.

(** X26: a score that is not finite, a NaN or an infinity, makes the
    transformer raise [AttributeError] as soon as there are two scores:
    [statistics.stdev] then asks a float for its [numerator].  On lists of
    at most [2^63] scores this is the only way to that error; a single
    score that is not finite gives a summary. *)
Theorem transform_not_finite_scores (scores : list float) :
  Z.of_nat (length scores) <= 2 ^ 63 ->
  (transform_scores_to_stats scores = Raise AttributeError
   <-> (2 <= length scores)%nat
       /\ Exists (fun x => is_finite x = false) scores)
  /\ (forall x, scores = [x] -> is_finite x = false ->
      exists stats,
        transform_scores_to_stats scores = Ok stats
        /\ stats !! "min" = Some x /\ stats !! "max" = Some x
        /\ stats !! "stdev" = Some (Ffin 0)).
Proof.
  intros Hlen. split; [split|].
  - intros H. destruct (finite_or_not scores) as [(qs & ->) | (t & Ht)];
      [destruct (transform_finite_error qs H)|].
    split; [|apply not_finite_total; eauto].
    destruct scores as [|x [|y l]]; [discriminate H | | simpl; lia].
    exfalso. destruct (mean_not_finite [x] t Ht) as (avg & Havg);
      [discriminate|].
    unfold transform_scores_to_stats in H. rewrite Havg in H.
    discriminate H.
  - intros [Hn Hex]. apply not_finite_total in Hex as (t & Ht).
    destruct scores as [|x l]; [simpl in Hn; lia|].
    destruct (float_of_len_returns (Z.of_nat (length (x :: l))))
      as (count & Hcount & _); [simpl length in *; lia|].
    destruct (mean_not_finite (x :: l) t Ht) as (avg & Havg); [discriminate|].
    unfold transform_scores_to_stats. rewrite Hcount, Havg.
    cbn [builtin_min builtin_max bind].
    destruct (Z.ltb_spec 1 (Z.of_nat (length (x :: l)))) as [_|Hno]; [|lia].
    rewrite (stdev_not_finite (x :: l) t Ht Hn). reflexivity.
  - intros x -> Hx.
    assert (Ht : exists t, statistics.nonfinite_total [x] = Some t).
    { apply not_finite_total. constructor. exact Hx. }
    destruct Ht as (t & Ht).
    destruct (mean_not_finite [x] t Ht) as (avg & Havg); [discriminate|].
    unfold transform_scores_to_stats. rewrite Havg.
    eexists. split; [reflexivity|]. repeat split; reflexivity.
Qed.

Lemma transform_not_finite_scores_witness :
  transform_scores_to_stats [Ffin 1; Finf false] = Raise AttributeError
  <-> (2 <= length [Ffin 1; Finf false])%nat
      /\ Exists (fun x => is_finite x = false) [Ffin 1; Finf false].
Proof.
  destruct (transform_not_finite_scores [Ffin 1; Finf false]) as [H _].
  - vm_compute. discriminate.
  - exact H.
Defined.

(** ** The four pipelines together *)

Lemma path_div_ne (p q : Path) (n m : string) :
  n <> m -> path_div p n <> path_div q m.
Proof.
  unfold path_div. intros Hne H. apply app_inj_tail in H as [_ H]. congruence.
Qed.

Lemma written_other (w : world) (out_path : Path) (text : string)
    (w' : world) (p : Path) :
  written w out_path text w' -> p <> out_path ->
  files w' !! p = files w !! p.
Proof. intros [Hf _] Hp. rewrite Hf. apply lookup_insert_ne. congruence. Qed.

Lemma written_then_same (w : world) (out_path : Path) (text : string)
    (w1 w2 : world) :
  written w out_path text w1 -> same_store w1 w2 -> written w out_path text w2.
Proof. intros [Hf Hd] [Hf' Hd']. split; congruence. Qed.

Section all_pipelines.

Variable csv_DictReader : string -> csv_table.
Variable json_load : string -> result json.
Variable openpyxl_load_workbook : string -> result workbook.
Variable readlines : string -> list string.

(** X22: no extractor creates, writes or removes anything: whatever the
    world and whether it returns or raises, the files and the directories
    are the same afterwards. *)
Theorem extractors_read_only (p : Path)
    (column_name list_key column_letter : string) (w : world) :
  same_store w (snd (extract_csv_scores csv_DictReader p column_name w))
  /\ same_store w (snd (extract_people_list json_load p list_key w))
  /\ same_store w
       (snd (extract_xlsx_column_strings openpyxl_load_workbook p
               column_letter w))
  /\ same_store w (snd (extract_lines readlines p w)).
Proof.
  split; [apply extract_csv_store|].
  split; [apply extract_people_store|].
  split; [apply extract_xlsx_store | apply extract_lines_store].
Qed.

(** Every pipeline either returns and has written its report, or raises
    and has left the files and the directories as they were. *)
Lemma run_csv_outcome (raw_dir processed_dir : Path) (w : world) :
  (exists text w',
     run_csv_pipeline csv_DictReader raw_dir processed_dir w = (Ok tt, w')
     /\ written w (path_div processed_dir "csv_ladder_score_stats.txt")
          text w')
  \/ (exists e w',
        run_csv_pipeline csv_DictReader raw_dir processed_dir w
        = (Raise e, w')
        /\ same_store w w').
Proof.
  pose proof (run_csv_cases csv_DictReader raw_dir processed_dir w) as H.
  cbv zeta in H.
  destruct (fst (extract_csv_scores _ _ _ _)) as [scores|e]; [|right; eauto].
  destruct (transform_scores_to_stats scores) as [stats|e]; [|right; eauto].
  destruct H as (count & lo & hi & avg & sd & n & w' & _ & _ & _ & _ & _ & _
                 & _ & Hrun & Hw').
  left. eauto.
Qed.

Lemma run_xlsx_outcome (raw_dir processed_dir : Path) (w : world) :
  (exists text w',
     run_xlsx_pipeline openpyxl_load_workbook raw_dir processed_dir w
     = (Ok tt, w')
     /\ written w (path_div processed_dir "xlsx_feedback_github_count.txt")
          text w')
  \/ (exists e w',
        run_xlsx_pipeline openpyxl_load_workbook raw_dir processed_dir w
        = (Raise e, w')
        /\ same_store w w').
Proof.
  pose proof (run_xlsx_cases openpyxl_load_workbook raw_dir processed_dir w)
    as H.
  cbv zeta in H.
  destruct (fst (extract_xlsx_column_strings _ _ _ _)) as [values|e];
    [|right; eauto].
  destruct H as (count & w' & _ & Hrun & Hw'). left. eauto.
Qed.

Lemma run_json_outcome (raw_dir processed_dir : Path) (w : world) :
  (forall people,
     fst (extract_people_list json_load (path_div raw_dir "astros.json")
            "people" w) = Ok people ->
     printable (Z.of_nat (length people))) ->
  (exists text w',
     run_json_pipeline json_load raw_dir processed_dir w = (Ok tt, w')
     /\ written w (path_div processed_dir "json_astronauts_by_craft.txt")
          text w')
  \/ (exists e w',
        run_json_pipeline json_load raw_dir processed_dir w = (Raise e, w')
        /\ same_store w w').
Proof.
  intros Hlen.
  pose proof (run_json_cases json_load raw_dir processed_dir w) as H.
  cbv zeta in H.
  destruct (fst (extract_people_list _ _ _ _)) as [people|e]; [|right; eauto].
  destruct (H (Hlen people eq_refl)) as (w' & Hrun & Hw'). left. eauto.
Qed.

Lemma run_text_outcome (raw_dir processed_dir : Path) (w : world) :
  (exists text w',
     run_text_pipeline readlines raw_dir processed_dir w = (Ok tt, w')
     /\ written w (path_div processed_dir "txt_summary.txt") text w')
  \/ (exists e w',
        run_text_pipeline readlines raw_dir processed_dir w = (Raise e, w')
        /\ same_store w w').
Proof.
  pose proof (run_text_cases readlines raw_dir processed_dir w) as H.
  cbv zeta in H.
  destruct (fst (extract_lines _ _ _)) as [lines|e]; [|right; eauto].
  destruct H as (w' & Hrun & Hw'). left. eauto.
Qed.

(** X23: the four pipelines are all-or-nothing on a path that can be
    written: one that raises has not created or changed any file or
    directory.  The loader, the only step that writes, runs after the
    extractor, the transformer and the verifier have returned, and it
    does not fail on their results; for the JSON pipeline this is so when
    there are fewer than [10^4300] records, so that every count can be
    converted to text (the group names are Latin-1 text, which the file
    can always hold). *)
Theorem pipelines_all_or_nothing (raw_dir processed_dir : Path)
    (w w' : world) (e : exn) :
  (writable w (path_div processed_dir "csv_ladder_score_stats.txt") ->
   run_csv_pipeline csv_DictReader raw_dir processed_dir w = (Raise e, w') ->
   same_store w w')
  /\ (writable w (path_div processed_dir "xlsx_feedback_github_count.txt") ->
      run_xlsx_pipeline openpyxl_load_workbook raw_dir processed_dir w
      = (Raise e, w') ->
      same_store w w')
  /\ (writable w (path_div processed_dir "json_astronauts_by_craft.txt") ->
      (forall people,
         fst (extract_people_list json_load (path_div raw_dir "astros.json")
                "people" w) = Ok people ->
         printable (Z.of_nat (length people))) ->
      run_json_pipeline json_load raw_dir processed_dir w = (Raise e, w') ->
      same_store w w')
  /\ (writable w (path_div processed_dir "txt_summary.txt") ->
      run_text_pipeline readlines raw_dir processed_dir w = (Raise e, w') ->
      same_store w w').
Proof.
  split; [|split; [|split]]; intros _.
  - intros Hrun. destruct (run_csv_outcome raw_dir processed_dir w)
      as [(? & ? & H & _) | (? & ? & H & Hw)]; congruence.
  - intros Hrun. destruct (run_xlsx_outcome raw_dir processed_dir w)
      as [(? & ? & H & _) | (? & ? & H & Hw)]; congruence.
  - intros Hlen Hrun. destruct (run_json_outcome raw_dir processed_dir w Hlen)
      as [(? & ? & H & _) | (? & ? & H & Hw)]; congruence.
  - intros Hrun. destruct (run_text_outcome raw_dir processed_dir w)
      as [(? & ? & H & _) | (? & ? & H & Hw)]; congruence.
Qed.

End all_pipelines.

(** *** Pipelines in another world *)

Lemma no_file_error_same (p : Path) (w w1 : world) :
  same_input p w w1 -> no_file_error w1 p = no_file_error w p.
Proof.
  intros [_ Hd]. unfold no_file_error.
  rewrite (bool_decide_ext _ _ Hd). reflexivity.
Qed.

Lemma read_no_file_result {A} (p : Path) (k : string -> io A) (w : world) :
  files w !! p = None ->
  fst ((found <~ path_exists p;;
        if negb found then io_raise FileNotFoundError
        else text <~ open_read p;; k text) w)
  = Raise (no_file_error w p).
Proof. intros H. destruct (read_no_file p k w H) as (? & -> & _). reflexivity. Qed.

Lemma same_input_refl (p : Path) (w : world) : same_input p w w.
Proof. split; reflexivity. Qed.

Section same_inputs.

Variable csv_DictReader : string -> csv_table.
Variable json_load : string -> result json.
Variable openpyxl_load_workbook : string -> result workbook.
Variable readlines : string -> list string.

Lemma extract_csv_same_input (p : Path) (column_name : string)
    (w w1 : world) :
  same_input p w w1 ->
  fst (extract_csv_scores csv_DictReader p column_name w1)
  = fst (extract_csv_scores csv_DictReader p column_name w).
Proof.
  intros Hin. pose proof Hin as [Hf _].
  destruct (files w !! p) as [text|] eqn:E.
  - destruct (extract_csv_file csv_DictReader p column_name text w E)
      as (? & -> & _).
    destruct (extract_csv_file csv_DictReader p column_name text w1 Hf)
      as (? & -> & _).
    reflexivity.
  - unfold extract_csv_scores.
    rewrite (read_no_file_result p _ w E), (read_no_file_result p _ w1 Hf).
    rewrite (no_file_error_same p w w1 Hin). reflexivity.
Qed.

Lemma extract_xlsx_same_input (p : Path) (column_letter : string)
    (w w1 : world) :
  same_input p w w1 ->
  fst (extract_xlsx_column_strings openpyxl_load_workbook p column_letter w1)
  = fst (extract_xlsx_column_strings openpyxl_load_workbook p column_letter w).
Proof.
  intros Hin. pose proof Hin as [Hf _].
  destruct (files w !! p) as [text|] eqn:E.
  - destruct (extract_xlsx_file openpyxl_load_workbook p column_letter text w E)
      as (? & -> & _).
    destruct (extract_xlsx_file openpyxl_load_workbook p column_letter text w1
                Hf) as (? & -> & _).
    reflexivity.
  - unfold extract_xlsx_column_strings.
    rewrite (read_no_file_result p _ w E), (read_no_file_result p _ w1 Hf).
    rewrite (no_file_error_same p w w1 Hin). reflexivity.
Qed.

Lemma extract_people_same_input (p : Path) (list_key : string)
    (w w1 : world) :
  same_input p w w1 ->
  fst (extract_people_list json_load p list_key w1)
  = fst (extract_people_list json_load p list_key w).
Proof.
  intros Hin. pose proof Hin as [Hf _].
  destruct (files w !! p) as [text|] eqn:E.
  - destruct (extract_people_file json_load p list_key text w E)
      as (? & -> & _).
    destruct (extract_people_file json_load p list_key text w1 Hf)
      as (? & -> & _).
    reflexivity.
  - unfold extract_people_list.
    rewrite (read_no_file_result p _ w E), (read_no_file_result p _ w1 Hf).
    rewrite (no_file_error_same p w w1 Hin). reflexivity.
Qed.

Lemma extract_lines_same_input (p : Path) (w w1 : world) :
  same_input p w w1 ->
  fst (extract_lines readlines p w1) = fst (extract_lines readlines p w).
Proof.
  intros Hin. pose proof Hin as [Hf _].
  destruct (files w !! p) as [text|] eqn:E.
  - destruct (extract_lines_file readlines p text w E) as (? & -> & _).
    destruct (extract_lines_file readlines p text w1 Hf) as (? & -> & _).
    reflexivity.
  - destruct (extract_lines_no_file readlines p w E) as (? & -> & _).
    destruct (extract_lines_no_file readlines p w1 Hf) as (? & -> & _).
    cbn [fst]. rewrite (no_file_error_same p w w1 Hin). reflexivity.
Qed.

Lemma run_csv_at (raw_dir processed_dir : Path) (w : world) :
  pipeline_at (path_div raw_dir "2020_happiness.csv")
    (path_div processed_dir "csv_ladder_score_stats.txt")
    (run_csv_pipeline csv_DictReader raw_dir processed_dir) w.
Proof.
  intros w1 Hin.
  pose proof (run_csv_cases csv_DictReader raw_dir processed_dir w) as H.
  pose proof (run_csv_cases csv_DictReader raw_dir processed_dir w1) as H1.
  cbv zeta in H, H1. rewrite (extract_csv_same_input _ _ _ _ Hin) in H1.
  destruct (fst (extract_csv_scores _ _ _ w)) as [scores|e].
  - destruct (transform_scores_to_stats scores) as [stats|e].
    + destruct H as (count & lo & hi & avg & sd & n & w' & Ec & Elo & Ehi
                     & Eavg & Esd & Hn & _ & Hrun & Hw').
      destruct H1 as (count1 & lo1 & hi1 & avg1 & sd1 & n1 & w1' & Ec1 & Elo1
                      & Ehi1 & Eavg1 & Esd1 & Hn1 & _ & Hrun1 & Hw1').
      simplify_eq. assert (n1 = n) as -> by congruence.
      rewrite Hrun, Hrun1. cbn [fst snd].
      exists (stats_report n lo hi avg sd).
      split; [exact Hw'|]. split; [reflexivity | exact Hw1'].
    + destruct H as (w' & Hrun & Hw'), H1 as (w1' & Hrun1 & Hw1').
      rewrite Hrun, Hrun1. cbn [fst snd]. auto.
  - destruct H as (w' & Hrun & Hw'), H1 as (w1' & Hrun1 & Hw1').
    rewrite Hrun, Hrun1. cbn [fst snd]. auto.
Qed.

Lemma run_xlsx_at (raw_dir processed_dir : Path) (w : world) :
  pipeline_at (path_div raw_dir "Feedback.xlsx")
    (path_div processed_dir "xlsx_feedback_github_count.txt")
    (run_xlsx_pipeline openpyxl_load_workbook raw_dir processed_dir) w.
Proof.
  intros w1 Hin.
  pose proof (run_xlsx_cases openpyxl_load_workbook raw_dir processed_dir w)
    as H.
  pose proof (run_xlsx_cases openpyxl_load_workbook raw_dir processed_dir w1)
    as H1.
  cbv zeta in H, H1. rewrite (extract_xlsx_same_input _ _ _ _ Hin) in H1.
  destruct (fst (extract_xlsx_column_strings _ _ _ w)) as [values|e].
  - destruct H as (count & w' & Hcount & Hrun & Hw').
    destruct H1 as (count1 & w1' & Hcount1 & Hrun1 & Hw1').
    assert (count1 = count) as -> by congruence.
    rewrite Hrun, Hrun1. cbn [fst snd]. eauto.
  - destruct H as (w' & Hrun & Hw'), H1 as (w1' & Hrun1 & Hw1').
    rewrite Hrun, Hrun1. cbn [fst snd]. auto.
Qed.

Lemma run_json_at (raw_dir processed_dir : Path) (w : world) :
  (forall people,
     fst (extract_people_list json_load (path_div raw_dir "astros.json")
            "people" w) = Ok people ->
     printable (Z.of_nat (length people))) ->
  pipeline_at (path_div raw_dir "astros.json")
    (path_div processed_dir "json_astronauts_by_craft.txt")
    (run_json_pipeline json_load raw_dir processed_dir) w.
Proof.
  intros Hlen w1 Hin.
  pose proof (run_json_cases json_load raw_dir processed_dir w) as H.
  pose proof (run_json_cases json_load raw_dir processed_dir w1) as H1.
  cbv zeta in H, H1. rewrite (extract_people_same_input _ _ _ _ Hin) in H1.
  destruct (fst (extract_people_list _ _ _ w)) as [people|e].
  - destruct (H (Hlen people eq_refl)) as (w' & Hrun & Hw').
    destruct (H1 (Hlen people eq_refl)) as (w1' & Hrun1 & Hw1').
    rewrite Hrun, Hrun1. cbn [fst snd]. eauto.
  - destruct H as (w' & Hrun & Hw'), H1 as (w1' & Hrun1 & Hw1').
    rewrite Hrun, Hrun1. cbn [fst snd]. auto.
Qed.

Lemma run_text_at (raw_dir processed_dir : Path) (w : world) :
  pipeline_at (path_div raw_dir "romeo_and_juliet.txt")
    (path_div processed_dir "txt_summary.txt")
    (run_text_pipeline readlines raw_dir processed_dir) w.
Proof.
  intros w1 Hin.
  pose proof (run_text_cases readlines raw_dir processed_dir w) as H.
  pose proof (run_text_cases readlines raw_dir processed_dir w1) as H1.
  cbv zeta in H, H1. rewrite (extract_lines_same_input _ _ _ Hin) in H1.
  destruct (fst (extract_lines _ _ w)) as [lines|e].
  - destruct H as (w' & Hrun & Hw'), H1 as (w1' & Hrun1 & Hw1').
    rewrite Hrun, Hrun1. cbn [fst snd]. eauto.
  - destruct H as (w' & Hrun & Hw'), H1 as (w1' & Hrun1 & Hw1').
    rewrite Hrun, Hrun1. cbn [fst snd]. auto.
Qed.

End same_inputs.

(** *** The logger *)

Lemma with_parents_length (q p : Path) :
  q ∈ with_parents p -> (length q <= length p)%nat.
Proof.
  unfold with_parents. intros H.
  apply list_elem_of_fmap in H as (n & -> & _). rewrite length_take. lia.
Qed.

Lemma path_div_length (p : Path) (name : string) :
  length (path_div p name) = S (length p).
Proof. unfold path_div. rewrite length_app. simpl. lia. Qed.

Lemma parent_path_div (p : Path) (name : string) :
  parent (path_div p name) = p.
Proof. apply removelast_last. Qed.

(** A file of [data/raw] is none of the directories made for a report of
    [data/processed]. *)
Lemma input_not_made (data_dir : Path) (name report : string) :
  path_div (path_div data_dir "raw") name
  ∉ with_parents (parent (path_div (path_div data_dir "processed") report)).
Proof.
  rewrite parent_path_div. intros H. apply with_parents_length in H.
  rewrite !path_div_length in H. lia.
Qed.

Lemma written_text (w : world) (out_path : Path) (text text' : string)
    (w' : world) :
  written w out_path text w' -> written w out_path text' w' -> text = text'.
Proof.
  intros [Hf _] [Hf' _].
  assert (H : files w' !! out_path = Some text)
    by (rewrite Hf; apply lookup_insert_eq).
  rewrite Hf', lookup_insert_eq in H. congruence.
Qed.

Lemma reports_written_none (log_file : Path) (w w' : world) :
  reports_written log_file w [] w' <-> same_but log_file w w'.
Proof.
  unfold reports_written, same_but. simpl. rewrite (right_id_L ∅ (∪)).
  reflexivity.
Qed.

Section logged.

Variable log_header : string -> io unit.
Variable logger_info : string -> list Path -> io unit.
Variable log_file : Path.

Hypothesis header_logs : forall title, logs_to log_file (log_header title).
Hypothesis info_logs :
  forall msg args, logs_to log_file (logger_info msg args).

Lemma reports_written_logged (w : world) (reports : list (Path * string))
    (w1 w2 : world) :
  reports_written log_file w reports w1 -> same_but log_file w1 w2 ->
  reports_written log_file w reports w2.
Proof.
  intros [Hd Hf] [Hd' Hf']. split; [congruence|].
  intros p Hp. rewrite (Hf' p Hp). apply Hf, Hp.
Qed.

Lemma reports_written_same (w : world) (reports : list (Path * string))
    (w1 w2 : world) :
  reports_written log_file w reports w1 -> same_store w1 w2 ->
  reports_written log_file w reports w2.
Proof.
  intros [Hd Hf] [Hf' Hd']. split; [congruence|].
  intros p Hp. rewrite Hf'. apply Hf, Hp.
Qed.

Lemma reports_written_add (w : world) (reports : list (Path * string))
    (w1 w2 : world) (out_path : Path) (text : string) :
  reports_written log_file w reports w1 -> written w1 out_path text w2 ->
  reports_written log_file w ((out_path, text) :: reports) w2.
Proof.
  intros [Hd Hf] [Hf' Hd']. split.
  - rewrite Hd', Hd. simpl.
    rewrite <- (assoc_L (∪)). f_equal. apply (comm_L (∪)).
  - intros p Hp. rewrite Hf'. simpl.
    destruct (decide (p = out_path)) as [->|Hne];
      [rewrite !lookup_insert_eq; reflexivity|].
    rewrite !lookup_insert_ne by congruence. apply Hf, Hp.
Qed.

(** What a pipeline reads is as it was at the start: the reports written
    since and the log are other files. *)
Lemma reports_written_input (w : world) (reports : list (Path * string))
    (w1 : world) (input_file : Path) :
  reports_written log_file w reports w1 ->
  input_file <> log_file ->
  Forall (fun r => input_file <> r.1
                   /\ input_file ∉ with_parents (parent r.1)) reports ->
  same_input input_file w w1.
Proof.
  intros [Hd Hf] Hlog Hall. split.
  - rewrite (Hf input_file Hlog). clear Hd Hf.
    induction Hall as [|r reports [Hne _] _ IH]; [reflexivity|].
    simpl. rewrite lookup_insert_ne by congruence. exact IH.
  - rewrite Hd, elem_of_union. split; [|auto].
    intros [H|H]; [exact H|]. exfalso. clear Hd Hf.
    induction Hall as [|r reports [_ Hno] _ IH]; simpl in H.
    + apply elem_of_empty in H. exact H.
    + apply elem_of_union in H as [H|H]; [|exact (IH H)].
      apply elem_of_list_to_set in H. exact (Hno H).
Qed.

Lemma header_step {A} (title : string) (k : io A) (w : world)
    (reports : list (Path * string)) (w1 : world) :
  reports_written log_file w reports w1 ->
  exists w2,
    (log_header title;;; k) w1 = k w2
    /\ reports_written log_file w reports w2.
Proof.
  intros H. destruct (header_logs title w1) as (w2 & Hrun & Hsame).
  exists w2. split; [unfold io_bind; rewrite Hrun; reflexivity|].
  eapply reports_written_logged; eassumption.
Qed.

Lemma info_step {A} (msg : string) (args : list Path) (k : io A) (w : world)
    (reports : list (Path * string)) (w1 : world) :
  reports_written log_file w reports w1 ->
  exists w2,
    (logger_info msg args;;; k) w1 = k w2
    /\ reports_written log_file w reports w2.
Proof.
  intros H. destruct (info_logs msg args w1) as (w2 & Hrun & Hsame).
  exists w2. split; [unfold io_bind; rewrite Hrun; reflexivity|].
  eapply reports_written_logged; eassumption.
Qed.

Lemma info_end (msg : string) (args : list Path) (w : world)
    (reports : list (Path * string)) (w1 : world) :
  reports_written log_file w reports w1 ->
  exists w2,
    logger_info msg args w1 = (Ok tt, w2)
    /\ reports_written log_file w reports w2.
Proof.
  intros H. destruct (info_logs msg args w1) as (w2 & Hrun & Hsame).
  exists w2. split; [exact Hrun|].
  eapply reports_written_logged; eassumption.
Qed.

(** A step of [main] that logs one line. *)
Ltac log_line H :=
  let w' := fresh "w" in
  let Hrun := fresh "Hrun" in
  let H' := fresh "H" in
  match goal with
  | |- context [io_bind (logger_info ?msg ?args) (fun _ => ?k) ?w] =>
      destruct (info_step msg args k _ _ w H) as (w' & Hrun & H');
      rewrite Hrun; clear Hrun H; rename H' into H
  end.

(** A pipeline between the calls of its logger: it ends as it does alone in
    the world in which [main] started. *)
Lemma with_logger_run (name : string) (input_file output_file : Path)
    (run : io unit) (w : world) (reports : list (Path * string))
    (w1 : world) :
  pipeline_at input_file output_file run w ->
  reports_written log_file w reports w1 ->
  input_file <> log_file ->
  Forall (fun r => input_file <> r.1
                   /\ input_file ∉ with_parents (parent r.1)) reports ->
  match fst (run w) with
  | Ok _ =>
      exists text w2,
        with_logger logger_info name output_file run w1 = (Ok tt, w2)
        /\ written w output_file text (snd (run w))
        /\ reports_written log_file w ((output_file, text) :: reports) w2
  | Raise e =>
      exists w2,
        with_logger logger_info name output_file run w1 = (Raise e, w2)
        /\ reports_written log_file w reports w2
  end.
Proof.
  intros Hpipe H Hlog Hall. unfold with_logger. log_line H.
  specialize (Hpipe w0 (reports_written_input _ _ _ _ H Hlog Hall)).
  destruct (fst (run w)) as [[]|e].
  - destruct Hpipe as (text & Hw & Hok & Hw0).
    destruct (run w0) as [r w2] eqn:Hrun. cbn [fst snd] in Hok, Hw0. subst r.
    unfold io_bind at 1. rewrite Hrun.
    pose proof (reports_written_add _ _ _ _ _ _ H Hw0) as H2.
    log_line H2.
    destruct (info_end (name +:+ ": END") [] _ _ _ H2) as (w4 & Hend & H4).
    exists text, w4. split; [exact Hend|]. split; assumption.
  - destruct Hpipe as (_ & Hraise & Hsame).
    destruct (run w0) as [r w2] eqn:Hrun. cbn [fst snd] in Hraise, Hsame.
    subst r. unfold io_bind at 1. rewrite Hrun.
    exists w2. split; [reflexivity|].
    eapply reports_written_same; eassumption.
Qed.

End logged.

(** *** [main] *)

Lemma io_bind_raised {A B} (m : io A) (k : A -> io B) (w w1 : world)
    (e : exn) :
  m w = (Raise e, w1) -> io_bind m k w = (Raise e, w1).
Proof. intros H. unfold io_bind. rewrite H. reflexivity. Qed.

Section main_runs.

Variable csv_DictReader : string -> csv_table.
Variable json_load : string -> result json.
Variable openpyxl_load_workbook : string -> result workbook.
Variable readlines : string -> list string.
Variable log_header : string -> io unit.
Variable logger_info : string -> list Path -> io unit.

(** [main] in the world [w]: the pipelines run one after the other as long
    as they return, each as it runs alone in [w]. *)
Lemma main_cases (root_dir : Path) (w : world) :
  let raw_dir := path_div (path_div root_dir "data") "raw" in
  let processed_dir := path_div (path_div root_dir "data") "processed" in
  let log_file := path_div root_dir "project.log" in
  let csv_report := path_div processed_dir "csv_ladder_score_stats.txt" in
  let xlsx_report := path_div processed_dir "xlsx_feedback_github_count.txt" in
  let json_report := path_div processed_dir "json_astronauts_by_craft.txt" in
  let text_report := path_div processed_dir "txt_summary.txt" in
  let csv := run_csv_pipeline csv_DictReader raw_dir processed_dir w in
  let xlsx :=
    run_xlsx_pipeline openpyxl_load_workbook raw_dir processed_dir w in
  let json := run_json_pipeline json_load raw_dir processed_dir w in
  let text := run_text_pipeline readlines raw_dir processed_dir w in
  let run :=
    main csv_DictReader json_load openpyxl_load_workbook readlines
      log_header logger_info root_dir w in
  (forall title, logs_to log_file (log_header title)) ->
  (forall msg args, logs_to log_file (logger_info msg args)) ->
  (forall people,
     fst (extract_people_list json_load (path_div raw_dir "astros.json")
            "people" w) = Ok people ->
     printable (Z.of_nat (length people))) ->
  match fst csv with
  | Raise e =>
      exists w', run = (Raise e, w') /\ reports_written log_file w [] w'
  | Ok _ =>
      exists t1,
        written w csv_report t1 (snd csv)
        /\ match fst xlsx with
           | Raise e =>
               exists w',
                 run = (Raise e, w')
                 /\ reports_written log_file w [(csv_report, t1)] w'
           | Ok _ =>
               exists t2,
                 written w xlsx_report t2 (snd xlsx)
                 /\ match fst json with
                    | Raise e =>
                        exists w',
                          run = (Raise e, w')
                          /\ reports_written log_file w
                             [(xlsx_report, t2); (csv_report, t1)] w'
                    | Ok _ =>
                        exists t3,
                          written w json_report t3 (snd json)
                          /\ match fst text with
                             | Raise e =>
                                 exists w',
                                   run = (Raise e, w')
                                   /\ reports_written log_file w
                                      [(json_report, t3); (xlsx_report, t2);
                                       (csv_report, t1)] w'
                             | Ok _ =>
                                 exists t4,
                                   written w text_report t4 (snd text)
                                   /\ exists w',
                                        run = (Ok tt, w')
                                        /\ reports_written log_file w
                                             [(text_report, t4); (json_report, t3);
                                         (xlsx_report, t2); (csv_report, t1)] w'
                             end
                    end
           end
  end.
Proof.
  intros raw_dir processed_dir log_file csv_report xlsx_report json_report
    text_report csv xlsx json text run Hheader Hinfo Hlen.
  assert (H : reports_written log_file w [] w)
    by (apply reports_written_none; split; reflexivity).
  unfold run, main. fold raw_dir processed_dir.
  fold csv_report xlsx_report json_report text_report.
  match goal with
  | |- context [io_bind (log_header ?title) (fun _ => ?k) ?w0] =>
      destruct (header_step log_header log_file Hheader title k _ _ w0 H)
        as (w1 & Hrun & H1); rewrite Hrun; clear Hrun H
  end.
  destruct (info_step logger_info log_file Hinfo "START main()" []
              (with_logger logger_info "CSV" csv_report
                 (run_csv_pipeline csv_DictReader raw_dir processed_dir);;;
               with_logger logger_info "XLSX" xlsx_report
                 (run_xlsx_pipeline openpyxl_load_workbook raw_dir
                    processed_dir);;;
               with_logger logger_info "JSON" json_report
                 (run_json_pipeline json_load raw_dir processed_dir);;;
               with_logger logger_info "TXT" text_report
                 (run_text_pipeline readlines raw_dir processed_dir);;;
               logger_info "END main()" []) _ _ w1 H1)
    as (w2 & Hrun & H2).
  rewrite Hrun. clear Hrun H1.
  (* CSV *)
  pose proof (with_logger_run logger_info log_file Hinfo "CSV" _ _ _ w [] w2
                (run_csv_at csv_DictReader raw_dir processed_dir w) H2) as Hcsv.
  fold csv csv_report in Hcsv.
  destruct (fst csv) as [[]|e].
  2: { destruct Hcsv as (w3 & Hrun & H3);
         [apply path_div_ne; discriminate | constructor|].
       rewrite (io_bind_raised _ _ _ _ _ Hrun). exists w3. split; [reflexivity | exact H3]. }
  destruct Hcsv as (t1 & w3 & Hrun & Ht1 & H3);
    [apply path_div_ne; discriminate | constructor|].
  rewrite (io_bind_ok _ _ _ _ _ Hrun). clear Hrun H2.
  exists t1. split; [exact Ht1|].
  (* XLSX *)
  pose proof (with_logger_run logger_info log_file Hinfo "XLSX" _ _ _ w _ w3
                (run_xlsx_at openpyxl_load_workbook raw_dir processed_dir w)
                H3) as Hxlsx.
  fold xlsx xlsx_report in Hxlsx.
  assert (Hin : forall (name report other : string),
    name <> other ->
    path_div raw_dir name <> (path_div processed_dir other, report).1
    /\ path_div raw_dir name
       ∉ with_parents (parent (path_div processed_dir other, report).1)).
  { intros name report other Hne. split; [apply path_div_ne, Hne|].
    apply input_not_made. }
  destruct (fst xlsx) as [[]|e].
  2: { destruct Hxlsx as (w4 & Hrun & H4);
         [apply path_div_ne; discriminate
         | repeat constructor; apply Hin; discriminate|].
       rewrite (io_bind_raised _ _ _ _ _ Hrun). exists w4. split; [reflexivity | exact H4]. }
  destruct Hxlsx as (t2 & w4 & Hrun & Ht2 & H4);
    [apply path_div_ne; discriminate
    | repeat constructor; apply Hin; discriminate|].
  rewrite (io_bind_ok _ _ _ _ _ Hrun). clear Hrun H3.
  exists t2. split; [exact Ht2|].
  (* JSON *)
  pose proof (with_logger_run logger_info log_file Hinfo "JSON" _ _ _ w _ w4
                (run_json_at json_load raw_dir processed_dir w Hlen) H4)
    as Hjson.
  fold json json_report in Hjson.
  destruct (fst json) as [[]|e].
  2: { destruct Hjson as (w5 & Hrun & H5);
         [apply path_div_ne; discriminate
         | repeat constructor; apply Hin; discriminate|].
       rewrite (io_bind_raised _ _ _ _ _ Hrun). exists w5. split; [reflexivity | exact H5]. }
  destruct Hjson as (t3 & w5 & Hrun & Ht3 & H5);
    [apply path_div_ne; discriminate
    | repeat constructor; apply Hin; discriminate|].
  rewrite (io_bind_ok _ _ _ _ _ Hrun). clear Hrun H4.
  exists t3. split; [exact Ht3|].
  (* text *)
  pose proof (with_logger_run logger_info log_file Hinfo "TXT" _ _ _ w _ w5
                (run_text_at readlines raw_dir processed_dir w) H5) as Htext.
  fold text text_report in Htext.
  destruct (fst text) as [[]|e].
  2: { destruct Htext as (w6 & Hrun & H6);
         [apply path_div_ne; discriminate
         | repeat constructor; apply Hin; discriminate|].
       rewrite (io_bind_raised _ _ _ _ _ Hrun). exists w6. split; [reflexivity | exact H6]. }
  destruct Htext as (t4 & w6 & Hrun & Ht4 & H6);
    [apply path_div_ne; discriminate
    | repeat constructor; apply Hin; discriminate|].
  rewrite (io_bind_ok _ _ _ _ _ Hrun). clear Hrun H5.
  exists t4. split; [exact Ht4|].
  destruct (info_end logger_info log_file Hinfo "END main()" [] _ _ _ H6)
    as (w7 & Hend & H7).
  exists w7. split; [exact Hend | exact H7].
Qed.

(** X24: [main] runs the pipelines in the order CSV, XLSX, JSON, text and
    stops at the first that raises, with the error of that pipeline.
    Which one that is can be told from the world [main] starts in: it is
    the first that raises when it is run alone in that world.  The reports
    of the pipelines before it have been written, each as the pipeline
    writes it alone, and no other file has been changed, but for the log
    of the program; no directory has been made but those of the reports.
    When no pipeline raises alone, [main] returns.  The logger is taken to
    return from every call and to write to [project.log] only; the JSON
    document has fewer than [10^4300] records. *)
Theorem main_stops_at_first_failure (root_dir : Path) (w : world) (e : exn) :
  let raw_dir := path_div (path_div root_dir "data") "raw" in
  let processed_dir := path_div (path_div root_dir "data") "processed" in
  let log_file := path_div root_dir "project.log" in
  let csv_report := path_div processed_dir "csv_ladder_score_stats.txt" in
  let xlsx_report := path_div processed_dir "xlsx_feedback_github_count.txt" in
  let json_report := path_div processed_dir "json_astronauts_by_craft.txt" in
  let text_report := path_div processed_dir "txt_summary.txt" in
  let csv := run_csv_pipeline csv_DictReader raw_dir processed_dir w in
  let xlsx :=
    run_xlsx_pipeline openpyxl_load_workbook raw_dir processed_dir w in
  let json := run_json_pipeline json_load raw_dir processed_dir w in
  let text := run_text_pipeline readlines raw_dir processed_dir w in
  let run :=
    main csv_DictReader json_load openpyxl_load_workbook readlines
      log_header logger_info root_dir w in
  (forall title, logs_to log_file (log_header title)) ->
  (forall msg args, logs_to log_file (logger_info msg args)) ->
  Forall (writable w) [csv_report; xlsx_report; json_report; text_report] ->
  (forall people,
     fst (extract_people_list json_load (path_div raw_dir "astros.json")
            "people" w) = Ok people ->
     printable (Z.of_nat (length people))) ->
  (fst csv = Raise e ->
   fst run = Raise e /\ same_but log_file w (snd run))
  /\ (fst csv = Ok tt -> fst xlsx = Raise e ->
      exists t1,
        written w csv_report t1 (snd csv)
        /\ fst run = Raise e
        /\ reports_written log_file w [(csv_report, t1)] (snd run))
  /\ (fst csv = Ok tt -> fst xlsx = Ok tt -> fst json = Raise e ->
      exists t1 t2,
        written w csv_report t1 (snd csv)
        /\ written w xlsx_report t2 (snd xlsx)
        /\ fst run = Raise e
        /\ reports_written log_file w
             [(xlsx_report, t2); (csv_report, t1)] (snd run))
  /\ (fst csv = Ok tt -> fst xlsx = Ok tt -> fst json = Ok tt ->
      fst text = Raise e ->
      exists t1 t2 t3,
        written w csv_report t1 (snd csv)
        /\ written w xlsx_report t2 (snd xlsx)
        /\ written w json_report t3 (snd json)
        /\ fst run = Raise e
        /\ reports_written log_file w
             [(json_report, t3); (xlsx_report, t2); (csv_report, t1)]
             (snd run))
  /\ (fst csv = Ok tt -> fst xlsx = Ok tt -> fst json = Ok tt ->
      fst text = Ok tt ->
      fst run = Ok tt).
Proof.
  intros raw_dir processed_dir log_file csv_report xlsx_report json_report
    text_report csv xlsx json text run Hheader Hinfo _ Hlen.
  pose proof (main_cases root_dir w Hheader Hinfo Hlen) as H.
  cbv zeta in H.
  fold raw_dir processed_dir log_file in H.
  fold csv_report xlsx_report json_report text_report in H.
  fold csv xlsx json text run in H.
  split; [|split; [|split; [|split]]].
  - intros E1. rewrite E1 in H. destruct H as (w' & -> & H).
    split; [reflexivity|]. apply reports_written_none, H.
  - intros E1 E2. rewrite E1 in H. destruct H as (t1 & Ht1 & H).
    rewrite E2 in H. destruct H as (w' & -> & H).
    exists t1. auto.
  - intros E1 E2 E3. rewrite E1 in H. destruct H as (t1 & Ht1 & H).
    rewrite E2 in H. destruct H as (t2 & Ht2 & H).
    rewrite E3 in H. destruct H as (w' & -> & H).
    exists t1, t2. auto.
  - intros E1 E2 E3 E4. rewrite E1 in H. destruct H as (t1 & Ht1 & H).
    rewrite E2 in H. destruct H as (t2 & Ht2 & H).
    rewrite E3 in H. destruct H as (t3 & Ht3 & H).
    rewrite E4 in H. destruct H as (w' & -> & H).
    exists t1, t2, t3. auto 10.
  - intros E1 E2 E3 E4. rewrite E1 in H. destruct H as (t1 & Ht1 & H).
    rewrite E2 in H. destruct H as (t2 & Ht2 & H).
    rewrite E3 in H. destruct H as (t3 & Ht3 & H).
    rewrite E4 in H. destruct H as (t4 & Ht4 & w' & -> & H).
    reflexivity.
Qed.

(** X25: when the four extractors and the statistics transformer return on
    the inputs under [data/raw], [main] returns, and the four reports are
    in the directory [data/processed]: the report of a pipeline is not
    touched by the pipelines that run after it, and no other file is
    changed, but for the log of the program; the only directories made are
    [data/processed] and those above it.  The logger is taken to return
    from every call and to write to [project.log] only; the JSON document
    has fewer than [10^4300] records; in the statistics a zero is written
    [0.00] or [-0.00]. *)
Theorem main_writes_four_reports (root_dir : Path) (w : world)
    (scores : list float) (stats : gmap string float)
    (values : list string) (people : list (gmap string json))
    (lines : list string) :
  let raw_dir := path_div (path_div root_dir "data") "raw" in
  let processed_dir := path_div (path_div root_dir "data") "processed" in
  let log_file := path_div root_dir "project.log" in
  let csv_report := path_div processed_dir "csv_ladder_score_stats.txt" in
  let xlsx_report := path_div processed_dir "xlsx_feedback_github_count.txt" in
  let json_report := path_div processed_dir "json_astronauts_by_craft.txt" in
  let text_report := path_div processed_dir "txt_summary.txt" in
  (forall title, logs_to log_file (log_header title)) ->
  (forall msg args, logs_to log_file (logger_info msg args)) ->
  Forall (writable w) [csv_report; xlsx_report; json_report; text_report] ->
  fst (extract_csv_scores csv_DictReader
         (path_div raw_dir "2020_happiness.csv") "Ladder score" w)
  = Ok scores ->
  transform_scores_to_stats scores = Ok stats ->
  fst (extract_xlsx_column_strings openpyxl_load_workbook
         (path_div raw_dir "Feedback.xlsx") "A" w) = Ok values ->
  fst (extract_people_list json_load (path_div raw_dir "astros.json")
         "people" w) = Ok people ->
  printable (Z.of_nat (length people)) ->
  fst (extract_lines readlines (path_div raw_dir "romeo_and_juliet.txt") w)
  = Ok lines ->
  exists count lo hi avg sd n github csv_text w',
    stats !! "count" = Some count /\ stats !! "min" = Some lo
    /\ stats !! "max" = Some hi /\ stats !! "mean" = Some avg
    /\ stats !! "stdev" = Some sd /\ int_of_float count = Ok n
    /\ stats_report_of n lo hi avg sd csv_text
    /\ transform_count_word values "GitHub" = Ok github
    /\ main csv_DictReader json_load openpyxl_load_workbook readlines
         log_header logger_info root_dir w = (Ok tt, w')
    /\ reports_written log_file w
         [(text_report,
           summary_report (Z.of_nat (length lines))
             (Z.of_nat (sum_list (map word_starts lines)))
             (Z.of_nat (total_length lines)));
          (json_report,
           counts_report (transform_count_by_craft people "craft"));
          (xlsx_report, count_report "GitHub" "A" github);
          (csv_report, csv_text)] w'
    /\ dirs w' = dirs w ∪ list_to_set (with_parents processed_dir).
Proof.
  intros raw_dir processed_dir log_file csv_report xlsx_report json_report
    text_report Hheader Hinfo _ Hcsv Hstats Hxlsx Hjson Hlen Htext.
  assert (Hlen' : forall people',
    fst (extract_people_list json_load (path_div raw_dir "astros.json")
           "people" w) = Ok people' ->
    printable (Z.of_nat (length people'))).
  { intros people' E. rewrite Hjson in E. injection E as <-. exact Hlen. }
  pose proof (main_cases root_dir w Hheader Hinfo Hlen') as H.
  cbv zeta in H.
  fold raw_dir processed_dir log_file in H.
  fold csv_report xlsx_report json_report text_report in H.
  (* what each pipeline writes alone *)
  pose proof (run_csv_cases csv_DictReader raw_dir processed_dir w) as H1.
  cbv zeta in H1. rewrite Hcsv, Hstats in H1.
  destruct H1 as (count & lo & hi & avg & sd & n & w1 & Ec & Elo & Ehi & Eavg
                  & Esd & Hn & _ & Hrun1 & Hw1).
  pose proof (run_xlsx_cases openpyxl_load_workbook raw_dir processed_dir w)
    as H2.
  cbv zeta in H2. rewrite Hxlsx in H2.
  destruct H2 as (github & w2 & Hgithub & Hrun2 & Hw2).
  pose proof (run_json_cases json_load raw_dir processed_dir w) as H3.
  cbv zeta in H3. rewrite Hjson in H3.
  destruct (H3 Hlen) as (w3 & Hrun3 & Hw3).
  pose proof (run_text_cases readlines raw_dir processed_dir w) as H4.
  cbv zeta in H4. rewrite Htext in H4.
  destruct H4 as (w4 & Hrun4 & Hw4).
  rewrite Hrun1, Hrun2, Hrun3, Hrun4 in H. cbn [fst snd] in H.
  destruct H as (t1 & Ht1 & t2 & Ht2 & t3 & Ht3 & t4 & Ht4 & w' & Hrun & H).
  rewrite (written_text _ _ _ _ _ Ht1 Hw1) in H.
  rewrite (written_text _ _ _ _ _ Ht2 Hw2) in H.
  rewrite (written_text _ _ _ _ _ Ht3 Hw3) in H.
  rewrite (written_text _ _ _ _ _ Ht4 Hw4) in H.
  exists count, lo, hi, avg, sd, n, github, (stats_report n lo hi avg sd), w'.
  do 6 (split; [assumption|]).
  split; [apply stats_report_printed|].
  split; [exact Hgithub|]. split; [exact Hrun|]. split; [exact H|].
  destruct H as [Hd _]. rewrite Hd. cbn [map fst union_list foldr].
  unfold text_report, json_report, xlsx_report, csv_report.
  rewrite !parent_path_div, (right_id_L ∅ (∪)), !(idemp_L (∪)).
  reflexivity.
Qed.

End main_runs.

(** ** Inputs without usable records *)

Lemma transform_not_finite_raises (scores : list float) :
  (2 <= length scores)%nat -> Z.of_nat (length scores) <= 2 ^ 63 ->
  Exists (fun x => is_finite x = false) scores ->
  transform_scores_to_stats scores = Raise AttributeError.
Proof.
  intros Hn Hlen Hex. apply not_finite_total in Hex as (t & Ht).
  destruct scores as [|x l]; [simpl in Hn; lia|].
  destruct (float_of_len_returns (Z.of_nat (length (x :: l))))
    as (count & Hcount & _); [simpl length in *; lia|].
  destruct (mean_not_finite (x :: l) t Ht) as (avg & Havg); [discriminate|].
  unfold transform_scores_to_stats. rewrite Hcount, Havg.
  cbn [builtin_min builtin_max bind].
  destruct (Z.ltb_spec 1 (Z.of_nat (length (x :: l)))) as [_|Hno]; [|lia].
  rewrite (stdev_not_finite (x :: l) t Ht Hn). reflexivity.
Qed.

Section csv_errors.

Variable csv_DictReader : string -> csv_table.

(** X27: the CSV pipeline on a regular file.  When the reader reads the
    file without error, to a header with the column [Ladder score]: if no
    cell of the column is read as a float, the pipeline raises
    [ValueError]; if two or more are and one of them is a NaN or an
    infinity (cells such as [nan] or [inf] are read as floats), it raises
    [AttributeError].  When the reader raises at a line after such a
    header, the pipeline raises the error of the reader.  In all these
    cases no file or directory has been created or changed. *)
Theorem run_csv_pipeline_raises (raw_dir processed_dir : Path) (w : world)
    (text : string) (names : list string) :
  let input_file := path_div raw_dir "2020_happiness.csv" in
  let output_file := path_div processed_dir "csv_ladder_score_stats.txt" in
  writable w output_file ->
  files w !! input_file = Some text ->
  "Ladder score" ∈ names ->
  (forall rs,
     csv_DictReader text = CsvTable (Some names) rs ->
     let scores := omap (cell_score "Ladder score") rs in
     (scores = [] ->
      exists w',
        run_csv_pipeline csv_DictReader raw_dir processed_dir w
        = (Raise ValueError, w')
        /\ same_store w w')
     /\ ((2 <= length scores)%nat -> Z.of_nat (length scores) <= 2 ^ 63 ->
         Exists (fun x => is_finite x = false) scores ->
         exists w',
           run_csv_pipeline csv_DictReader raw_dir processed_dir w
           = (Raise AttributeError, w')
           /\ same_store w w'))
  /\ (forall e,
      csv_DictReader text = CsvReading (Ok (Some names)) (Raise e) ->
      exists w',
        run_csv_pipeline csv_DictReader raw_dir processed_dir w
        = (Raise e, w')
        /\ same_store w w').
Proof.
  intros input_file output_file _ Hfile Hcol.
  pose proof (run_csv_cases csv_DictReader raw_dir processed_dir w) as H.
  cbv zeta in H. fold input_file output_file in H.
  destruct (extract_csv_file csv_DictReader input_file "Ladder score" text w
              Hfile) as (w1 & Hextract & _).
  rewrite Hextract in H. cbn [fst] in H. clear Hextract. split.
  - intros rs Hreader scores.
    rewrite Hreader, (reading_scores_table _ _ _ Hcol) in H.
    fold scores in H. split.
    + intros E. rewrite E in H. exact H.
    + intros Hn Hlen Hex.
      rewrite (transform_not_finite_raises scores Hn Hlen Hex) in H. exact H.
  - intros e Hreader. rewrite Hreader in H.
    unfold reading_scores in H. cbn [fieldnames rows bind] in H.
    rewrite bool_decide_eq_true_2 in H by exact Hcol. exact H.
Qed.

End csv_errors.

Section json_no_records.

Variable json_load : string -> result json.

(** X28: a JSON document without records is not an error.  When the
    top-level dictionary has no key [people], or has a list under it that
    holds no dictionary, the JSON pipeline returns, and the report holds
    the title line only. *)
Theorem run_json_pipeline_no_records (raw_dir processed_dir : Path)
    (w : world) (text : string) (d : gmap string json) :
  let input_file := path_div raw_dir "astros.json" in
  let output_file := path_div processed_dir "json_astronauts_by_craft.txt" in
  writable w output_file ->
  files w !! input_file = Some text ->
  json_load text = Ok (JDict d) ->
  d !! "people" = None
  \/ (exists items,
        d !! "people" = Some (JList items) /\ omap json_dict items = []) ->
  exists w',
    run_json_pipeline json_load raw_dir processed_dir w = (Ok tt, w')
    /\ written w output_file ("Astronauts by spacecraft:" +:+ nl) w'.
Proof.
  intros input_file output_file _ Hfile Hload Hpeople.
  pose proof (run_json_cases json_load raw_dir processed_dir w) as H.
  cbv zeta in H. fold input_file output_file in H.
  destruct (extract_people_file json_load input_file "people" text w Hfile)
    as (w1 & Hextract & _).
  rewrite Hload in Hextract. cbn [bind] in Hextract.
  assert (E : match default (JList []) (d !! "people") with
              | JList value => Ok (omap json_dict value)
              | _ => Raise TypeError
              end = Ok []).
  { destruct Hpeople as [-> | (items & -> & Hitems)]; [reflexivity|].
    simpl. f_equal. exact Hitems. }
  rewrite E in Hextract. rewrite Hextract in H. cbn [fst] in H.
  destruct H as (w' & Hrun & Hw'); [vm_compute; reflexivity|].
  exists w'. split; [exact Hrun|].
  replace ("Astronauts by spacecraft:" +:+ nl)
    with (counts_report (transform_count_by_craft [] "craft"))
    by (vm_compute; reflexivity).
  exact Hw'.
Qed.

End json_no_records.

(** ** The properties on the example run *)

Lemma load_summary_report_writes_witness :
  exists w',
    load_summary_report {[ "lines" := 1; "words" := 2; "chars" := 9 ]}
      ["out"; "summary.txt"] empty_world = (Ok tt, w')
    /\ written empty_world ["out"; "summary.txt"] (summary_report 1 2 9) w'.
Proof.
  destruct (load_summary_report_writes
              {[ "lines" := 1; "words" := 2; "chars" := 9 ]}
              ["out"; "summary.txt"] empty_world) as (Hcomplete & _).
  - split; [apply not_elem_of_empty | repeat constructor].
  - apply Hcomplete; vm_compute; reflexivity.
Defined.

Lemma run_text_pipeline_effect_witness :
  exists w',
    run_text_pipeline example_readlines ["project"; "data"; "raw"]
      ["project"; "data"; "processed"] example_world = (Ok tt, w')
    /\ written example_world ["project"; "data"; "processed"; "txt_summary.txt"]
         (summary_report 1 4 26) w'.
Proof.
  destruct (run_text_pipeline_effect example_readlines
              ["project"; "data"; "raw"] ["project"; "data"; "processed"]
              example_world) as (Hfile & _).
  - split; [apply not_elem_of_empty | repeat constructor].
  - apply (Hfile "Two households, both alike"). reflexivity.
Defined.

Lemma extract_xlsx_column_strings_cells_witness :
  exists w',
    extract_xlsx_column_strings example_load_workbook
      ["project"; "data"; "raw"; "Feedback.xlsx"] "A" example_world
    = (Ok ["GitHub and github"; "Git"], w')
    /\ same_store example_world w'.
Proof.
  destruct (extract_xlsx_column_strings_cells example_load_workbook
              ["project"; "data"; "raw"; "Feedback.xlsx"] "A" "xlsx"
              example_world) as (w' & Hrun & Hstore & _).
  - reflexivity.
  - exists w'. split; [exact Hrun | exact Hstore].
Defined.

Lemma transform_count_word_case_insensitive_witness :
  transform_count_word ["GITHUB"] "github"
  = transform_count_word ["github"] "GitHub".
Proof.
  destruct transform_count_word_case_insensitive as [Hcase _].
  apply Hcase; reflexivity.
Defined.

Lemma transform_count_word_bounds_witness :
  0 <= 2
  /\ 2 * Z.of_nat (String.length "GitHub")
     <= Z.of_nat (total_length ["GitHub and github"; "Git"])
  /\ verify_count 2 = Ok tt.
Proof.
  apply (transform_count_word_bounds ["GitHub and github"; "Git"] "GitHub" 2).
  vm_compute. reflexivity.
Defined.

Lemma transform_count_word_additive_witness :
  transform_count_word (["GitHub"] ++ ["github"; "Git"]) "GitHub" = Ok (1 + 1).
Proof.
  destruct (transform_count_word_additive "GitHub") as [Hadd _].
  apply Hadd; vm_compute; reflexivity.
Defined.

Lemma run_xlsx_pipeline_effect_witness :
  exists count w',
    transform_count_word ["GitHub and github"; "Git"] "GitHub" = Ok count
    /\ run_xlsx_pipeline example_load_workbook ["project"; "data"; "raw"]
         ["project"; "data"; "processed"] example_world = (Ok tt, w')
    /\ written example_world
         ["project"; "data"; "processed"; "xlsx_feedback_github_count.txt"]
         (count_report "GitHub" "A" count) w'.
Proof.
  destruct (run_xlsx_pipeline_effect example_load_workbook
              ["project"; "data"; "raw"] ["project"; "data"; "processed"]
              example_world) as (Hreturns & _).
  - split; [apply not_elem_of_empty | repeat constructor].
  - apply Hreturns. vm_compute. reflexivity.
Defined.

Lemma extract_people_list_items_witness :
  exists w',
    extract_people_list example_json_load
      ["project"; "data"; "raw"; "astros.json"] "people" example_world
    = (Ok [{[ "craft" := JStr "ISS" ]}; ∅], w')
    /\ same_store example_world w'.
Proof.
  apply (extract_people_list_items example_json_load
           ["project"; "data"; "raw"; "astros.json"] "people" "json"
           example_world).
  reflexivity.
Defined.

Lemma transform_count_by_craft_groups_witness :
  transform_count_by_craft [{[ "craft" := JStr "ISS" ]}; ∅] "craft"
  = transform_count_by_craft [∅; {[ "craft" := JStr "ISS" ]}] "craft".
Proof.
  destruct (transform_count_by_craft_groups "craft") as [Hperm _].
  apply Hperm. apply Permutation_swap.
Defined.

Lemma run_json_pipeline_effect_witness :
  let counts :=
    transform_count_by_craft [{[ "craft" := JStr "ISS" ]}; ∅] "craft" in
  dict_sum counts = 2
  /\ exists w',
       run_json_pipeline example_json_load ["project"; "data"; "raw"]
         ["project"; "data"; "processed"] example_world = (Ok tt, w')
       /\ written example_world
            ["project"; "data"; "processed"; "json_astronauts_by_craft.txt"]
            (counts_report counts) w'.
Proof.
  destruct (run_json_pipeline_effect example_json_load
              ["project"; "data"; "raw"] ["project"; "data"; "processed"]
              example_world) as (Hreturns & _).
  - split; [apply not_elem_of_empty | repeat constructor].
  - apply (Hreturns [{[ "craft" := JStr "ISS" ]}; ∅]);
      vm_compute; reflexivity.
Defined.

Lemma extract_csv_scores_rows_witness :
  let run :=
    extract_csv_scores example_reader
      ["project"; "data"; "raw"; "2020_happiness.csv"] "Ladder score"
      example_world in
  same_store example_world (snd run)
  /\ fst run = Ok example_scores
  /\ (length example_scores <= length example_rows)%nat.
Proof.
  intros run.
  destruct (extract_csv_scores_rows example_reader
              ["project"; "data"; "raw"; "2020_happiness.csv"] "Ladder score"
              "csv" example_world) as (Hstore & Hrows & _).
  - reflexivity.
  - split; [exact Hstore|].
    destruct (Hrows ["Ladder score"] example_rows) as [Hrun Hlen].
    + reflexivity.
    + apply list_elem_of_here.
    + assert (Hscores : omap (cell_score "Ladder score") example_rows
                        = example_scores) by (vm_compute; reflexivity).
      rewrite Hscores in Hrun, Hlen. split; assumption.
Defined.

Lemma load_stats_report_writes_witness :
  printable 3
  /\ exists text w',
    stats_report_of 3 (Ffin 5) (Ffin (15 # 2))
      (Ffin (7018109419319023 # 1125899906842624))
      (Ffin (5631000533982285 # 4503599627370496)) text
    /\ load_stats_report example_summary ["out"; "stats.txt"] empty_world
       = (Ok tt, w')
    /\ written empty_world ["out"; "stats.txt"] text w'.
Proof.
  destruct (load_stats_report_writes example_summary ["out"; "stats.txt"]
              empty_world) as (Hcomplete & _).
  - split; [apply not_elem_of_empty | repeat constructor].
  - apply (Hcomplete (Ffin 3)); vm_compute; reflexivity.
Defined.

Lemma example_extracted :
  fst (extract_csv_scores example_reader
         ["project"; "data"; "raw"; "2020_happiness.csv"] "Ladder score"
         example_world) = Ok example_scores.
Proof. vm_compute. reflexivity. Qed.

Lemma run_csv_pipeline_effect_witness :
  exists count lo hi avg sd n text w',
    example_summary !! "count" = Some count
    /\ example_summary !! "min" = Some lo
    /\ example_summary !! "max" = Some hi
    /\ example_summary !! "mean" = Some avg
    /\ example_summary !! "stdev" = Some sd
    /\ int_of_float count = Ok n
    /\ (Z.of_nat (length example_scores) <= 2 ^ 53 ->
        n = Z.of_nat (length example_scores))
    /\ stats_report_of n lo hi avg sd text
    /\ run_csv_pipeline example_reader ["project"; "data"; "raw"]
         ["project"; "data"; "processed"] example_world = (Ok tt, w')
    /\ written example_world
         ["project"; "data"; "processed"; "csv_ladder_score_stats.txt"]
         text w'.
Proof.
  destruct (run_csv_pipeline_effect example_reader
              ["project"; "data"; "raw"] ["project"; "data"; "processed"]
              example_world) as (Hreturns & _).
  - split; [apply not_elem_of_empty | repeat constructor].
  - apply (Hreturns example_scores example_summary).
    + exact example_extracted.
    + exact example_transformed.
Defined.

Lemma run_csv_pipeline_returns_witness :
  exists lo hi avg sd text w',
    stats_report_of 3 lo hi avg sd text
    /\ run_csv_pipeline example_reader ["project"; "data"; "raw"]
         ["project"; "data"; "processed"] example_world = (Ok tt, w')
    /\ written example_world
         ["project"; "data"; "processed"; "csv_ladder_score_stats.txt"]
         text w'.
Proof.
  assert (Hscores : omap (cell_score "Ladder score") example_rows
                    = example_scores) by (vm_compute; reflexivity).
  pose proof (run_csv_pipeline_returns example_reader
                ["project"; "data"; "raw"] ["project"; "data"; "processed"]
                example_world "csv" ["Ladder score"] example_rows) as H.
  cbv zeta in H. rewrite Hscores in H. apply H.
  - split; [apply not_elem_of_empty | repeat constructor].
  - reflexivity.
  - reflexivity.
  - apply list_elem_of_here.
  - discriminate.
  - repeat constructor.
  - vm_compute. discriminate.
Defined.

Lemma transform_stats_extremes_witness :
  exists lo hi,
    example_summary !! "min" = Some lo /\ example_summary !! "max" = Some hi
    /\ lo ∈ example_scores /\ hi ∈ example_scores
    /\ (Forall (fun x => is_nan x = false) example_scores ->
        Forall (fun x => float_le lo x = true /\ float_le x hi = true)
          example_scores)
    /\ (forall x, head example_scores = Some x -> is_nan x = true ->
        lo = Fnan /\ hi = Fnan).
Proof.
  apply (transform_stats_extremes example_scores example_summary).
  exact example_transformed.
Defined.

Lemma transform_equal_scores_witness :
  exists stats avg,
    transform_scores_to_stats [Ffin 5; Ffin 5; Ffin 5] = Ok stats
    /\ stats !! "min" = Some (Ffin 5) /\ stats !! "max" = Some (Ffin 5)
    /\ stats !! "mean" = Some (Ffin avg) /\ (avg == 5)%Q
    /\ stats !! "stdev" = Some (Ffin 0).
Proof.
  apply (transform_equal_scores 5 [Ffin 5; Ffin 5; Ffin 5]).
  - vm_compute. reflexivity.
  - discriminate.
  - repeat constructor.
  - vm_compute. discriminate.
Defined.

Lemma pipelines_all_or_nothing_witness :
  same_store empty_world
    (snd (run_text_pipeline example_readlines ["raw"] ["out"] empty_world)).
Proof.
  destruct (pipelines_all_or_nothing example_reader example_json_load
              example_load_workbook example_readlines ["raw"] ["out"]
              empty_world
              (snd (run_text_pipeline example_readlines ["raw"] ["out"]
                      empty_world))
              FileNotFoundError) as (_ & _ & _ & Htext).
  apply Htext.
  - split; [apply not_elem_of_empty | repeat constructor].
  - reflexivity.
Defined.

(** A logger that appends to a file returns, and changes that file
    only. *)
Lemma file_logger_logs (log_file : Path) (msg : string) :
  logs_to log_file (file_logger log_file msg).
Proof.
  intros w. eexists. split; [reflexivity|]. split; [reflexivity|].
  intros p Hp. simpl. apply lookup_insert_ne. congruence.
Qed.

Lemma main_stops_at_first_failure_witness :
  let csv_report :=
    ["project"; "data"; "processed"; "csv_ladder_score_stats.txt"] in
  let log_file := ["project"; "project.log"] in
  let csv :=
    run_csv_pipeline example_reader ["project"; "data"; "raw"]
      ["project"; "data"; "processed"] csv_only_world in
  let run :=
    main example_reader example_json_load example_load_workbook
      example_readlines (fun title => file_logger log_file title)
      (fun msg _ => file_logger log_file msg) example_root csv_only_world in
  exists t1,
    written csv_only_world csv_report t1 (snd csv)
    /\ fst run = Raise FileNotFoundError
    /\ reports_written log_file csv_only_world [(csv_report, t1)] (snd run).
Proof.
  intros csv_report log_file csv run.
  destruct (main_stops_at_first_failure example_reader example_json_load
              example_load_workbook example_readlines
              (fun title => file_logger log_file title)
              (fun msg _ => file_logger log_file msg) example_root
              csv_only_world FileNotFoundError) as (_ & Hxlsx & _).
  - intros title. apply file_logger_logs.
  - intros msg args. apply file_logger_logs.
  - repeat constructor; apply not_elem_of_empty.
  - intros people H. vm_compute in H. discriminate H.
  - apply Hxlsx; vm_compute; reflexivity.
Defined.

Lemma main_writes_four_reports_witness :
  let log_file := ["project"; "project.log"] in
  exists count lo hi avg sd n github csv_text w',
    example_summary !! "count" = Some count
    /\ example_summary !! "min" = Some lo
    /\ example_summary !! "max" = Some hi
    /\ example_summary !! "mean" = Some avg
    /\ example_summary !! "stdev" = Some sd /\ int_of_float count = Ok n
    /\ stats_report_of n lo hi avg sd csv_text
    /\ transform_count_word ["GitHub and github"; "Git"] "GitHub" = Ok github
    /\ main example_reader example_json_load example_load_workbook
         example_readlines (fun title => file_logger log_file title)
         (fun msg _ => file_logger log_file msg) example_root example_world
       = (Ok tt, w')
    /\ reports_written log_file example_world
         [(["project"; "data"; "processed"; "txt_summary.txt"],
           summary_report 1 4 26);
          (["project"; "data"; "processed"; "json_astronauts_by_craft.txt"],
           counts_report
             (transform_count_by_craft
                [{[ "craft" := JStr "ISS" ]}; ∅] "craft"));
          (["project"; "data"; "processed";
            "xlsx_feedback_github_count.txt"],
           count_report "GitHub" "A" github);
          (["project"; "data"; "processed"; "csv_ladder_score_stats.txt"],
           csv_text)] w'
    /\ dirs w'
       = dirs example_world
         ∪ list_to_set (with_parents ["project"; "data"; "processed"]).
Proof.
  intros log_file.
  apply (main_writes_four_reports example_reader example_json_load
           example_load_workbook example_readlines
           (fun title => file_logger log_file title)
           (fun msg _ => file_logger log_file msg) example_root example_world
           example_scores example_summary ["GitHub and github"; "Git"]
           [{[ "craft" := JStr "ISS" ]}; ∅] ["Two households, both alike"]).
  - intros title. apply file_logger_logs.
  - intros msg args. apply file_logger_logs.
  - repeat constructor; apply not_elem_of_empty.
  - exact example_extracted.
  - exact example_transformed.
  - vm_compute. reflexivity.
  - vm_compute. reflexivity.
  - vm_compute. reflexivity.
  - vm_compute. reflexivity.
Defined.

Lemma run_csv_pipeline_raises_witness :
  exists w',
    run_csv_pipeline infinite_reader ["project"; "data"; "raw"]
      ["project"; "data"; "processed"] example_world
    = (Raise AttributeError, w')
    /\ same_store example_world w'.
Proof.
  assert (Hscores :
    omap (cell_score "Ladder score")
      (map (fun cell => ({[ "Ladder score" := Some cell ]} : csv_row))
         ["1.5"; "inf"])
    = [Ffin (3 # 2); Finf false]) by (vm_compute; reflexivity).
  destruct (run_csv_pipeline_raises infinite_reader
              ["project"; "data"; "raw"] ["project"; "data"; "processed"]
              example_world "csv" ["Ladder score"]) as (Hrows & _).
  - split; [apply not_elem_of_empty | repeat constructor].
  - reflexivity.
  - apply list_elem_of_here.
  - destruct (Hrows _ eq_refl) as (_ & H). rewrite Hscores in H. apply H.
    + simpl. lia.
    + vm_compute. discriminate.
    + right. left. reflexivity.
Defined.

Lemma run_json_pipeline_no_records_witness :
  exists w',
    run_json_pipeline (fun _ => Ok (JDict ∅)) ["project"; "data"; "raw"]
      ["project"; "data"; "processed"] example_world = (Ok tt, w')
    /\ written example_world
         ["project"; "data"; "processed"; "json_astronauts_by_craft.txt"]
         ("Astronauts by spacecraft:" +:+ nl) w'.
Proof.
  apply (run_json_pipeline_no_records (fun _ => Ok (JDict ∅))
           ["project"; "data"; "raw"] ["project"; "data"; "processed"]
           example_world "json" ∅).
  - split; [apply not_elem_of_empty | repeat constructor].
  - reflexivity.
  - reflexivity.
  - left. reflexivity.
Defined.
